(** * AAUL agent: control-plane model and verified properties

    A shallow embedding of the agent's control plane (firewall port
    reconciliation, session store, authentication, request signing,
    self-update, package-update cycle and command dispatch), followed by
    the properties proved about it.

    Conventions.
    - Python [int] is [Z]; Python [str] is [string]; a [dict] used as a
      map is a [gmap string _]; a [list] is a [list].
    - Code that mutates objects or the host is written in state-passing
      style: a function takes the state before and returns its result
      together with the state after.
    - What the host answers (exit codes of subprocesses, I/O failures,
      the account database, ...) is supplied by an environment record;
      the functions are total in it. *)

From Stdlib Require Import ZArith QArith String Ascii List Bool Lia.
From Stdlib Require Import DecimalString DecimalZ DecimalPos.
From stdpp Require Import base option list gmap strings.

Local Open Scope string_scope.
Local Open Scope list_scope.
Local Open Scope Z_scope.

(* ===================================================================== *)
(** * Part I: the embedding                                               *)
(* ===================================================================== *)

(** ** Python built-ins used by the agent *)

Module Py.

(** [str(n)] for an [int]: decimal digits, a leading minus sign for
    negative numbers, no leading zeros. *)
Definition str (n : Z) : string := NilZero.string_of_int (Z.to_int n).

(** Characters for which [str.isspace] holds, ASCII range. *)
Definition isspace (c : ascii) : bool :=
  let n := N_of_ascii c in
  ((9 <=? n) && (n <=? 13) || (28 <=? n) && (n <=? 32))%N.

Fixpoint lstrip (s : string) : string :=
  match s with
  | String c s' => if isspace c then lstrip s' else s
  | EmptyString => EmptyString
  end.

(** [rstrip] keeps a character when it is not a space or when something
    is kept after it. *)
Fixpoint rstrip (s : string) : string :=
  match s with
  | String c s' =>
      match rstrip s' with
      | EmptyString => if isspace c then EmptyString else String c EmptyString
      | r => String c r
      end
  | EmptyString => EmptyString
  end.

(** [s.strip()] *)
Definition strip (s : string) : string := rstrip (lstrip s).

(** Truthiness of a [str]. *)
Definition truthy (s : string) : bool :=
  match s with EmptyString => false | _ => true end.

(** [a or b] on strings. *)
Definition or_ (a b : string) : string := if truthy a then a else b.

(** [" ".join(l)] with separator [sep]. *)
Fixpoint join (sep : string) (l : list string) : string :=
  match l with
  | [] => ""
  | [x] => x
  | x :: l' => x +:+ sep +:+ join sep l'
  end.

(** [s.replace(c, '')] for a one-character [c]. *)
Fixpoint remove_char (c : ascii) (s : string) : string :=
  match s with
  | EmptyString => EmptyString
  | String d s' => if Ascii.eqb c d then remove_char c s' else String d (remove_char c s')
  end.

(** [s.startswith(c)] for a one-character [c]. *)
Definition startswith_char (c : ascii) (s : string) : bool :=
  match s with String d _ => Ascii.eqb c d | EmptyString => false end.

(** Underscores in a numeric literal stand between two digits only. *)
Fixpoint underscores_ok (after_digit : bool) (s : string) : bool :=
  match s with
  | EmptyString => after_digit
  | String c s' =>
      if Ascii.eqb c "_"%char then after_digit && underscores_ok false s'
      else underscores_ok true s'
  end.

Definition int_digits (s : string) : option Z :=
  if underscores_ok false s
  then Z.of_uint <$> NilZero.uint_of_string (remove_char "_"%char s)
  else None.

(** White space as [int] sees it in ASCII text: the tab, the line feed,
    the vertical tab, the form feed, the carriage return and the space
    (the separators 28 to 31, which [str.isspace] accepts, are not). *)
Definition is_c_space (c : ascii) : bool :=
  let n := N_of_ascii c in
  ((9 <=? n) && (n <=? 13) || (n =? 32))%N.

Fixpoint skip_spaces (s : string) : string :=
  match s with
  | String c s' => if is_c_space c then skip_spaces s' else s
  | EmptyString => EmptyString
  end.

Fixpoint drop_trailing_spaces (s : string) : string :=
  match s with
  | String c s' =>
      match drop_trailing_spaces s' with
      | EmptyString => if is_c_space c then EmptyString else String c EmptyString
      | r => String c r
      end
  | EmptyString => EmptyString
  end.

Definition is_decimal (c : ascii) : bool :=
  let n := N_of_ascii c in ((48 <=? n) && (n <=? 57))%N.

(** The digits and underscores a text starts with. *)
Fixpoint digit_run (s : string) : string :=
  match s with
  | String c s' =>
      if is_decimal c || Ascii.eqb c "_"%char then String c (digit_run s') else EmptyString
  | EmptyString => EmptyString
  end.

Fixpoint count_digits (s : string) : N :=
  match s with
  | String c s' => ((if is_decimal c then 1 else 0) + count_digits s')%N
  | EmptyString => 0%N
  end.

(** An optional sign in front. *)
Definition split_sign (s : string) : bool * string :=
  match s with
  | String "-"%char r => (true, r)
  | String "+"%char r => (false, r)
  | r => (false, r)
  end.

(** [sys.int_info.default_max_str_digits]: the agent leaves the limit of
    the interpreter as it is. *)
Definition int_max_str_digits : N := 4300.

(** What [int] makes of an ASCII text: a number, [ValueError] for an
    invalid literal, or [ValueError] for too many digits. *)
Inductive int_reading :=
| IntValue (z : Z)
| IntInvalid
| IntTooLong (digits : N).

(** [int(s)] for an ASCII [str]: white space around, an optional sign,
    decimal digits with single underscores between them. The digits are
    counted, and the limit applied, before what follows them is looked
    at. *)
Definition read_int (s : string) : int_reading :=
  let (negative, body) := split_sign (skip_spaces s) in
  let run := digit_run body in
  if underscores_ok false run && (int_max_str_digits <? count_digits run)%N
  then IntTooLong (count_digits run)
  else
    match int_digits (drop_trailing_spaces body) with
    | Some z => IntValue (if negative : bool then - z else z)
    | None => IntInvalid
    end.

(** [s.isascii()] *)
Fixpoint is_ascii (s : string) : bool :=
  match s with
  | EmptyString => true
  | String c s' => (N_of_ascii c <? 128)%N && is_ascii s'
  end.

(** The text [int] reads. An ASCII text is read as it is. In a text with
    characters outside ASCII, CPython first replaces, by its character
    database, every decimal digit of another script by the ASCII digit
    and every other white space by a space, and cuts the text at the
    first character that is neither, leaving [?] there; [to_ascii]
    stands for that step. *)
Definition int_text (to_ascii : string -> string) (s : string) : string :=
  if is_ascii s then s else to_ascii s.

(** [int(s)] for a [str]; [None] stands for [ValueError]. *)
Definition int_ (to_ascii : string -> string) (s : string) : option Z :=
  match read_int (int_text to_ascii s) with
  | IntValue z => Some z
  | IntInvalid | IntTooLong _ => None
  end.

(** The hexadecimal digit of a number below 16. *)
Definition hex_digit (n : N) : ascii :=
  default "f"%char (String.get (N.to_nat n) "0123456789abcdef").

(** [bytes.hex()] *)
Fixpoint hex (b : string) : string :=
  match b with
  | EmptyString => EmptyString
  | String c b' =>
      let n := N_of_ascii c in
      String (hex_digit (n / 16)) (String (hex_digit (n mod 16)) (hex b'))
  end.

(** Exceptions: the class and [str(exc)]. *)
Inductive exn_class :=
| UpdateError | ValueError | TypeError | OverflowError | AttributeError
| KeyError | OSError | FileNotFoundError | IsADirectoryError | RuntimeError
| ReadError | OtherError (name : string).

Record exn := Exn { exn_class_of : exn_class; exn_text : string }.

(** A call either returns or raises. *)
Inductive result (A : Type) :=
| Return (a : A)
| Raise (exc : exn).
Arguments Return {A} a.
Arguments Raise {A} exc.

(** [hmac.compare_digest(a, b)] on two [str]: [TypeError] unless both
    are ASCII. *)
Definition compare_digest (a b : string) : result bool :=
  if is_ascii a && is_ascii b then Return (String.eqb a b)
  else Raise (Exn TypeError "comparing strings with non-ASCII characters is not supported").

(** A [float]: a finite one is the rational it denotes. *)
Inductive float :=
| Finite (q : Q)
| Infinity (negative : bool)
| NaN.

Set Warnings "-register-all".
(** Values as [json.loads] produces them. *)
Inductive value :=
| VNone
| VBool (b : bool)
| VInt (z : Z)
| VFloat (f : float)
| VStr (s : string)
| VList (l : list value)
| VDict (d : gmap string value).

(** Truthiness of a value. *)
Definition truth (v : value) : bool :=
  match v with
  | VNone => false
  | VBool b => b
  | VInt z => negb (z =? 0)
  | VFloat (Finite q) => negb (Qnum q =? 0)
  | VFloat _ => true
  | VStr s => truthy s
  | VList l => match l with [] => false | _ => true end
  | VDict d => negb (bool_decide (d = ∅))
  end.

(** [a or b] on values. *)
Definition or_value (a b : value) : value := if truth a then a else b.

(** [d.get(k)] on a dictionary: [None] for a missing key. *)
Definition dict_get (d : gmap string value) (k : string) : value :=
  default VNone (d !! k).

(** [int(v)]; the text of the [ValueError] for an invalid literal is
    CPython's for a string without quotes or escapes. *)
Definition int_of_value (to_ascii : string -> string) (v : value) : result Z :=
  match v with
  | VInt z => Return z
  | VBool b => Return (if b then 1 else 0)
  | VFloat (Finite q) => Return (Z.quot (Qnum q) (Zpos (Qden q)))
  | VFloat (Infinity _) =>
      Raise (Exn OverflowError "cannot convert float infinity to integer")
  | VFloat NaN => Raise (Exn ValueError "cannot convert float NaN to integer")
  | VStr s =>
      match read_int (int_text to_ascii s) with
      | IntValue z => Return z
      | IntInvalid =>
          Raise (Exn ValueError ("invalid literal for int() with base 10: '" +:+ s +:+ "'"))
      | IntTooLong digits =>
          Raise (Exn ValueError
                   ("Exceeds the limit (" +:+ str (Z.of_N int_max_str_digits)
                    +:+ " digits) for integer string conversion: value has "
                    +:+ str (Z.of_N digits)
                    +:+ " digits; use sys.set_int_max_str_digits() to increase the limit"))
      end
  | VNone | VList _ | VDict _ =>
      Raise (Exn TypeError
               "int() argument must be a string, a bytes-like object or a real number")
  end.

(** [v == c] for a string constant [c]. *)
Definition eq_str (v : value) (c : string) : bool :=
  match v with VStr s => String.eqb s c | _ => false end.

(** [str(v)] as an f-string formats it; [repr_of] stands for the
    formatting of floats, lists and dictionaries. *)
Definition str_value (repr_of : value -> string) (v : value) : string :=
  match v with
  | VNone => "None"
  | VBool true => "True"
  | VBool false => "False"
  | VInt z => str z
  | VStr s => s
  | other => repr_of other
  end.

End Py.

(** ** lib/firewall.py *)

Module Firewall.

(** The values [_detect_firewall] can store in [self.firewall_type];
    [None] (no firewall) is the [option]. *)
Inductive firewall_kind := ufw | firewalld | iptables.

Definition kind_name (k : firewall_kind) : string :=
  match k with ufw => "ufw" | firewalld => "firewalld" | iptables => "iptables" end.

(** An element of [self.state["opened_ports"]]:
    [{"port": port, "protocol": protocol}]. *)
Record port_entry := PortEntry { pe_port : Z; pe_protocol : string }.

#[global] Instance port_entry_eq_dec : EqDecision port_entry.
Proof. solve_decision. Defined.

(** What [subprocess.run(cmd, capture_output=True, text=True, timeout=..)]
    can do. *)
Inductive run_outcome :=
| Completed (returncode : Z) (stdout stderr : string)
| TimeoutExpired
| FileNotFoundError
| OtherException (text : string).

(** The host as the firewall manager sees it. [exec history argv] is the
    outcome of running [argv] after the commands of [history] (oldest
    first) have been run. [write_state] is the outcome of writing the
    state file: [None] when the write goes through, [Some e] for the
    [IOError] with text [e]. *)
Record env := Env {
  euid : Z;
  exec : list (list string) -> list string -> run_outcome;
  write_state : list port_entry -> option string;
}.

(** The manager object together with the part of the host it acts on. *)
Record state := State {
  firewall_type : option firewall_kind;      (* self.firewall_type *)
  opened_ports : list port_entry;            (* self.state["opened_ports"] *)
  state_file : option (list port_entry);     (* FIREWALL_STATE_FILE *)
  commands : list (list string);             (* every argv run, oldest first *)
  log_lines : list string;                   (* lib.logs.log *)
}.

Definition M (A : Type) : Type := state -> A * state.
Definition ret {A} (a : A) : M A := fun s => (a, s).
Definition bind {A B} (m : M A) (f : A -> M B) : M B :=
  fun s => let (a, s') := m s in f a s'.

#[global] Instance M_ret : MRet M := @ret.
#[global] Instance M_bind : MBind M := fun A B f m => bind m f.

(** [let* x := m in k] runs [m], names its result and goes on with [k];
    [m ;; k] (from stdpp, through the instances above) drops the result. *)
Notation "'let*' x ':=' m 'in' k" := (bind m (fun x => k))
  (at level 10, x pattern, m at level 100, k at level 200, only parsing).

Definition log (message : string) : M unit :=
  fun s => (tt, State (firewall_type s) (opened_ports s) (state_file s)
                      (commands s) (log_lines s ++ [message])).

Definition set_opened_ports (l : list port_entry) : M unit :=
  fun s => (tt, State (firewall_type s) l (state_file s) (commands s) (log_lines s)).

Definition get {A} (f : state -> A) : M A := fun s => (f s, s).

(** [_detect_firewall], from the answers of its three probes. *)
Definition _detect_firewall (ufw_active firewalld_active iptables_active : bool)
  : option firewall_kind :=
  if ufw_active then Some ufw
  else if firewalld_active then Some firewalld
  else if iptables_active then Some iptables
  else None.

Section WithEnv.
Context (e : env).

(** [_save_state]: an [IOError] is logged, not raised. *)
Definition _save_state : M unit :=
  fun s =>
    match write_state e (opened_ports s) with
    | None => (tt, State (firewall_type s) (opened_ports s) (Some (opened_ports s))
                         (commands s) (log_lines s))
    | Some err => log ("Erreur sauvegarde état firewall: " +:+ err) s
    end.

(** [_run_command] *)
Definition _run_command (cmd : list string) : M (bool * string) :=
  fun s =>
    let cmd := if negb (euid e =? 0) then "sudo" :: cmd else cmd in
    let s' := State (firewall_type s) (opened_ports s) (state_file s)
                    (commands s ++ [cmd]) (log_lines s) in
    match exec e (commands s) cmd with
    | Completed returncode stdout stderr =>
        if returncode =? 0 then ((true, Py.strip stdout), s')
        else ((false, Py.or_ (Py.strip stderr) (Py.strip stdout)), s')
    | TimeoutExpired => ((false, "Commande timeout"), s')
    | FileNotFoundError =>
        ((false, "Commande non trouvée: " +:+ hd "" cmd), s')
    | OtherException text => ((false, text), s')
    end.

(** [f"{port}/{protocol}"] *)
Definition port_spec (port : Z) (protocol : string) : string :=
  Py.str port +:+ "/" +:+ protocol.

Definition _ufw_open_port (port : Z) (protocol : string) : M (bool * string) :=
  _run_command ["ufw"; "allow"; port_spec port protocol].

Definition _ufw_close_port (port : Z) (protocol : string) : M (bool * string) :=
  _run_command ["ufw"; "delete"; "allow"; port_spec port protocol].

Definition _firewalld_open_port (port : Z) (protocol : string) : M (bool * string) :=
  let* (success, message) :=
    _run_command ["firewall-cmd"; "--permanent"; "--add-port"; port_spec port protocol] in
  if negb success then ret (success, message)
  else _run_command ["firewall-cmd"; "--reload"].

Definition _firewalld_close_port (port : Z) (protocol : string) : M (bool * string) :=
  let* (success, message) :=
    _run_command ["firewall-cmd"; "--permanent"; "--remove-port"; port_spec port protocol] in
  if negb success then ret (success, message)
  else _run_command ["firewall-cmd"; "--reload"].

Definition save_commands : list (list string) :=
  [ ["iptables-save"; "-f"; "/etc/iptables/rules.v4"];
    ["service"; "iptables"; "save"];
    ["netfilter-persistent"; "save"] ].

(** The loop of [_save_iptables]: stop at the first command that
    succeeds. *)
Fixpoint _save_iptables_loop (cmds : list (list string)) : M unit :=
  match cmds with
  | [] =>
      log "Avertissement: Règles iptables non persistées (redémarrage les effacera)"
  | cmd :: rest =>
      let* (success, _) := _run_command cmd in
      if success
      then log ("Règles iptables sauvegardées via " +:+ hd "" cmd)
      else _save_iptables_loop rest
  end.

Definition _save_iptables : M unit := _save_iptables_loop save_commands.

Definition _iptables_open_port (port : Z) (protocol : string) : M (bool * string) :=
  let* (exists_, _) :=
    _run_command ["iptables"; "-C"; "INPUT"; "-p"; protocol;
                  "--dport"; Py.str port; "-j"; "ACCEPT"] in
  if exists_ then ret (true, "Règle existe déjà")
  else
    let* (success, message) :=
      _run_command ["iptables"; "-I"; "INPUT"; "-p"; protocol;
                    "--dport"; Py.str port; "-j"; "ACCEPT"] in
    (if success then _save_iptables else ret tt) ;;
    ret (success, message).

Definition _iptables_close_port (port : Z) (protocol : string) : M (bool * string) :=
  let* (success, message) :=
    _run_command ["iptables"; "-D"; "INPUT"; "-p"; protocol;
                  "--dport"; Py.str port; "-j"; "ACCEPT"] in
  (if success then _save_iptables else ret tt) ;;
  ret (success, message).

(** [open_port] *)
Definition open_port (port : Z) (protocol : string) : M (bool * string) :=
  let* ft := get firewall_type in
  match ft with
  | None =>
      log ("Aucun firewall actif, port " +:+ Py.str port +:+ " accessible par défaut") ;;
      ret (true, "Aucun firewall actif")
  | Some k =>
      log ("Ouverture port " +:+ port_spec port protocol +:+ " via " +:+ kind_name k) ;;
      let* (success, message) :=
        match k with
        | ufw => _ufw_open_port port protocol
        | firewalld => _firewalld_open_port port protocol
        | iptables => _iptables_open_port port protocol
        end in
      (if success then
         let port_entry := PortEntry port protocol in
         let* ports := get opened_ports in
         (if bool_decide (port_entry ∈ ports) then ret tt
          else set_opened_ports (ports ++ [port_entry]) ;; _save_state) ;;
         log ("Port " +:+ port_spec port protocol +:+ " ouvert avec succès")
       else
         log ("Échec ouverture port " +:+ port_spec port protocol +:+ ": " +:+ message)) ;;
      ret (success, message)
  end.

(** [list.remove(x)]: drops the first element equal to [x]. *)
Fixpoint list_remove (x : port_entry) (l : list port_entry) : list port_entry :=
  match l with
  | [] => []
  | y :: l' => if decide (x = y) then l' else y :: list_remove x l'
  end.

(** [close_port] *)
Definition close_port (port : Z) (protocol : string) : M (bool * string) :=
  let* ft := get firewall_type in
  match ft with
  | None => ret (true, "Aucun firewall actif")
  | Some k =>
      log ("Fermeture port " +:+ port_spec port protocol +:+ " via " +:+ kind_name k) ;;
      let* (success, message) :=
        match k with
        | ufw => _ufw_close_port port protocol
        | firewalld => _firewalld_close_port port protocol
        | iptables => _iptables_close_port port protocol
        end in
      (if success then
         let port_entry := PortEntry port protocol in
         let* ports := get opened_ports in
         (if bool_decide (port_entry ∈ ports)
          then set_opened_ports (list_remove port_entry ports) ;; _save_state
          else ret tt) ;;
         log ("Port " +:+ port_spec port protocol +:+ " fermé avec succès")
       else
         log ("Échec fermeture port " +:+ port_spec port protocol +:+ ": " +:+ message)) ;;
      ret (success, message)
  end.

(** The loop of [close_all_tracked_ports], over a copy of the list. *)
Fixpoint close_each (entries : list port_entry) : M (list (Z * bool * string)) :=
  match entries with
  | [] => ret []
  | entry :: rest =>
      let* (success, message) := close_port (pe_port entry) (pe_protocol entry) in
      let* results := close_each rest in
      ret ((pe_port entry, success, message) :: results)
  end.

Definition close_all_tracked_ports : M (list (Z * bool * string)) :=
  let* ports := get opened_ports in
  close_each ports.

(** [update_port] *)
Definition update_port (old_port new_port : Z) (protocol : string) : M (bool * string) :=
  if old_port =? new_port then ret (true, "Port inchangé")
  else
    log ("Modification port firewall: " +:+ Py.str old_port +:+ " -> " +:+ Py.str new_port) ;;
    let* (success, message) := open_port new_port protocol in
    if negb success
    then ret (false, "Échec ouverture nouveau port: " +:+ message)
    else
      let* (close_success, close_message) := close_port old_port protocol in
      (if negb close_success
       then log ("Avertissement: ancien port " +:+ Py.str old_port +:+
                 " non fermé: " +:+ close_message)
       else ret tt) ;;
      ret (true, "Port changé de " +:+ Py.str old_port +:+ " à " +:+ Py.str new_port).

End WithEnv.

End Firewall.

(** ** lib/pam_auth.py *)

Module PamAuth.

(** Session timeout in seconds. *)
Definition SESSION_TIMEOUT : Z := 3600.

(** A value of [_sessions]. A reading of [time.time()] is a number of
    seconds; readings are taken in [Z] and added exactly (the rounding of
    floating-point addition is not modelled). *)
Record session := Session {
  username : string;
  created : Z;
  expires : Z;
  last_access : Z;
}.

(** Answers of [p.authenticate(username, password, service=..)]: accepted,
    rejected (leaving [p.reason]), or an exception with its text. *)
Inductive pam_answer :=
| PamAccepted
| PamRejected (reason : string)
| PamRaised (text : string).

(** Answers of [spwd.getspnam(username)]. *)
Inductive shadow_answer :=
| ShadowEntry (sp_pwdp : string)
| ShadowKeyError
| ShadowPermissionError
| ShadowRaised (text : string).

Inductive shadow_backend_kind := crypt | passlib.

Record group := Group { gr_name : string; gr_mem : list string }.

(** The host as the authentication module sees it: the clock, the token
    generator, the account databases and the password back ends.
    [clock n] is what the [n]-th call of [time.time()] returns and
    [token_urlsafe n] the [n]-th generated token. A lookup answers
    [None] where the Python call raises [KeyError]. [ALLOWED_GROUPS] is
    the module's list of that name, which is empty as shipped and meant
    to be configured. *)
Record env := Env {
  clock : nat -> Z;
  token_urlsafe : nat -> string;
  isalnum : string -> bool;                         (* str.isalnum *)
  ALLOWED_GROUPS : list string;
  pwd_getpwnam : string -> option Z;                (* pw_gid *)
  grp_getgrgid : Z -> option group;
  grp_getgrnam : string -> option group;
  pam_authenticate : string -> string -> string -> pam_answer;
  spwd_getspnam : string -> shadow_answer;
  crypt_crypt : string -> string -> string + string;       (* hash, or exception text *)
  passlib_verify : string -> string -> bool + string;     (* verdict, or exception text *)
}.

(** The [PAMAuth] object. *)
Record PAMAuth := MkPAMAuth {
  pam_available : bool;
  shadow_available : bool;
  shadow_backend : option shadow_backend_kind;
}.

(** The module's mutable state. *)
Record state := State {
  _sessions : gmap string session;
  ticks : nat;                       (* calls of time.time() so far *)
  drawn : nat;                       (* tokens generated so far *)
  log_lines : list string;
}.

Definition M (A : Type) : Type := state -> A * state.
Definition ret {A} (a : A) : M A := fun s => (a, s).
Definition bind {A B} (m : M A) (f : A -> M B) : M B :=
  fun s => let (a, s') := m s in f a s'.

#[global] Instance M_ret : MRet M := @ret.
#[global] Instance M_bind : MBind M := fun A B f m => bind m f.

Notation "'let*' x ':=' m 'in' k" := (bind m (fun x => k))
  (at level 10, x pattern, m at level 100, k at level 200, only parsing).

Definition log (message : string) : M unit :=
  fun s => (tt, State (_sessions s) (ticks s) (drawn s) (log_lines s ++ [message])).

Definition get_sessions : M (gmap string session) := fun s => (_sessions s, s).

Definition set_sessions (m : gmap string session) : M unit :=
  fun s => (tt, State m (ticks s) (drawn s) (log_lines s)).

(** [_check_shadow], from which of [spwd], [crypt] and [passlib] can be
    imported. *)
Definition _check_shadow (has_spwd has_crypt has_passlib : bool)
  : bool * option shadow_backend_kind :=
  if negb has_spwd then (false, None)
  else if has_crypt then (true, Some crypt)
  else if has_passlib then (true, Some passlib)
  else (false, None).

Section WithEnv.
Context (e : env).

(** [time.time()] *)
Definition time_time : M Z :=
  fun s => (clock e (ticks s),
            State (_sessions s) (S (ticks s)) (drawn s) (log_lines s)).

(** [secrets.token_urlsafe(32)] *)
Definition new_token : M string :=
  fun s => (token_urlsafe e (drawn s),
            State (_sessions s) (ticks s) (S (drawn s)) (log_lines s)).

(** [_user_exists] *)
Definition _user_exists (username : string) : bool :=
  match pwd_getpwnam e username with Some _ => true | None => false end.

(** [_user_in_groups] *)
Definition _user_in_groups (username : string) (allowed_groups : list string) : bool :=
  match pwd_getpwnam e username with
  | None => false
  | Some primary_gid =>
      match grp_getgrgid e primary_gid with
      | None => false
      | Some g =>
          if bool_decide (gr_name g ∈ allowed_groups) then true
          else
            existsb
              (fun group_name =>
                 match grp_getgrnam e group_name with
                 | Some group => bool_decide (username ∈ gr_mem group)
                 | None => false
                 end)
              allowed_groups
      end
  end.

(** The loop of [_auth_pam] over the services; [reason] is [p.reason]. *)
Fixpoint _auth_pam_loop (username password : string) (services : list string)
    (reason : string) : M (bool * string) :=
  match services with
  | [] => ret (false, Py.or_ reason "Authentification échouée")
  | service :: rest =>
      match pam_authenticate e username password service with
      | PamAccepted =>
          log ("Authentification PAM réussie pour '" +:+ username +:+ "' via " +:+ service) ;;
          ret (true, "Authentification réussie")
      | PamRejected reason' => _auth_pam_loop username password rest reason'
      | PamRaised text =>
          log ("Erreur PAM: " +:+ text) ;;
          ret (false, text)
      end
  end.

(** [_auth_pam] *)
Definition _auth_pam (username password : string) : M (bool * string) :=
  _auth_pam_loop username password ["login"; "system-auth"; "sshd"; "su"] "".

(** [_auth_shadow] *)
Definition _auth_shadow (self : PAMAuth) (username password : string) : M (bool * string) :=
  match spwd_getspnam e username with
  | ShadowEntry stored_hash =>
      if Py.startswith_char "!"%char stored_hash || Py.startswith_char "*"%char stored_hash
      then ret (false, "Compte désactivé")
      else
        match shadow_backend self with
        | Some crypt =>
            match crypt_crypt e password stored_hash with
            | inl computed_hash =>
                match Py.compare_digest computed_hash stored_hash with
                | Py.Return true =>
                    log ("Authentification shadow réussie pour '" +:+ username +:+ "'") ;;
                    ret (true, "Authentification réussie")
                | Py.Return false => ret (false, "Mot de passe incorrect")
                | Py.Raise exc =>
                    log ("Erreur shadow: " +:+ Py.exn_text exc) ;;
                    ret (false, Py.exn_text exc)
                end
            | inr text => log ("Erreur shadow: " +:+ text) ;; ret (false, text)
            end
        | Some passlib =>
            match passlib_verify e password stored_hash with
            | inl true =>
                log ("Authentification shadow réussie pour '" +:+ username +:+ "'") ;;
                ret (true, "Authentification réussie")
            | inl false => ret (false, "Mot de passe incorrect")
            | inr text => log ("Erreur shadow: " +:+ text) ;; ret (false, text)
            end
        | None => ret (false, "Aucun backend shadow disponible")
        end
  | ShadowKeyError => ret (false, "Utilisateur non trouvé")
  | ShadowPermissionError =>
      log "Permission refusée pour lire /etc/shadow (exécuter en root)" ;;
      ret (false, "Erreur serveur")
  | ShadowRaised text => log ("Erreur shadow: " +:+ text) ;; ret (false, text)
  end.

(** [PAMAuth.authenticate] *)
Definition authenticate (self : PAMAuth) (username password : string) : M (bool * string) :=
  if negb (Py.truthy username) || negb (Py.truthy password)
  then ret (false, "Nom d'utilisateur et mot de passe requis")
  else if negb (isalnum e (Py.remove_char "-"%char (Py.remove_char "_"%char username)))
  then ret (false, "Nom d'utilisateur invalide")
  else if negb (_user_exists username) then
    log ("Tentative de connexion: utilisateur inexistant '" +:+ username +:+ "'") ;;
    ret (false, "Authentification échouée")
  else if bool_decide (ALLOWED_GROUPS e ≠ [])
          && negb (_user_in_groups username (ALLOWED_GROUPS e)) then
    log ("Utilisateur '" +:+ username +:+ "' non autorisé (pas dans les groupes requis)") ;;
    ret (false, "Utilisateur non autorisé")
  else
    let* (pam_ok, pam_message) :=
      (if pam_available self then _auth_pam username password else ret (false, "")) in
    if pam_ok then ret (true, pam_message)
    else
      let* (shadow_ok, shadow_message) :=
        (if shadow_available self then _auth_shadow self username password
         else ret (false, "")) in
      if shadow_ok then ret (true, shadow_message)
      else
        log ("Échec authentification pour '" +:+ username +:+ "'") ;;
        ret (false, "Authentification échouée").

(** [cleanup_sessions] *)
Definition cleanup_sessions : M unit :=
  let* now := time_time in
  let* sessions := get_sessions in
  set_sessions (filter (fun kv => ¬ (now > expires kv.2)) sessions).

(** [create_session] *)
Definition create_session (user : string) : M string :=
  let* token := new_token in
  let* t_created := time_time in
  let* t_expires := time_time in
  let* t_access := time_time in
  let* sessions := get_sessions in
  set_sessions (<[token := Session user t_created (t_expires + SESSION_TIMEOUT) t_access]>
                  sessions) ;;
  cleanup_sessions ;;
  log ("Session créée pour '" +:+ user +:+ "'") ;;
  ret token.

(** [validate_session]; the token is [None] when the request carried
    none. *)
Definition validate_session (token : option string) : M (option string) :=
  match token with
  | None => ret None
  | Some tok =>
      if negb (Py.truthy tok) then ret None
      else
        let* sessions := get_sessions in
        match sessions !! tok with
        | None => ret None
        | Some session =>
            let* now := time_time in
            if now >? expires session then
              set_sessions (delete tok sessions) ;;
              ret None
            else
              let* t_access := time_time in
              let* t_expires := time_time in
              set_sessions
                (<[tok := Session (username session) (created session)
                                  (t_expires + SESSION_TIMEOUT) t_access]> sessions) ;;
              ret (Some (username session))
        end
  end.

(** [destroy_session] *)
Definition destroy_session (token : string) : M bool :=
  let* sessions := get_sessions in
  match sessions !! token with
  | Some session =>
      set_sessions (delete token sessions) ;;
      log ("Session détruite pour '" +:+ username session +:+ "'") ;;
      ret true
  | None => ret false
  end.

(** [get_session_info] *)
Definition get_session_info (token : string) : M (option session) :=
  let* sessions := get_sessions in
  ret (sessions !! token).

(** [login] *)
Definition login (auth : PAMAuth) (username password : string)
  : M (bool * string * option string) :=
  let* (success, message) := authenticate auth username password in
  if success then
    let* token := create_session username in
    ret (true, message, Some token)
  else ret (false, message, None).

(** [logout] *)
Definition logout (token : string) : M bool := destroy_session token.

End WithEnv.

End PamAuth.

(** ** lib/local_web.py: the login form *)

Module LocalWeb.

Import PamAuth.

(** What the handler sends: the status code and the headers. *)
Record response := Response {
  status_code : Z;
  headers : list (string * string);
}.

Section WithEnv.
Context (e : env).

(** [handle_login], from the [username] and [password] fields of the
    form; [login_imported] tells whether [lib.pam_auth] could be
    imported. *)
Definition handle_login (login_imported : bool) (auth : PAMAuth)
    (username password : string) : M response :=
  if negb (Py.truthy username) || negb (Py.truthy password) then
    ret (Response 302 [("Location", "/login?error=Identifiants+requis")])
  else if negb login_imported then
    log "Authentification non disponible (module pam_auth manquant)" ;;
    ret (Response 302 [("Location", "/login?error=Authentification+non+disponible")])
  else
    let* (success, message, token) := login e auth username password in
    if success && Py.truthy (default "" token) then
      log ("Connexion r√©ussie pour " +:+ username) ;;
      ret (Response 302
             [("Set-Cookie",
               "session=" +:+ default "" token +:+ "; Path=/; HttpOnly; SameSite=Strict");
              ("Location", "/")])
    else
      log ("√âchec connexion pour " +:+ username +:+ ": " +:+ message) ;;
      ret (Response 302 [("Location", "/login?error=Identifiants+invalides")]).

End WithEnv.

End LocalWeb.

(** ** lib/security.py *)

Module Security.

(** The library functions behind the signer: [json.dumps(payload,
    sort_keys=True, separators=(',', ':'))], the HMAC-SHA256 digest
    (key bytes, message bytes, digest bytes), and what [int] makes of
    the digits and spaces outside ASCII (see [Py.int_text]). A [str] is
    its UTF-8 bytes, so [encode('utf-8')] is the identity. *)
Record env := Env {
  json_dumps : Py.value -> string;
  hmac_sha256 : string -> string -> string;
  decimal_to_ascii : string -> string;
}.

(** The signature headers. *)
Record headers := Headers {
  X_Signature : string;
  X_Timestamp : string;
  X_Nonce : string;
}.

(** [generate_nonce], from the 16 bytes of [os.urandom(16)]. *)
Definition generate_nonce (entropy : string) : string := Py.hex entropy.

(** [generate_timestamp], from [int(time.time())]. *)
Definition generate_timestamp (now : Z) : string := Py.str now.

Section WithEnv.
Context (e : env).

(** [hmac.new(key, message, hashlib.sha256).hexdigest()] *)
Definition hexdigest (key message : string) : string :=
  Py.hex (hmac_sha256 e key message).

(** The canonical string that is signed:
    [f"{timestamp}.{nonce}.{payload_json}"]. *)
Definition canonical_message (payload : Py.value) (timestamp nonce : string) : string :=
  timestamp +:+ "." +:+ nonce +:+ "." +:+ json_dumps e payload.

(** [sign_request]; [entropy] and [now] are what [os.urandom(16)] and
    [int(time.time())] give at the time of the call. *)
Definition sign_request (entropy : string) (now : Z)
    (payload : Py.value) (secret_key : string)
    (nonce timestamp : option string) : headers :=
  let nonce := match nonce with None => generate_nonce entropy | Some n => n end in
  let timestamp :=
    match timestamp with None => generate_timestamp now | Some t => t end in
  let message := canonical_message payload timestamp nonce in
  let signature := hexdigest secret_key message in
  Headers signature timestamp nonce.

(** [verify_signature]; [now] is [int(time.time())] at the time of the
    call. *)
Definition verify_signature (now : Z)
    (payload : Py.value) (signature timestamp nonce secret_key : string)
    (max_age : Z) : Py.result bool :=
  match Py.int_ (decimal_to_ascii e) timestamp with
  | None => Py.Return false
  | Some request_time =>
      let current_time := now in
      if Z.abs (current_time - request_time) >? max_age then Py.Return false
      else
        let message := canonical_message payload timestamp nonce in
        let expected_signature := hexdigest secret_key message in
        Py.compare_digest signature expected_signature
  end.

(** [hash_token] is [hashlib.sha256(token).hexdigest()]; [secure_compare]: *)
Definition secure_compare (a b : string) : Py.result bool := Py.compare_digest a b.

End WithEnv.

End Security.

(** ** Calls that change a state and may raise *)

Module Eff.

Section Monad.
Context {S : Type}.

(** A call returns or raises, and leaves a state either way. *)
Definition M (A : Type) : Type := S -> Py.result A * S.

Definition ret {A} (a : A) : M A := fun s => (Py.Return a, s).

Definition raise {A} (exc : Py.exn) : M A := fun s => (Py.Raise exc, s).

Definition bind {A B} (m : M A) (f : A -> M B) : M B :=
  fun s => match m s with
           | (Py.Return a, s') => f a s'
           | (Py.Raise exc, s') => (Py.Raise exc, s')
           end.

(** [try: m  except Exception as exc: h exc] *)
Definition try_except {A} (m : M A) (h : Py.exn -> M A) : M A :=
  fun s => match m s with
           | (Py.Return a, s') => (Py.Return a, s')
           | (Py.Raise exc, s') => h exc s'
           end.

Definition get {A} (f : S -> A) : M A := fun s => (Py.Return (f s), s).

Definition modify (f : S -> S) : M unit := fun s => (Py.Return tt, f s).

Definition lift {A} (r : Py.result A) : M A := fun s => (r, s).

End Monad.

Arguments M : clear implicits.

#[global] Instance M_ret {S} : MRet (M S) := @ret S.
#[global] Instance M_bind {S} : MBind (M S) := fun A B f m => bind m f.

Notation "'let*' x ':=' m 'in' k" := (bind m (fun x => k))
  (at level 10, x pattern, m at level 100, k at level 200, only parsing).

End Eff.

(** ** lib/updater.py *)

Module Updater.

(** An absolute path is the list of its components:
    [/opt/agentautoupdate] is [["opt"; "agentautoupdate"]]. *)
Definition path := list string.

Set Warnings "-register-all".
(** The file system is a tree. *)
Inductive node :=
| File (content : string)
| Dir (entries : gmap string node).

(** What the updater does to the host, oldest first. *)
Inductive op :=
| Mkdtemp (p : path)
| WriteFile (p : path)
| Mkdir (p : path)
| ExtractAll (into : path)
| Rename (src dst : path)
| Rmtree (p : path)
| Run (argv : list string).

(** The host as the updater sees it. [api_get config] is the outcome of
    the streamed GET of [/agent/latest.tar.gz]: the chunks of the body,
    or the [RuntimeError] of [lib.api]. [mkdtemp_suffix] is the random
    part of the name [tempfile.mkdtemp] picks. [untar bundle] is the
    outcome of opening [bundle] as a gzipped tar archive: the tree of
    its members, or [tarfile.ReadError]; member names are relative and
    stay below the directory they are extracted into. [pip_install] is
    [None] when [subprocess.run] of pip returns, and the text of the
    exception otherwise. *)
Record env := Env {
  APP_DIR : path;
  api_get : gmap string Py.value -> Py.result (list string);
  mkdtemp_suffix : string;
  untar : string -> Py.result (gmap string node);
  pip_install : option string;
}.

Record state := State {
  root : node;                      (* the node of [/] *)
  ops : list op;
  stdout : list string;             (* what [print] wrote *)
}.

(** The node at a path. *)
Fixpoint lookup_at (p : path) (n : node) : option node :=
  match p with
  | [] => Some n
  | c :: p' =>
      match n with
      | Dir entries => match entries !! c with Some m => lookup_at p' m | None => None end
      | File _ => None
      end
  end.

(** Change the entry at a path with [f]; nothing happens when the
    parent is not a directory. *)
Fixpoint change_at (p : path) (f : option node -> option node) (n : node) : node :=
  match p with
  | [] => n
  | c :: p' =>
      match n with
      | Dir entries =>
          match p' with
          | [] => Dir (partial_alter f c entries)
          | _ => Dir (alter (change_at p' f) c entries)
          end
      | File _ => n
      end
  end.

Definition lookup (p : path) (s : state) : option node := lookup_at p (root s).

Definition exists_ (p : path) (s : state) : bool :=
  match lookup p s with Some _ => true | None => false end.

Definition parent (p : path) : path := removelast p.

Definition is_dir (p : path) (s : state) : bool :=
  match lookup p s with Some (Dir _) => true | _ => false end.

Import Eff.
Abbreviation M := (Eff.M state).

(** Apply a change of the tree and record the operation. *)
Definition perform (o : op) (g : node -> node) : M unit :=
  fun s => (Py.Return tt, State (g (root s)) (ops s ++ [o]) (stdout s)).

Definition print (message : string) : M unit :=
  fun s => (Py.Return tt, State (root s) (ops s) (stdout s ++ [message])).

(** [tempfile.mkdtemp(prefix=prefix, dir=dir)] *)
Definition mkdtemp (suffix prefix : string) (dir : path) : M path :=
  let p := dir ++ [prefix +:+ suffix] in
  let* d := get (is_dir dir) in
  let* taken := get (exists_ p) in
  if negb d then raise (Py.Exn Py.FileNotFoundError "No such file or directory")
  else if taken then raise (Py.Exn Py.OSError "No usable temporary directory name found")
  else perform (Mkdtemp p) (change_at p (fun _ => Some (Dir ∅))) ;; ret p.

(** Writing a file through [open(p, "wb")]. *)
Definition write_file (p : path) (content : string) : M unit :=
  let* d := get (is_dir (parent p)) in
  let* target_is_dir := get (is_dir p) in
  if negb d then raise (Py.Exn Py.FileNotFoundError "No such file or directory")
  else if target_is_dir then raise (Py.Exn Py.IsADirectoryError "Is a directory")
  else perform (WriteFile p) (change_at p (fun _ => Some (File content))).

(** [p.mkdir(parents=True, exist_ok=True)], for a [p] whose parent
    exists. *)
Definition mkdir_exist_ok (p : path) : M unit :=
  let* d := get (is_dir (parent p)) in
  let* here := get (lookup p) in
  match d, here with
  | false, _ => raise (Py.Exn Py.FileNotFoundError "No such file or directory")
  | true, Some (File _) => raise (Py.Exn Py.OSError "File exists")
  | true, Some (Dir _) => ret tt
  | true, None => perform (Mkdir p) (change_at p (fun _ => Some (Dir ∅)))
  end.

(** [archive.extractall(path=into)]: the members land in [into], over
    what is there. *)
Definition extractall (members : gmap string node) (into : path) : M unit :=
  let* d := get (is_dir into) in
  if negb d then raise (Py.Exn Py.FileNotFoundError "No such file or directory")
  else
    perform (ExtractAll into)
      (change_at into (fun o => match o with
                                | Some (Dir entries) => Some (Dir (members ∪ entries))
                                | other => other
                                end)).

(** [p.read_text()] *)
Definition read_text (p : path) : M string :=
  let* here := get (lookup p) in
  match here with
  | Some (File content) => ret content
  | Some (Dir _) => raise (Py.Exn Py.IsADirectoryError "Is a directory")
  | None => raise (Py.Exn Py.FileNotFoundError "No such file or directory")
  end.

(** [shutil.rmtree(p)] *)
Definition rmtree (p : path) : M unit :=
  let* here := get (lookup p) in
  match here with
  | Some (Dir _) => perform (Rmtree p) (change_at p (fun _ => None))
  | Some (File _) => raise (Py.Exn Py.OSError "Not a directory")
  | None => raise (Py.Exn Py.FileNotFoundError "No such file or directory")
  end.

(** [src.rename(dst)]: the tree at [src] moves to [dst]; a [dst] that
    exists is replaced when it is a file under a file or an empty
    directory under a directory. *)
Definition rename (src dst : path) : M unit :=
  let* from := get (lookup src) in
  let* to := get (lookup dst) in
  let* d := get (is_dir (parent dst)) in
  let move n :=
    perform (Rename src dst)
            (fun t => change_at dst (fun _ => Some n) (change_at src (fun _ => None) t)) in
  match from with
  | None => raise (Py.Exn Py.FileNotFoundError "No such file or directory")
  | Some n =>
      if negb d then raise (Py.Exn Py.FileNotFoundError "No such file or directory")
      else
        match n, to with
        | _, None => move n
        | File _, Some (File _) => move n
        | File _, Some (Dir _) => raise (Py.Exn Py.IsADirectoryError "Is a directory")
        | Dir _, Some (File _) => raise (Py.Exn Py.OSError "Not a directory")
        | Dir _, Some (Dir entries) =>
            if bool_decide (entries = ∅) then move n
            else raise (Py.Exn Py.OSError "Directory not empty")
        end
  end.

Definition work_dir : path := ["opt"; "agentautoupdate"].
Definition venv_pip : path := ["opt"; "agentautoupdate"; "venv"; "bin"; "pip"].

(** [Path(str(APP_DIR) + ".bak")] *)
Definition backup_of (p : path) : path :=
  match p with
  | [] => [".bak"]
  | _ => removelast p ++ [List.last p "" +:+ ".bak"]
  end.

Section WithEnv.
Context (e : env).

(** [update_agent] *)
Definition update_agent (config : gmap string Py.value) (verbose : bool) : M string :=
  let log message := if verbose then print message else ret tt in
  log "Downloading agent bundle..." ;;
  let* bundle_response := lift (api_get e config) in
  let* temp_dir := mkdtemp (mkdtemp_suffix e) "agentautoupdate-" work_dir in
  let bundle_path := temp_dir ++ ["latest.tar.gz"] in
  write_file bundle_path
    (String.concat "" (List.filter Py.truthy bundle_response)) ;;
  let new_app_dir := temp_dir ++ ["app"] in
  mkdir_exist_ok new_app_dir ;;
  log "Extracting bundle..." ;;
  let* bundle := read_text bundle_path in
  let* archive := lift (untar e bundle) in
  extractall archive new_app_dir ;;
  let version_path := new_app_dir ++ ["VERSION"] in
  let* has_version := get (exists_ version_path) in
  if negb has_version then raise (Py.Exn Py.UpdateError "Bundle missing VERSION file")
  else
    let* version_text := read_text version_path in
    let new_version := Py.strip version_text in
    let current_dir := APP_DIR e in
    let backup_dir := backup_of (APP_DIR e) in
    log "Swapping application directory..." ;;
    let* has_backup := get (exists_ backup_dir) in
    (if has_backup then rmtree backup_dir else ret tt) ;;
    let* has_current := get (exists_ current_dir) in
    (if has_current then rename current_dir backup_dir else ret tt) ;;
    rename new_app_dir current_dir ;;
    let* has_backup := get (exists_ backup_dir) in
    (if has_backup then rmtree backup_dir else ret tt) ;;
    try_except
      (let requirements := current_dir ++ ["requirements.txt"] in
       let* has_pip := get (exists_ venv_pip) in
       let* has_requirements := get (exists_ requirements) in
       if has_pip && has_requirements then
         log "Installing Python dependencies..." ;;
         perform (Run ["/opt/agentautoupdate/venv/bin/pip"; "install"; "-r";
                       "/" +:+ Py.join "/" requirements]) id ;;
         match pip_install e with
         | None => ret tt
         | Some text => raise (Py.Exn Py.OSError text)
         end
       else ret tt)
      (fun exc => log ("Dependency install skipped: " +:+ Py.exn_text exc)) ;;
    log "Cleaning up..." ;;
    rmtree temp_dir ;;
    log ("Update complete. Version " +:+ new_version +:+ ".") ;;
    ret new_version.

End WithEnv.

End Updater.

(** ** lib/config.py, lib/util.py, lib/package_manager.py,
       agent_runner.py and agent_poller.py *)

Module Agent.

Import Eff.

(** The lock file. Without the [fcntl] module ([fcntl is None]) there is
    no [flock] on the host and nothing to hold; with it, the lock is
    free or held through one open file descriptor. *)
Inductive lock_facility :=
| NoFcntl
| Flock (holder : option nat).

(** Calls into the collaborators the control plane consumes through an
    interface: [lib.systemd], [lib.uninstall], [lib.logs],
    [lib.system_info]. *)
Inductive call :=
| SetSchedule (enabled : bool) (daily_time : Py.value)
| UninstallAgent (stop_running : bool)
| ListLogs
| ReadLog (name : Py.value)
| CollectSystemInfo.

(** The host as the agent sees it. The [n]-th reading of the clock gives
    [time_time n] (seconds), [utc_iso n] ([utc_now_iso()]), [local_human
    n] ([local_now_human()]) and [today n] ([date.today().isoformat()]).
    [which name] tells whether [shutil.which(name)] finds the program.
    [exec history argv] is the outcome of running [argv] after
    [history]: the return code and what the process printed, or the
    exception [subprocess] raises. [answer history c] is the outcome of
    the collaborator call [c] after the calls of [history].
    [decimal_to_ascii] is what [int] makes of the digits and spaces
    outside ASCII (see [Py.int_text]). *)
Record env := Env {
  time_time : nat -> Z;
  utc_iso : nat -> string;
  local_human : nat -> string;
  today : nat -> string;
  which : string -> bool;
  exec : list (list string) -> list string -> Py.result (Z * list string);
  answer : list call -> call -> Py.result Py.value;
  repr_of : Py.value -> string;
  updater : Updater.env;
  decimal_to_ascii : string -> string;
}.

(** The process and the part of the host it acts on. *)
Record world := World {
  config : gmap string Py.value;                 (* the [config] dict in memory *)
  config_file : option (gmap string Py.value);   (* CONFIG_PATH *)
  state_file : option (gmap string Py.value);    (* STATE_PATH *)
  lock : lock_facility;                          (* LOCK_PATH *)
  next_fd : nat;
  ticks : nat;                                   (* readings of the clock so far *)
  log_files : gmap string (list string);         (* LOG_DIR: file name to what was appended *)
  commands : list (list string);                 (* every argv run, oldest first *)
  calls : list call;                             (* collaborator calls, oldest first *)
  printed : list string;                         (* sys.stdout *)
  host : Updater.state;                          (* the file tree of the installation *)
}.

Abbreviation M := (Eff.M world).

Definition set_config (c : gmap string Py.value) : M unit :=
  modify (fun w => World c (config_file w) (state_file w) (lock w) (next_fd w) (ticks w)
                         (log_files w) (commands w) (calls w) (printed w) (host w)).

Definition set_config_file (c : option (gmap string Py.value)) : M unit :=
  modify (fun w => World (config w) c (state_file w) (lock w) (next_fd w) (ticks w)
                         (log_files w) (commands w) (calls w) (printed w) (host w)).

Definition set_state_file (c : option (gmap string Py.value)) : M unit :=
  modify (fun w => World (config w) (config_file w) c (lock w) (next_fd w) (ticks w)
                         (log_files w) (commands w) (calls w) (printed w) (host w)).

Definition set_lock (l : lock_facility) : M unit :=
  modify (fun w => World (config w) (config_file w) (state_file w) l (next_fd w) (ticks w)
                         (log_files w) (commands w) (calls w) (printed w) (host w)).

(** [os.open(..)]: a new file descriptor. *)
Definition os_open : M nat :=
  fun w => (Py.Return (next_fd w),
            World (config w) (config_file w) (state_file w) (lock w) (S (next_fd w))
                  (ticks w) (log_files w) (commands w) (calls w) (printed w) (host w)).

(** A reading of the clock: its index. *)
Definition tick : M nat :=
  fun w => (Py.Return (ticks w),
            World (config w) (config_file w) (state_file w) (lock w) (next_fd w)
                  (S (ticks w)) (log_files w) (commands w) (calls w) (printed w) (host w)).

(** Appending [text] to the log file [name]. *)
Definition append_to (name text : string) : M unit :=
  modify (fun w => World (config w) (config_file w) (state_file w) (lock w) (next_fd w)
                         (ticks w)
                         (<[name := default [] (log_files w !! name) ++ [text]]> (log_files w))
                         (commands w) (calls w) (printed w) (host w)).

Definition write_stdout (text : string) : M unit :=
  modify (fun w => World (config w) (config_file w) (state_file w) (lock w) (next_fd w)
                         (ticks w) (log_files w) (commands w) (calls w)
                         (printed w ++ [text]) (host w)).

Definition record_command (argv : list string) : M unit :=
  modify (fun w => World (config w) (config_file w) (state_file w) (lock w) (next_fd w)
                         (ticks w) (log_files w) (commands w ++ [argv]) (calls w)
                         (printed w) (host w)).

Definition record_call (c : call) : M unit :=
  modify (fun w => World (config w) (config_file w) (state_file w) (lock w) (next_fd w)
                         (ticks w) (log_files w) (commands w) (calls w ++ [c])
                         (printed w) (host w)).

(** Run a call of the updater on the file tree. *)
Definition on_host {A} (m : Eff.M Updater.state A) : M A :=
  fun w =>
    let (r, h) := m (host w) in
    (r, World (config w) (config_file w) (state_file w) (lock w) (next_fd w)
              (ticks w) (log_files w) (commands w) (calls w) (printed w) h).

(** [v.get(k)]: [AttributeError] when [v] is not a dictionary. *)
Definition value_get (v : Py.value) (k : string) : Py.result Py.value :=
  match v with
  | Py.VDict d => Py.Return (Py.dict_get d k)
  | _ => Py.Raise (Py.Exn Py.AttributeError "object has no attribute 'get'")
  end.

(** [v.get(k, default)] *)
Definition value_get_default (v : Py.value) (k : string) (dflt : Py.value)
  : Py.result Py.value :=
  match v with
  | Py.VDict d => Py.Return (default dflt (d !! k))
  | _ => Py.Raise (Py.Exn Py.AttributeError "object has no attribute 'get'")
  end.

(** The normalised [schedule] entry [load_config] and [save_config]
    build from [data.get("schedule") or {}]. *)
Definition normal_schedule (data : gmap string Py.value) : M Py.value :=
  let schedule := Py.or_value (Py.dict_get data "schedule") (Py.VDict ∅) in
  let* enabled := lift (value_get_default schedule "enabled" (Py.VBool false)) in
  let* daily_time := lift (value_get_default schedule "dailyTime" (Py.VStr "03:00")) in
  ret (Py.VDict (<["enabled" := Py.VBool (Py.truth enabled)]>
                   (<["dailyTime" := daily_time]> ∅))).

(** [load_config] *)
Definition load_config : M (gmap string Py.value) :=
  let* file := get config_file in
  match file with
  | None => raise (Py.Exn Py.FileNotFoundError "Missing config: /opt/agentautoupdate/config.json")
  | Some data =>
      let* schedule := normal_schedule data in
      ret (<["schedule" := schedule]> data)
  end.

(** [save_config]: the file is replaced in one step. *)
Definition save_config (data : gmap string Py.value) : M unit :=
  let* schedule := normal_schedule data in
  set_config_file (Some (<["schedule" := schedule]> data)).

(** [read_state]: a missing or undecodable file reads as [{}]. *)
Definition read_state : M (gmap string Py.value) :=
  let* file := get state_file in
  ret (default ∅ file).

(** [write_state] *)
Definition write_state (state : gmap string Py.value) : M unit :=
  set_state_file (Some state).

(** [acquire_lock]: [None] when the lock is held. Creating the lock file
    and its directory shows in the world only as the descriptor that is
    opened. *)
Definition acquire_lock : M (option nat) :=
  let* fd := os_open in
  let* l := get lock in
  match l with
  | NoFcntl => ret (Some fd)
  | Flock None => set_lock (Flock (Some fd)) ;; ret (Some fd)
  | Flock (Some _) => ret None
  end.

(** [release_lock]: closing the descriptor drops the lock it holds. *)
Definition release_lock (fd : nat) : M unit :=
  let* l := get lock in
  match l with
  | Flock (Some holder) => if Nat.eqb holder fd then set_lock (Flock None) else ret tt
  | _ => ret tt
  end.

Section WithEnv.
Context (e : env).

(** [get_log_path]: the name of today's log file. *)
Definition get_log_path : M string :=
  let* n := tick in
  ret ("agent-" +:+ today e n +:+ ".log").

Definition utc_now_iso : M string := let* n := tick in ret (utc_iso e n).
Definition local_now_human : M string := let* n := tick in ret (local_human e n).
Definition now : M Z := let* n := tick in ret (time_time e n).

(** [detect_package_manager] *)
Definition detect_package_manager : string :=
  if which e "apt-get" then "apt"
  else if which e "dnf" then "dnf"
  else if which e "yum" then "yum"
  else "unknown".

(** [get_update_commands] *)
Definition get_update_commands : list (list string) :=
  let manager := detect_package_manager in
  if String.eqb manager "apt" then
    [ ["apt-get"; "update"];
      ["apt-get"; "full-upgrade"; "-y"];
      ["apt-get"; "autoremove"; "-y"];
      ["apt-get"; "autoclean"; "-y"] ]
  else if String.eqb manager "dnf" || String.eqb manager "yum" then
    let cmd := if String.eqb manager "dnf" then "dnf" else "yum" in
    [ [cmd; "-y"; "makecache"];
      [cmd; "-y"; "upgrade"];
      [cmd; "-y"; "autoremove"];
      [cmd; "-y"; "clean"; "all"] ]
  else [].

(** [run_command]: the return code (the measured duration is not used
    by any caller). *)
Definition run_command (command : list string) (log_name : string)
    (stream_output : bool) : M Z :=
  let header := String (ascii_of_nat 10) "$ " +:+ Py.join " " command
                +:+ String (ascii_of_nat 10) "" in
  append_to log_name header ;;
  (if stream_output then write_stdout header else ret tt) ;;
  let* history := get commands in
  record_command command ;;
  let* (returncode, output) := lift (exec e history command) in
  append_to log_name (String.concat "" output) ;;
  (if stream_output then write_stdout (String.concat "" output) else ret tt) ;;
  ret returncode.

(** The loop of [run_update] over the commands: the status and exit
    code it leaves. *)
Fixpoint run_commands (commands : list (list string)) (log_name : string)
    (stream_output : bool) : M (string * Z) :=
  match commands with
  | [] => ret ("OK", 0)
  | command :: rest =>
      let* code := run_command command log_name stream_output in
      if negb (code =? 0) then ret ("ERROR", code)
      else run_commands rest log_name stream_output
  end.

(** What [run_update] returns; [log_path] is absent from the
    dictionary of the early return. *)
Record run_result := RunResult {
  status : string;
  exit_code : Z;
  duration : Z;
  log_path : option string;
  message : option string;
}.

Definition newline : string := String (ascii_of_nat 10) "".

(** The [finally] block of [run_update]. The log file and the state
    file are taken to be readable and writable: the block then runs to
    its end. A failure of one of these calls, which would leave the block
    before [release_lock], is not part of the model. *)
Definition run_update_finally (start_time : Z) (log_name status : string)
    (exit_code : Z) (lock_fd : nat) : M Z :=
  let* end_time := now in
  let duration := end_time - start_time in
  let* now_ := utc_now_iso in
  let* end_human := local_now_human in
  append_to log_name
    ("END: " +:+ end_human +:+ " | status=" +:+ status +:+ " | exit=" +:+ Py.str exit_code
     +:+ " | duration=" +:+ Py.str duration +:+ "s" +:+ newline) ;;
  let* state := read_state in
  let state :=
    <["lastDurationSeconds" := Py.VInt duration]>
      (<["lastExitCode" := Py.VInt exit_code]>
         (<["lastStatus" := Py.VStr status]>
            (<["lastRunAt" := Py.VStr now_]> state))) in
  let state :=
    if String.eqb status "OK" then <["lastUpdate" := Py.VStr now_]> state else state in
  write_state state ;;
  release_lock lock_fd ;;
  ret duration.

(** The [try] block of [run_update]: the values of [status],
    [exit_code] and [error_message] at its end. *)
Definition run_update_try (log_name : string) (stream_output : bool)
  : M (string * Z * option string) :=
  let commands := get_update_commands in
  match commands with
  | [] => ret ("ERROR", 2, Some "Unsupported package manager")
  | _ =>
      let* (status, exit_code) := run_commands commands log_name stream_output in
      ret (status, exit_code, None)
  end.

(** [try: ... finally: ...] of [run_update]. When the [try] block
    raises, [status] and [exit_code] still have their initial values
    in the [finally] block, and the exception goes on to the caller. *)
Definition run_update_locked (start_time : Z) (log_name : string)
    (stream_output : bool) (lock_fd : nat) : M run_result :=
  fun w =>
    match run_update_try log_name stream_output w with
    | (Py.Return (status, exit_code, error_message), w') =>
        (let* duration :=
           run_update_finally start_time log_name status exit_code lock_fd in
         ret (RunResult status exit_code duration
                        (Some ("/opt/agentautoupdate/logs/" +:+ log_name))
                        error_message)) w'
    | (Py.Raise exc, w') =>
        (let* _ := run_update_finally start_time log_name "OK" 0 lock_fd in
         raise exc) w'
    end.

(** [run_update] *)
Definition run_update (stream_output : bool) : M run_result :=
  let* lock_fd := acquire_lock in
  match lock_fd with
  | None => ret (RunResult "ERROR" 1 0 None (Some "Update already running"))
  | Some lock_fd =>
      let* start_time := now in
      let* log_name := get_log_path in
      let* start_human := local_now_human in
      append_to log_name (newline +:+ "START: " +:+ start_human +:+ newline) ;;
      run_update_locked start_time log_name stream_output lock_fd
  end.

(** A call of a collaborator. *)
Definition collaborator (c : call) : M Py.value :=
  let* history := get calls in
  record_call c ;;
  lift (answer e history c).

(** What [handle_command] returns. *)
Record command_result := CommandResult {
  cr_status : string;
  cr_result : Py.value;
  cr_error_message : option string;
  cr_restart : bool;
  cr_exit_after : bool;
}.

Definition dict_of (l : list (string * Py.value)) : Py.value :=
  Py.VDict (list_to_map l).

(** The [try] block of [handle_command]: the values of [status],
    [result_payload], [error_message], [restart] and [exit_after] at
    its end. *)
Definition handle_command_body (command : gmap string Py.value) : M command_result :=
  let cmd_type := Py.dict_get command "type" in
  if Py.eq_str cmd_type "RUN_NOW" then
    let* result := run_update false in
    let result_payload :=
      dict_of [("lastStatus", Py.VStr (status result));
               ("lastExitCode", Py.VInt (exit_code result));
               ("lastDurationSeconds", Py.VInt (duration result))] in
    if negb (String.eqb (status result) "OK")
    then ret (CommandResult "ERROR" result_payload (message result) false false)
    else ret (CommandResult "DONE" result_payload None false false)
  else if Py.eq_str cmd_type "SET_SCHEDULE" then
    let payload := Py.or_value (Py.dict_get command "payload") (Py.VDict ∅) in
    let* enabled_value := lift (value_get payload "enabled") in
    let enabled := Py.truth enabled_value in
    let* daily_value := lift (value_get payload "dailyTime") in
    let daily_time := Py.or_value daily_value (Py.VStr "03:00") in
    let schedule := dict_of [("enabled", Py.VBool enabled); ("dailyTime", daily_time)] in
    let* cfg := get config in
    set_config (<["schedule" := schedule]> cfg) ;;
    let* cfg := get config in
    save_config cfg ;;
    collaborator (SetSchedule enabled daily_time) ;;
    ret (CommandResult "DONE" (dict_of [("schedule", schedule)]) None false false)
  else if Py.eq_str cmd_type "UPDATE_AGENT" then
    let* cfg := get config in
    let* new_version := on_host (Updater.update_agent (updater e) cfg false) in
    ret (CommandResult "DONE" (dict_of [("version", Py.VStr new_version)]) None true false)
  else if Py.eq_str cmd_type "SET_POLL_INTERVAL" then
    let payload := Py.or_value (Py.dict_get command "payload") (Py.VDict ∅) in
    let* interval := lift (value_get payload "pollIntervalSeconds") in
    let* poll_value :=
      lift (Py.int_of_value (decimal_to_ascii e) (Py.or_value interval (Py.VInt 0))) in
    if poll_value <=? 0 then raise (Py.Exn Py.ValueError "Invalid poll interval")
    else
      let* cfg := get config in
      set_config (<["pollIntervalSeconds" := Py.VInt poll_value]> cfg) ;;
      let* cfg := get config in
      save_config cfg ;;
      ret (CommandResult "DONE" (dict_of [("pollIntervalSeconds", Py.VInt poll_value)])
                         None true false)
  else if Py.eq_str cmd_type "UNINSTALL" then
    collaborator (UninstallAgent false) ;;
    ret (CommandResult "DONE" (dict_of [("uninstalled", Py.VBool true)]) None false true)
  else if Py.eq_str cmd_type "LIST_LOGS" then
    let* logs := collaborator ListLogs in
    ret (CommandResult "DONE" (dict_of [("logs", logs)]) None false false)
  else if Py.eq_str cmd_type "FETCH_LOG" then
    let payload := Py.or_value (Py.dict_get command "payload") (Py.VDict ∅) in
    let* log_name := lift (value_get payload "logName") in
    if negb (Py.truth log_name) then raise (Py.Exn Py.ValueError "Missing logName")
    else
      let* content := collaborator (ReadLog log_name) in
      ret (CommandResult "DONE" content None false false)
  else if Py.eq_str cmd_type "FETCH_INFO" then
    let* info := collaborator CollectSystemInfo in
    ret (CommandResult "DONE" info None false false)
  else
    ret (CommandResult "ERROR" (Py.VDict ∅)
           (Some ("Unknown command " +:+ Py.str_value (repr_of e) cmd_type))
           false false).

(** [handle_command]. Each branch assigns [result_payload], [restart]
    and [exit_after] after its last call that can raise, so in both
    handlers they have their initial values. The dictionary [config]
    is the field [config] of the world. *)
Definition handle_command (command : gmap string Py.value) : M command_result :=
  try_except (handle_command_body command)
    (fun exc =>
       ret (CommandResult "ERROR" (Py.VDict ∅) (Some (Py.exn_text exc)) false false)).

End WithEnv.

End Agent.

(* ===================================================================== *)
(** * Part II: properties                                                 *)
(* ===================================================================== *)

(** ** Decimal notation of integers *)




(** ** Firewall: what the back-end operations leave alone *)

Section FirewallFacts.
Import Firewall.
Context (e : env).

(** The argv [_run_command] really runs. *)
Definition argv_of (cmd : list string) : list string :=
  if negb (euid e =? 0) then "sudo" :: cmd else cmd.

(** A step that only runs commands satisfying [P] and writes log
    lines. *)
Record backend_step (P : list string -> Prop) (s s' : state) : Prop := BackendStep {
  bs_type : firewall_type s' = firewall_type s;
  bs_ports : opened_ports s' = opened_ports s;
  bs_file : state_file s' = state_file s;
  bs_commands : exists l, commands s' = commands s ++ l /\ Forall P l;
}.

Lemma backend_step_refl P s : backend_step P s s.
Proof. split; try done. exists []. by rewrite app_nil_r. Qed.

Lemma backend_step_trans P s1 s2 s3 :
  backend_step P s1 s2 -> backend_step P s2 s3 -> backend_step P s1 s3.
Proof.
  intros [T1 O1 F1 (l1 & C1 & P1)] [T2 O2 F2 (l2 & C2 & P2)].
  split; try congruence.
  exists (l1 ++ l2). rewrite C2, C1, app_assoc. split; [done | by apply Forall_app].
Qed.

Lemma backend_step_log P message s : backend_step P s (log message s).2.
Proof. split; try done. exists []. simpl. by rewrite app_nil_r. Qed.

Lemma run_command_step (P : list string -> Prop) cmd s :
  P (argv_of cmd) -> backend_step P s (_run_command e cmd s).2.
Proof.
  intros HP. unfold _run_command. fold (argv_of cmd).
  assert (H : backend_step P s (State (firewall_type s) (opened_ports s) (state_file s)
                                      (commands s ++ [argv_of cmd]) (log_lines s))).
  { split; try done. exists [argv_of cmd]. split; [done | by constructor]. }
  repeat case_match; exact H.
Qed.

Lemma save_iptables_loop_step (P : list string -> Prop) cmds s :
  Forall (fun c => P (argv_of c)) cmds ->
  backend_step P s (_save_iptables_loop e cmds s).2.
Proof.
  revert s. induction cmds as [|cmd rest IH]; intros s HP; simpl.
  - apply backend_step_log.
  - inversion HP as [|? ? Hc Hrest]; subst.
    unfold bind. pose proof (run_command_step P cmd s Hc) as H1.
    destruct (_run_command e cmd s) as [[success message] s1]; simpl in *.
    destruct success.
    + eapply backend_step_trans; [exact H1 | apply backend_step_log].
    + eapply backend_step_trans; [exact H1 | by apply IH].
Qed.

(** The commands that remove the rule of a port, per firewall. *)
Definition closing_argv (k : firewall_kind) (port : Z) (protocol : string) : list string :=
  match k with
  | ufw => ["ufw"; "delete"; "allow"; port_spec port protocol]
  | firewalld => ["firewall-cmd"; "--permanent"; "--remove-port"; port_spec port protocol]
  | iptables => ["iptables"; "-D"; "INPUT"; "-p"; protocol;
                 "--dport"; Py.str port; "-j"; "ACCEPT"]
  end.

(** The commands that add the rule of a port, per firewall. *)
Definition opening_argv (k : firewall_kind) (port : Z) (protocol : string) : list string :=
  match k with
  | ufw => ["ufw"; "allow"; port_spec port protocol]
  | firewalld => ["firewall-cmd"; "--permanent"; "--add-port"; port_spec port protocol]
  | iptables => ["iptables"; "-I"; "INPUT"; "-p"; protocol;
                 "--dport"; Py.str port; "-j"; "ACCEPT"]
  end.

(** Reloading, checking and saving change no rule. *)
Definition housekeeping (c : list string) : Prop :=
  c = ["firewall-cmd"; "--reload"] \/ c ∈ save_commands \/
  exists port protocol, c = ["iptables"; "-C"; "INPUT"; "-p"; protocol;
                             "--dport"; Py.str port; "-j"; "ACCEPT"].

(** What [close_port port protocol] may run. *)
Definition close_runs (port : Z) (protocol : string) (argv : list string) : Prop :=
  exists c, argv = argv_of c /\
            (housekeeping c \/ exists k, c = closing_argv k port protocol).

(** What [open_port port protocol] may run. *)
Definition open_runs (port : Z) (protocol : string) (argv : list string) : Prop :=
  exists c, argv = argv_of c /\
            (housekeeping c \/ exists k, c = opening_argv k port protocol).

Lemma save_commands_housekeeping :
  Forall (fun c => forall P : list string -> Prop,
              (forall c', housekeeping c' -> P (argv_of c')) -> P (argv_of c))
         save_commands.
Proof.
  unfold save_commands.
  repeat constructor; intros P HP; apply HP; right; left; set_solver.
Qed.

Lemma save_iptables_step (P : list string -> Prop) s :
  (forall c, housekeeping c -> P (argv_of c)) ->
  backend_step P s (_save_iptables e s).2.
Proof.
  intros HP. apply save_iptables_loop_step.
  eapply Forall_impl; [apply save_commands_housekeeping |].
  intros c Hc. by apply Hc.
Qed.

(** The back-end part of [close_port]. *)
Definition close_backend (k : firewall_kind) (port : Z) (protocol : string)
  : M (bool * string) :=
  match k with
  | ufw => _ufw_close_port e port protocol
  | firewalld => _firewalld_close_port e port protocol
  | iptables => _iptables_close_port e port protocol
  end.

(** The back-end part of [open_port]. *)
Definition open_backend (k : firewall_kind) (port : Z) (protocol : string)
  : M (bool * string) :=
  match k with
  | ufw => _ufw_open_port e port protocol
  | firewalld => _firewalld_open_port e port protocol
  | iptables => _iptables_open_port e port protocol
  end.

Lemma close_backend_step k port protocol s :
  backend_step (close_runs port protocol) s (close_backend k port protocol s).2.
Proof.
  assert (Hh : forall c, housekeeping c -> close_runs port protocol (argv_of c)).
  { intros c Hc. exists c. auto. }
  assert (Hc : forall k', close_runs port protocol (argv_of (closing_argv k' port protocol))).
  { intros k'. eexists. split; [done | right; by exists k']. }
  destruct k; simpl.
  - apply run_command_step. apply (Hc ufw).
  - unfold _firewalld_close_port, bind.
    pose proof (run_command_step _ _ s (Hc firewalld)) as H1. simpl in H1.
    destruct (_run_command e _ s) as [[success message] s1]; simpl in *.
    destruct success; simpl; [| exact H1].
    eapply backend_step_trans; [exact H1 |].
    apply run_command_step. apply Hh. by left.
  - unfold _iptables_close_port, bind.
    pose proof (run_command_step _ _ s (Hc iptables)) as H1. simpl in H1.
    destruct (_run_command e _ s) as [[success message] s1]; simpl in *.
    destruct success; simpl.
    + pose proof (save_iptables_step _ s1 Hh) as H2.
      unfold mbind, M_bind, bind.
      destruct (_save_iptables e s1) as [[] s2]. simpl in *.
      eapply backend_step_trans; eauto.
    + exact H1.
Qed.

Lemma open_backend_step k port protocol s :
  backend_step (open_runs port protocol) s (open_backend k port protocol s).2.
Proof.
  assert (Hh : forall c, housekeeping c -> open_runs port protocol (argv_of c)).
  { intros c Hc. exists c. auto. }
  assert (Hc : forall k', open_runs port protocol (argv_of (opening_argv k' port protocol))).
  { intros k'. eexists. split; [done | right; by exists k']. }
  destruct k; simpl.
  - apply run_command_step. apply (Hc ufw).
  - unfold _firewalld_open_port, bind.
    pose proof (run_command_step _ _ s (Hc firewalld)) as H1. simpl in H1.
    destruct (_run_command e _ s) as [[success message] s1]; simpl in *.
    destruct success; simpl; [| exact H1].
    eapply backend_step_trans; [exact H1 |].
    apply run_command_step. apply Hh. by left.
  - unfold _iptables_open_port, bind.
    assert (Hk : open_runs port protocol
                   (argv_of ["iptables"; "-C"; "INPUT"; "-p"; protocol;
                             "--dport"; Py.str port; "-j"; "ACCEPT"])).
    { apply Hh. right; right. by exists port, protocol. }
    pose proof (run_command_step _ _ s Hk) as H0.
    destruct (_run_command e _ s) as [[exists_ m0] s0]; simpl in *.
    destruct exists_; simpl; [exact H0 |].
    pose proof (run_command_step _ _ s0 (Hc iptables)) as H1. simpl in H1.
    destruct (_run_command e _ s0) as [[success message] s1]; simpl in *.
    destruct success; simpl.
    + pose proof (save_iptables_step _ s1 Hh) as H2.
      unfold mbind, M_bind, bind.
      destruct (_save_iptables e s1) as [[] s2]. simpl in *.
      eapply backend_step_trans; [exact H0 |]. eapply backend_step_trans; eauto.
    + eapply backend_step_trans; eauto.
Qed.

End FirewallFacts.

Section FirewallPorts.
Import Firewall.
Context (e : env).


Lemma save_state_fields s :
  let s' := (_save_state e s).2 in
  firewall_type s' = firewall_type s /\ opened_ports s' = opened_ports s /\
  commands s' = commands s.
Proof. unfold _save_state. by destruct (write_state e (opened_ports s)). Qed.

Ltac fw_run := unfold mbind, M_bind, bind, ret, get, log, set_opened_ports in *; simpl in *.

(** What [open_port] does to the manager and to the command history. *)
Lemma open_port_spec port protocol s ok message s' :
  open_port e port protocol s = ((ok, message), s') ->
  let entry := PortEntry port protocol in
  firewall_type s' = firewall_type s /\
  (exists l, commands s' = commands s ++ l /\ Forall (open_runs e port protocol) l) /\
  match firewall_type s with
  | None =>
      ok = true /\ opened_ports s' = opened_ports s /\
      state_file s' = state_file s /\ commands s' = commands s
  | Some _ =>
      if ok then
        opened_ports s' = (if bool_decide (entry ∈ opened_ports s) then opened_ports s
                           else opened_ports s ++ [entry]) /\
        (entry ∈ opened_ports s -> state_file s' = state_file s)
      else opened_ports s' = opened_ports s /\ state_file s' = state_file s
  end.
Proof.
  unfold open_port. fw_run.
  destruct (firewall_type s) as [k|] eqn:Hft; simpl.
  - change (match k with
            | ufw => _ufw_open_port e port protocol
            | firewalld => _firewalld_open_port e port protocol
            | iptables => _iptables_open_port e port protocol
            end) with (open_backend e k port protocol).
    match goal with |- context [open_backend e k port protocol ?s0] =>
      pose proof (open_backend_step e k port protocol s0) as [T O F (l & C & P)];
      destruct (open_backend e k port protocol s0) as [[success msg] s1] end.
    simpl in *. rewrite Hft in T.
    destruct success; simpl.
    + destruct (bool_decide (PortEntry port protocol ∈ opened_ports s1)) eqn:Hin; simpl.
      * intros [= <- <- <-]. simpl. rewrite O in Hin. rewrite Hin.
        repeat split; try congruence. by exists l.
      * match goal with |- context [_save_state e ?s2] =>
          pose proof (save_state_fields s2) as (T2 & O2 & C2);
          destruct (_save_state e s2) as [[] s3] end.
        simpl in *. intros [= <- <- <-]. simpl.
        rewrite O in Hin. rewrite Hin.
        repeat split; try congruence.
        -- exists l. split; [congruence | done].
        -- intros Hmem. by apply bool_decide_eq_false in Hin.
    + intros [= <- <- <-]. simpl. repeat split; try congruence. by exists l.
  - intros [= <- <- <-]. simpl. rewrite Hft.
    repeat split; try done. exists []. by rewrite app_nil_r.
Qed.

(** What [close_port] does to the manager and to the command history. *)
Lemma close_port_spec port protocol s ok message s' :
  close_port e port protocol s = ((ok, message), s') ->
  let entry := PortEntry port protocol in
  firewall_type s' = firewall_type s /\
  (exists l, commands s' = commands s ++ l /\ Forall (close_runs e port protocol) l) /\
  (opened_ports s' = opened_ports s \/
   opened_ports s' = list_remove entry (opened_ports s)) /\
  (firewall_type s = None -> ok = true /\ s' = s).
Proof.
  unfold close_port. fw_run.
  destruct (firewall_type s) as [k|] eqn:Hft; simpl.
  - change (match k with
            | ufw => _ufw_close_port e port protocol
            | firewalld => _firewalld_close_port e port protocol
            | iptables => _iptables_close_port e port protocol
            end) with (close_backend e k port protocol).
    match goal with |- context [close_backend e k port protocol ?s0] =>
      pose proof (close_backend_step e k port protocol s0) as [T O F (l & C & P)];
      destruct (close_backend e k port protocol s0) as [[success msg] s1] end.
    simpl in *. rewrite Hft in T.
    destruct success; simpl.
    + destruct (bool_decide (PortEntry port protocol ∈ opened_ports s1)) eqn:Hin; simpl.
      * match goal with |- context [_save_state e ?s2] =>
          pose proof (save_state_fields s2) as (T2 & O2 & C2);
          destruct (_save_state e s2) as [[] s3] end.
        simpl in *. intros [= <- <- <-]. simpl.
        repeat split; try congruence.
        -- exists l. split; [congruence | done].
        -- right. congruence.
      * intros [= <- <- <-]. simpl. repeat split; try congruence.
        -- by exists l.
        -- by left.
    + intros [= <- <- <-]. simpl. repeat split; try congruence.
      * by exists l.
      * by left.
  - intros [= <- <- <-]. repeat split; try done.
    + exists []. by rewrite app_nil_r.
    + by left.
Qed.

End FirewallPorts.

Section FirewallUpdate.
Import Firewall.
Context (e : env).





(** The log line [update_port] writes before it opens the new port. *)
Definition update_port_announce (old_port new_port : Z) (s : state) : state :=
  (log ("Modification port firewall: " +:+ Py.str old_port +:+ " -> " +:+ Py.str new_port)
       s).2.

End FirewallUpdate.

(** ** Firewall: the claims *)

(** C10. [update_port p p] answers success at once: the state it returns
    is the state it was given, so no back-end command was run, nothing
    was logged, and the tracked ports and their file are as before. *)
Theorem update_port_same_port_is_noop
    (e : Firewall.env) (p : Z) (protocol : string) (s : Firewall.state) :
  Firewall.update_port e p p protocol s = ((true, "Port inchangé"), s).
Proof. unfold Firewall.update_port. by rewrite Z.eqb_refl. Qed.


(** A host with ufw, run as root: adding a rule works, deleting one
    fails, the state file can be written. *)
Definition ufw_host : Firewall.env :=
  Firewall.Env 0
    (fun _ argv =>
       match argv with
       | "ufw" :: "delete" :: _ =>
           Firewall.Completed 1 "" "ERROR: Could not delete non-existent rule"
       | _ => Firewall.Completed 0 "Rule added" ""
       end)
    (fun _ => None).

Definition ufw_manager : Firewall.state :=
  Firewall.State (Some Firewall.ufw) [] None [] [].

(** A host without a firewall. *)
Definition bare_manager : Firewall.state :=
  Firewall.State None [] None [] [].


(** C7, as stated: two calls of [open_port] in a row on the same port and
    protocol both succeed, the second leaves the tracked state as it is,
    and the tracked list holds exactly one entry for the port. *)
Definition open_port_twice_as_stated
    (e : Firewall.env) (port : Z) (protocol : string) (s : Firewall.state) : Prop :=
  forall r1 s1 r2 s2,
    Firewall.open_port e port protocol s = (r1, s1) ->
    Firewall.open_port e port protocol s1 = (r2, s2) ->
    r1.1 = true /\ r2.1 = true /\
    Firewall.opened_ports s2 = Firewall.opened_ports s1 /\
    Firewall.state_file s2 = Firewall.state_file s1 /\
    count_occ Firewall.port_entry_eq_dec (Firewall.opened_ports s2)
              (Firewall.PortEntry port protocol) = 1%nat.

(** Without a firewall both calls succeed and nothing is tracked. *)
Lemma open_port_twice_as_stated_fails_without_firewall :
  ~ open_port_twice_as_stated ufw_host 8080 "tcp" bare_manager.
Proof.
  intros H.
  destruct (Firewall.open_port ufw_host 8080 "tcp" bare_manager) as [r1 s1] eqn:H1.
  destruct (Firewall.open_port ufw_host 8080 "tcp" s1) as [r2 s2] eqn:H2.
  specialize (H _ _ _ _ H1 H2) as (_ & _ & _ & _ & Hcount).
  vm_compute in H1. injection H1 as <- <-.
  vm_compute in H2. injection H2 as <- <-.
  vm_compute in Hcount. discriminate Hcount.
Qed.

(** C7, amended. With a firewall active, once a call of [open_port] has
    succeeded on a tracked list without duplicates, a second call on the
    same port and protocol leaves the tracked list and its file as they
    are, whatever the back end answers, and succeeds when the back end
    accepts the command again; the list then holds exactly one entry for
    the port and protocol and still has no duplicates. Without a firewall
    both calls succeed, run no command and track nothing. *)
Theorem open_port_twice_tracks_one_entry
    (e : Firewall.env) (port : Z) (protocol : string)
    (s s1 s2 : Firewall.state) (r1 r2 : bool * string) :
  Firewall.open_port e port protocol s = (r1, s1) ->
  Firewall.open_port e port protocol s1 = (r2, s2) ->
  NoDup (Firewall.opened_ports s) ->
  match Firewall.firewall_type s with
  | Some _ =>
      r1.1 = true ->
      Firewall.opened_ports s2 = Firewall.opened_ports s1 /\
      Firewall.state_file s2 = Firewall.state_file s1 /\
      count_occ Firewall.port_entry_eq_dec (Firewall.opened_ports s2)
                (Firewall.PortEntry port protocol) = 1%nat /\
      NoDup (Firewall.opened_ports s2)
  | None =>
      r1.1 = true /\ r2.1 = true /\
      Firewall.opened_ports s2 = Firewall.opened_ports s /\
      Firewall.state_file s2 = Firewall.state_file s /\
      Firewall.commands s2 = Firewall.commands s
  end.
Proof.
  destruct r1 as [ok1 m1], r2 as [ok2 m2]. intros H1 H2 Hnd.
  apply open_port_spec in H1 as (T1 & _ & H1).
  apply open_port_spec in H2 as (T2 & _ & H2).
  rewrite T1 in H2.
  destruct (Firewall.firewall_type s) as [k|]; simpl in *.
  - intros ->.
    destruct H1 as [O1 _].
    set (entry := Firewall.PortEntry port protocol) in *.
    assert (entry ∈ Firewall.opened_ports s1 /\ NoDup (Firewall.opened_ports s1))
      as [Hin Hnd1].
    { destruct (decide (entry ∈ Firewall.opened_ports s)) as [Hmem|Hmem].
      - rewrite bool_decide_eq_true_2 in O1 by done. by rewrite O1.
      - rewrite bool_decide_eq_false_2 in O1 by done. rewrite O1. split.
        + apply elem_of_app. right. apply list_elem_of_singleton. done.
        + apply NoDup_app. repeat split; [done | | apply NoDup_singleton].
          intros x Hx Hx'. apply list_elem_of_singleton in Hx'. by subst. }
    assert (O2 : Firewall.opened_ports s2 = Firewall.opened_ports s1
                 /\ Firewall.state_file s2 = Firewall.state_file s1).
    { destruct ok2.
      - destruct H2 as [O2 F2]. rewrite bool_decide_eq_true_2 in O2 by done. auto.
      - done. }
    destruct O2 as [O2 F2]. rewrite O2. repeat split; try done.
    apply NoDup_ListNoDup in Hnd1.
    apply (proj1 (List.NoDup_count_occ' Firewall.port_entry_eq_dec _) Hnd1).
    by apply list_elem_of_In.
  - destruct H1 as (-> & O1 & F1 & C1), H2 as (-> & O2 & F2 & C2).
    repeat split; congruence.
Qed.

(** On [ufw_host] both calls succeed and port 8080 is tracked once. *)
Lemma open_port_twice_tracks_one_entry_witness :
  NoDup (Firewall.opened_ports ufw_manager) /\
  exists r1 s1 r2 s2,
    Firewall.open_port ufw_host 8080 "tcp" ufw_manager = (r1, s1) /\
    Firewall.open_port ufw_host 8080 "tcp" s1 = (r2, s2) /\
    r1.1 = true /\ r2.1 = true /\
    count_occ Firewall.port_entry_eq_dec (Firewall.opened_ports s2)
              (Firewall.PortEntry 8080 "tcp") = 1%nat.
Proof.
  assert (Hnd : NoDup (Firewall.opened_ports ufw_manager)) by apply NoDup_nil_2.
  split; [exact Hnd |].
  destruct (Firewall.open_port ufw_host 8080 "tcp" ufw_manager) as [r1 s1] eqn:H1.
  destruct (Firewall.open_port ufw_host 8080 "tcp" s1) as [r2 s2] eqn:H2.
  exists r1, s1, r2, s2.
  pose proof (open_port_twice_tracks_one_entry ufw_host 8080 "tcp" ufw_manager s1 s2 r1 r2
                H1 H2 Hnd) as H.
  simpl in H.
  vm_compute in H1. injection H1 as <- <-.
  vm_compute in H2. injection H2 as <- <-.
  destruct (H eq_refl) as (_ & _ & Hcount & _).
  split; [reflexivity |]. split; [reflexivity |]. split; [reflexivity |].
  split; [reflexivity | exact Hcount].
Defined.

(** ** The tracked list keeps no duplicates *)

Section TrackedPorts.
Import Firewall.
Context (e : env).

Lemma list_remove_sublist (x : port_entry) (l : list port_entry) :
  sublist (list_remove x l) l.
Proof.
  induction l as [|y l IH]; simpl; [done |].
  destruct (decide (x = y)); [by apply sublist_cons | by apply sublist_skip].
Qed.

(** [open_port] and [close_port] keep the tracked list free of
    duplicates, so a list that starts empty never has any. *)
Lemma open_port_keeps_nodup port protocol s :
  NoDup (opened_ports s) -> NoDup (opened_ports (open_port e port protocol s).2).
Proof.
  intros Hnd.
  destruct (open_port e port protocol s) as [[ok message] s'] eqn:H.
  apply open_port_spec in H as (_ & _ & H). simpl.
  destruct (firewall_type s).
  - destruct ok; [| destruct H as [-> _]; done].
    destruct H as [-> _]. case_bool_decide as Hin; [done |].
    apply NoDup_app. repeat split; [done | | apply NoDup_singleton].
    intros x Hx Hx'. apply list_elem_of_singleton in Hx'. by subst.
  - destruct H as (_ & -> & _). done.
Qed.

Lemma close_port_keeps_nodup port protocol s :
  NoDup (opened_ports s) -> NoDup (opened_ports (close_port e port protocol s).2).
Proof.
  intros Hnd.
  destruct (close_port e port protocol s) as [[ok message] s'] eqn:H.
  apply close_port_spec in H as (_ & _ & Hports & _). simpl.
  destruct Hports as [-> | ->]; [done |].
  eapply sublist_NoDup; [exact Hnd | apply list_remove_sublist].
Qed.

End TrackedPorts.

(** A host with iptables, run by an ordinary user: the rule for the port
    is not there yet, inserting it works, and so does the first way of
    saving the rules. *)
Definition iptables_host : Firewall.env :=
  Firewall.Env 1000
    (fun _ argv =>
       match argv with
       | "sudo" :: "iptables" :: "-C" :: _ => Firewall.Completed 1 "" "iptables: Bad rule"
       | _ => Firewall.Completed 0 "" ""
       end)
    (fun _ => None).

Example open_port_with_iptables :
  let r := Firewall.open_port iptables_host 8080 "tcp"
             (Firewall.State (Some Firewall.iptables) [] None [] []) in
  r.1 = (true, "") /\
  Firewall.commands r.2
    = [ ["sudo"; "iptables"; "-C"; "INPUT"; "-p"; "tcp"; "--dport"; "8080"; "-j"; "ACCEPT"];
        ["sudo"; "iptables"; "-I"; "INPUT"; "-p"; "tcp"; "--dport"; "8080"; "-j"; "ACCEPT"];
        ["sudo"; "iptables-save"; "-f"; "/etc/iptables/rules.v4"] ] /\
  Firewall.opened_ports r.2 = [Firewall.PortEntry 8080 "tcp"] /\
  Firewall.state_file r.2 = Some [Firewall.PortEntry 8080 "tcp"].
Proof. vm_compute. repeat split. Qed.

(** The update of a port on [ufw_host], where deleting a rule fails: the
    new port is opened, the old one stays, the result is success. *)
Example update_port_when_close_fails :
  let r := Firewall.update_port ufw_host 8080 8090 "tcp"
             (Firewall.State (Some Firewall.ufw) [Firewall.PortEntry 8080 "tcp"]
                             (Some [Firewall.PortEntry 8080 "tcp"]) [] []) in
  r.1 = (true, "Port changé de 8080 à 8090") /\
  Firewall.commands r.2 = [ ["ufw"; "allow"; "8090/tcp"]; ["ufw"; "delete"; "allow"; "8080/tcp"] ] /\
  Firewall.opened_ports r.2 = [Firewall.PortEntry 8080 "tcp"; Firewall.PortEntry 8090 "tcp"].
Proof. vm_compute. repeat split. Qed.

(** ** Sessions and authentication *)

Section PamAuthFacts.
Import PamAuth.
Context (e : env).

Ltac pam_run :=
  unfold mbind, M_bind, bind, ret, log, get_sessions, set_sessions, time_time, new_token in *;
  simpl in *.

(** A step that only writes log lines. *)
Definition only_logs (s s' : state) : Prop :=
  _sessions s' = _sessions s /\ ticks s' = ticks s /\ drawn s' = drawn s.

Lemma only_logs_refl s : only_logs s s.
Proof. done. Qed.

Lemma auth_pam_loop_only_logs u p services reason s :
  only_logs s (_auth_pam_loop e u p services reason s).2.
Proof.
  revert reason s. induction services as [|service rest IH]; intros reason s; simpl.
  - done.
  - destruct (pam_authenticate e u p service); pam_run; [done | apply IH | done].
Qed.

Lemma auth_shadow_only_logs self u p s : only_logs s (_auth_shadow e self u p s).2.
Proof.
  unfold _auth_shadow.
  destruct (spwd_getspnam e u); pam_run; try done.
  destruct (_ || _); [done |].
  destruct (shadow_backend self) as [[]|]; [| | done].
  - destruct (crypt_crypt e p sp_pwdp); [| done].
    by destruct (Py.compare_digest _ _) as [[]|].
  - destruct (passlib_verify e p sp_pwdp) as [[]|]; done.
Qed.

(** The message of a denial, read off the checks in their order. *)
Definition denial_message (u p : string) : string :=
  if negb (Py.truthy u) || negb (Py.truthy p) then "Nom d'utilisateur et mot de passe requis"
  else if negb (isalnum e (Py.remove_char "-"%char (Py.remove_char "_"%char u)))
  then "Nom d'utilisateur invalide"
  else if negb (_user_exists e u) then "Authentification échouée"
  else if bool_decide (ALLOWED_GROUPS e <> []) && negb (_user_in_groups e u (ALLOWED_GROUPS e))
  then "Utilisateur non autorisé"
  else "Authentification échouée".

Lemma guarded_only_logs (b : bool) (m : M (bool * string)) s :
  (forall s0, only_logs s0 (m s0).2) ->
  only_logs s ((if b then m else ret (false, "")) s).2.
Proof. intros H. destruct b; [apply H | done]. Qed.

Lemma authenticate_spec self u p s :
  let r := authenticate e self u p s in
  only_logs s r.2 /\ (r.1.1 = false -> r.1.2 = denial_message u p).
Proof.
  unfold authenticate, denial_message.
  destruct (negb (Py.truthy u) || negb (Py.truthy p)); [done |].
  destruct (negb (isalnum e _)); [done |].
  destruct (negb (_user_exists e u)); [done |].
  destruct (bool_decide _ && negb _); [done |].
  unfold mbind, M_bind, bind.
  pose proof (guarded_only_logs (pam_available self) (_auth_pam e u p) s
                (auth_pam_loop_only_logs u p _ "")) as Hpam.
  destruct ((if pam_available self then _auth_pam e u p else ret (false, "")) s)
    as [[pam_ok pam_message] s1].
  simpl in Hpam. destruct pam_ok; simpl; [done |].
  pose proof (guarded_only_logs (shadow_available self) (_auth_shadow e self u p) s1
                (auth_shadow_only_logs self u p)) as Hsh.
  destruct ((if shadow_available self then _auth_shadow e self u p else ret (false, "")) s1)
    as [[shadow_ok shadow_message] s2].
  simpl in Hsh. unfold only_logs in *. destruct shadow_ok; simpl; intuition congruence.
Qed.

End PamAuthFacts.

(** [str.isalnum] on ASCII strings. *)
Definition ascii_isalnum (s : string) : bool :=
  Py.truthy s &&
  forallb (fun c => let n := N_of_ascii c in
                    ((48 <=? n) && (n <=? 57) || (65 <=? n) && (n <=? 90)
                     || (97 <=? n) && (n <=? 122))%N)
          (list_ascii_of_string s).

(** A host for the examples: the clock stands at 100, the only account is
    [bob] (group [bob]), access is restricted to the group [sudo], whose
    only member is [alice], PAM rejects everybody. *)
Definition office_host : PamAuth.env :=
  PamAuth.Env
    (fun _ => 100)
    (fun n => "token-" +:+ Py.str (Z.of_nat n))
    ascii_isalnum
    ["sudo"]
    (fun u => if String.eqb u "bob" then Some 1000 else None)
    (fun gid => if gid =? 1000 then Some (PamAuth.Group "bob" []) else None)
    (fun g => if String.eqb g "sudo" then Some (PamAuth.Group "sudo" ["alice"]) else None)
    (fun _ _ _ => PamAuth.PamRejected "Authentication failure")
    (fun _ => PamAuth.ShadowKeyError)
    (fun _ _ => inr "unavailable")
    (fun _ _ => inr "unavailable").

Definition pam_only : PamAuth.PAMAuth := PamAuth.MkPAMAuth true false None.

Definition no_sessions : PamAuth.state := PamAuth.State ∅ 0 0 [].






(** The login form answers every denial by [authenticate] with the same
    redirect: the message of [authenticate] only goes to the log. *)
Lemma handle_login_denial_is_uniform
    (e : PamAuth.env) (auth : PamAuth.PAMAuth) (u p : string) (s : PamAuth.state) :
  Py.truthy u = true -> Py.truthy p = true ->
  (PamAuth.authenticate e auth u p s).1.1 = false ->
  (LocalWeb.handle_login e true auth u p s).1
  = LocalWeb.Response 302 [("Location", "/login?error=Identifiants+invalides")].
Proof.
  intros Hu Hp Hfail. unfold LocalWeb.handle_login, PamAuth.login.
  rewrite Hu, Hp. simpl.
  unfold mbind, PamAuth.M_bind, PamAuth.bind.
  destruct (PamAuth.authenticate e auth u p s) as [[success message] s1].
  simpl in Hfail. by subst success.
Qed.

Section SessionFacts.
Import PamAuth.
Context (e : env).

Lemma truthy_nonempty (tok : string) : tok <> "" -> Py.truthy tok = true.
Proof. by destruct tok. Qed.

(** [validate_session] on a stored session, step by step. *)
Lemma validate_session_stored tok s sess :
  _sessions s !! tok = Some sess -> tok <> "" ->
  validate_session e (Some tok) s =
    if clock e (ticks s) >? expires sess
    then (None, State (delete tok (_sessions s)) (S (ticks s)) (drawn s) (log_lines s))
    else (Some (username sess),
          State (<[tok := Session (username sess) (created sess)
                            (clock e (S (S (ticks s))) + SESSION_TIMEOUT)
                            (clock e (S (ticks s)))]> (_sessions s))
                (S (S (S (ticks s)))) (drawn s) (log_lines s)).
Proof.
  intros Hlook Hne. unfold validate_session.
  rewrite (truthy_nonempty tok Hne). simpl.
  unfold mbind, M_bind, bind, ret, get_sessions, set_sessions, time_time. simpl.
  rewrite Hlook. simpl. by destruct (clock e (ticks s) >? expires sess).
Qed.

(** [create_session], step by step. *)
Lemma create_session_steps user s :
  create_session e user s =
    (token_urlsafe e (drawn s),
     State (filter (fun kv => ~ (clock e (S (S (S (ticks s)))) > expires kv.2))
                   (<[token_urlsafe e (drawn s) :=
                        Session user (clock e (ticks s))
                                (clock e (S (ticks s)) + SESSION_TIMEOUT)
                                (clock e (S (S (ticks s))))]> (_sessions s)))
           (S (S (S (S (ticks s))))) (S (drawn s))
           (log_lines s ++ ["Session créée pour '" +:+ user +:+ "'"])).
Proof. reflexivity. Qed.

(** The token of a successful login validates while the clock has not
    passed the expiry computed at creation. *)
Lemma login_token_validates auth u p message token s0 s1 :
  login e auth u p s0 = ((true, message, Some token), s1) ->
  token <> "" ->
  let expiry := clock e (S (ticks s0)) + SESSION_TIMEOUT in
  clock e (S (S (S (ticks s0)))) <= expiry ->
  clock e (ticks s1) <= expiry ->
  (validate_session e (Some token) s1).1 = Some u.
Proof.
  intros Hlogin Htok expiry Hclean Hnow.
  unfold login in Hlogin. unfold mbind, M_bind, bind in Hlogin.
  destruct (authenticate_spec e auth u p s0) as [(Hs & Ht & Hd) _].
  destruct (authenticate e auth u p s0) as [[success msg] s0'].
  simpl in Hs, Ht, Hd.
  destruct success; [| discriminate Hlogin].
  rewrite create_session_steps in Hlogin. unfold ret in Hlogin.
  injection Hlogin as <- Htoken <-. rewrite Htoken, Ht in *.
  match goal with |- (validate_session e (Some token) ?s2).1 = _ =>
    assert (Hstored : _sessions s2 !! token
                      = Some (Session u (clock e (ticks s0)) expiry
                                      (clock e (S (S (ticks s0))))))
  end.
  { simpl. apply map_lookup_filter_Some. split; [apply lookup_insert_eq |].
    simpl. fold expiry. lia. }
  rewrite (validate_session_stored _ _ _ Hstored Htok).
  simpl. simpl in Hnow.
  by destruct (Z.gtb_spec (clock e (S (S (S (S (ticks s0)))))) expiry); [lia |].
Qed.

End SessionFacts.

(** C5, as stated: a stored session validates exactly when the clock is
    strictly before its expiry. *)
Definition valid_iff_strictly_before_expiry
    (e : PamAuth.env) (tok : string) (s : PamAuth.state) : Prop :=
  forall sess,
    PamAuth._sessions s !! tok = Some sess ->
    (is_Some (PamAuth.validate_session e (Some tok) s).1
     <-> PamAuth.clock e (PamAuth.ticks s) < PamAuth.expires sess).

(** A session that expires at 100, with the clock at 100. *)
Definition session_at_expiry : PamAuth.state :=
  PamAuth.State {[ "token-0" := PamAuth.Session "bob" 0 100 50 ]} 0 1 [].

(** At the very instant of expiry the session still validates. *)
Lemma valid_iff_strictly_before_expiry_fails_at_expiry :
  ~ valid_iff_strictly_before_expiry office_host "token-0" session_at_expiry.
Proof.
  intros H.
  specialize (H (PamAuth.Session "bob" 0 100 50) (lookup_singleton_eq _ _)) as [H _].
  assert (Hvalid : is_Some (PamAuth.validate_session office_host (Some "token-0")
                                                     session_at_expiry).1).
  { rewrite (validate_session_stored office_host "token-0" session_at_expiry
               (PamAuth.Session "bob" 0 100 50)); [| apply lookup_singleton_eq | done].
    simpl. by eexists. }
  apply H in Hvalid. simpl in Hvalid. lia.
Qed.

(** C5, amended. A stored session validates exactly when the clock is at
    or before its expiry ([now <= expiresAt]); past the expiry the
    validation fails and drops the session. A successful validation
    returns the user name and sets the expiry to the time of the
    validation plus the session timeout. The token of a successful login
    validates right after creation, as long as the clock has not passed
    the expiry computed at creation. *)
Theorem session_valid_until_expiry
    (e : PamAuth.env) (tok : string) (s : PamAuth.state) (sess : PamAuth.session) :
  PamAuth._sessions s !! tok = Some sess ->
  tok <> "" ->
  let r := PamAuth.validate_session e (Some tok) s in
  (is_Some r.1 <-> PamAuth.clock e (PamAuth.ticks s) <= PamAuth.expires sess) /\
  (PamAuth.clock e (PamAuth.ticks s) <= PamAuth.expires sess ->
   r.1 = Some (PamAuth.username sess) /\
   exists sess',
     PamAuth._sessions r.2 !! tok = Some sess' /\
     PamAuth.username sess' = PamAuth.username sess /\
     PamAuth.expires sess'
       = PamAuth.clock e (S (S (PamAuth.ticks s))) + PamAuth.SESSION_TIMEOUT) /\
  (PamAuth.expires sess < PamAuth.clock e (PamAuth.ticks s) ->
   r.1 = None /\ PamAuth._sessions r.2 !! tok = None) /\
  (forall (auth : PamAuth.PAMAuth) (u p message token : string) (s0 s1 : PamAuth.state),
     PamAuth.login e auth u p s0 = ((true, message, Some token), s1) ->
     token <> "" ->
     let expiry := PamAuth.clock e (S (PamAuth.ticks s0)) + PamAuth.SESSION_TIMEOUT in
     PamAuth.clock e (S (S (S (PamAuth.ticks s0)))) <= expiry ->
     PamAuth.clock e (PamAuth.ticks s1) <= expiry ->
     (PamAuth.validate_session e (Some token) s1).1 = Some u).
Proof.
  intros Hlook Hne r. subst r.
  rewrite (validate_session_stored e tok s sess Hlook Hne).
  destruct (Z.gtb_spec (PamAuth.clock e (PamAuth.ticks s)) (PamAuth.expires sess)) as [Hgt|Hle];
    simpl.
  - split; [| split; [| split]].
    + split; [by intros [? ?] | lia].
    + lia.
    + intros _. split; [done | apply lookup_delete_eq].
    + apply login_token_validates.
  - split; [| split; [| split]].
    + split; [done | by eexists].
    + intros _. split; [done |]. eexists. rewrite lookup_insert_eq. by repeat split.
    + lia.
    + apply login_token_validates.
Qed.

Lemma session_valid_until_expiry_witness :
  PamAuth._sessions session_at_expiry !! "token-0" = Some (PamAuth.Session "bob" 0 100 50) /\
  "token-0" <> "" /\
  (PamAuth.validate_session office_host (Some "token-0") session_at_expiry).1 = Some "bob".
Proof.
  assert (H1 : PamAuth._sessions session_at_expiry !! "token-0"
               = Some (PamAuth.Session "bob" 0 100 50)) by (vm_compute; reflexivity).
  assert (H2 : "token-0" <> "") by discriminate.
  split; [exact H1 |]. split; [exact H2 |].
  destruct (session_valid_until_expiry office_host "token-0" session_at_expiry _ H1 H2)
    as (_ & Hvalid & _).
  apply Hvalid. simpl. lia.
Defined.

(** ** Request signing *)

(** Every character of [s] satisfies [P]. *)
Fixpoint all_chars (P : ascii -> bool) (s : string) : bool :=
  match s with
  | EmptyString => true
  | String c s' => P c && all_chars P s'
  end.

Lemma digit_facts (c : ascii) :
  Py.is_decimal c = true ->
  Py.is_c_space c = false /\ Ascii.eqb c "_" = false /\
  (N_of_ascii c <? 128)%N = true /\
  forall s, Py.split_sign (String c s) = (false, String c s).
Proof.
  destruct c as [[] [] [] [] [] [] [] []]; vm_compute; intros H;
    try discriminate H; repeat split; reflexivity.
Qed.

Lemma string_of_uint_digits (d : Decimal.uint) :
  all_chars Py.is_decimal (NilEmpty.string_of_uint d) = true.
Proof. induction d; simpl; auto. Qed.

Lemma all_chars_impl (P Q : ascii -> bool) (s : string) :
  (forall c, P c = true -> Q c = true) -> all_chars P s = true -> all_chars Q s = true.
Proof.
  intros HPQ. induction s as [|c s IH]; simpl; [done |].
  intros [Hc Hs]%andb_true_iff. by rewrite (HPQ c Hc), (IH Hs).
Qed.

Lemma drop_trailing_spaces_digits (s : string) :
  all_chars Py.is_decimal s = true -> Py.drop_trailing_spaces s = s.
Proof.
  induction s as [|c s IH]; simpl; [done |].
  intros [Hc Hs]%andb_true_iff. rewrite (IH Hs).
  destruct s; [| done]. by destruct (digit_facts c Hc) as (-> & _).
Qed.

Lemma digit_run_digits (s : string) :
  all_chars Py.is_decimal s = true -> Py.digit_run s = s.
Proof.
  induction s as [|c s IH]; simpl; [done |].
  intros [Hc Hs]%andb_true_iff. by rewrite Hc, (IH Hs).
Qed.

Lemma digits_are_ascii (s : string) :
  all_chars Py.is_decimal s = true -> Py.is_ascii s = true.
Proof.
  induction s as [|c s IH]; simpl; [done |].
  intros [Hc Hs]%andb_true_iff. rewrite (IH Hs).
  by destruct (digit_facts c Hc) as (_ & _ & -> & _).
Qed.

Lemma remove_underscore_digits (s : string) :
  all_chars Py.is_decimal s = true -> Py.remove_char "_"%char s = s.
Proof.
  induction s as [|c s IH]; [done |].
  cbn [all_chars Py.remove_char].
  intros [Hc Hs]%andb_true_iff.
  destruct (digit_facts c Hc) as (_ & Hu & _).
  rewrite Ascii.eqb_sym, Hu. by rewrite (IH Hs).
Qed.

Lemma underscores_ok_digits (s : string) (b : bool) :
  all_chars Py.is_decimal s = true -> s <> "" -> Py.underscores_ok b s = true.
Proof.
  revert b. induction s as [|c s IH]; intros b; [done |].
  cbn [all_chars Py.underscores_ok].
  intros [Hc Hs]%andb_true_iff _.
  destruct (digit_facts c Hc) as (_ & -> & _).
  destruct s as [|c' s']; [done |]. by apply IH.
Qed.

(** Reading back the digits of a non-empty decimal numeral. *)
Lemma int_digits_of_uint (d : Decimal.uint) :
  d <> Decimal.Nil ->
  Py.int_digits (NilEmpty.string_of_uint d) = Some (Z.of_uint d).
Proof.
  intros Hd. unfold Py.int_digits.
  pose proof (string_of_uint_digits d) as Hdig.
  assert (Hne : NilEmpty.string_of_uint d <> "") by (by destruct d).
  rewrite (underscores_ok_digits _ false Hdig Hne).
  rewrite (remove_underscore_digits _ Hdig).
  pose proof (NilZero.usu d Hd) as Hu.
  replace (NilZero.string_of_uint d) with (NilEmpty.string_of_uint d) in Hu
    by (by destruct d).
  by rewrite Hu.
Qed.

(** The digits of a numeral are counted one by one. *)
Lemma count_digits_of_uint (d : Decimal.uint) :
  Py.count_digits (NilEmpty.string_of_uint d) = DecimalPos.Unsigned.usize d.
Proof.
  induction d; cbn [NilEmpty.string_of_uint Py.count_digits DecimalPos.Unsigned.usize];
    [done | ..]; rewrite IHd; change (Py.is_decimal _) with true; cbv iota; lia.
Qed.

(** A numeral without a leading zero is at least the power of ten of
    its length. *)
Lemma of_lu_rev_lower_bound (d : Decimal.uint) :
  Decimal.nzhead d = d -> d <> Decimal.Nil ->
  (10 ^ N.pred (DecimalPos.Unsigned.usize d) <= DecimalPos.Unsigned.of_lu (Decimal.rev d))%N.
Proof.
  intros Hnorm Hd.
  destruct d as [|d|d|d|d|d|d|d|d|d|d]; [done | by destruct (DecimalFacts.nzhead_nonzero (Decimal.D0 d) d) | ..];
    unfold Decimal.rev; cbn [Decimal.revapp DecimalPos.Unsigned.usize];
    rewrite DecimalPos.Unsigned.of_lu_revapp, N.pred_succ;
    cbn [DecimalPos.Unsigned.of_lu]; rewrite N.mul_0_r, N.add_0_r;
    pose proof (N.pow_nonzero 10 (DecimalPos.Unsigned.usize d) ltac:(done));
    nia.
Qed.

(** The decimal notation of a number below [10 ^ k] has at most [k]
    digits. *)
Lemma to_uint_size (p : positive) (k : N) :
  (N.pos p < 10 ^ k)%N -> (DecimalPos.Unsigned.usize (Pos.to_uint p) <= k)%N.
Proof.
  intros Hp.
  set (d := Pos.to_uint p).
  assert (Hd : d <> Decimal.Nil) by apply DecimalPos.Unsigned.to_uint_nonnil.
  assert (Hnorm : Decimal.nzhead d = d).
  { pose proof (DecimalPos.Unsigned.to_of d) as Hto.
    unfold d in Hto at 1. rewrite DecimalPos.Unsigned.of_to in Hto.
    change (N.to_uint (N.pos p)) with d in Hto.
    rewrite <- DecimalFacts.unorm_nzhead; [done |].
    intros Hnil. apply DecimalFacts.unorm_0 in Hnil.
    apply (DecimalPos.Unsigned.to_uint_nonzero p). fold d. by rewrite Hto. }
  pose proof (of_lu_rev_lower_bound d Hnorm Hd) as Hlow.
  rewrite <- DecimalPos.Unsigned.of_uint_alt in Hlow.
  unfold d in Hlow at 2. rewrite DecimalPos.Unsigned.of_to in Hlow.
  destruct (N.le_gt_cases (DecimalPos.Unsigned.usize d) k) as [|Hgt]; [done |].
  assert (Hk : (k <= N.pred (DecimalPos.Unsigned.usize d))%N) by lia.
  pose proof (N.pow_le_mono_r 10 _ _ ltac:(done) Hk). lia.
Qed.

(** [int] reads a numeral of at most 4300 digits, with or without a
    minus sign in front. *)
Lemma read_int_of_uint (d : Decimal.uint) :
  d <> Decimal.Nil -> (DecimalPos.Unsigned.usize d <= Py.int_max_str_digits)%N ->
  Py.read_int (NilEmpty.string_of_uint d) = Py.IntValue (Z.of_uint d) /\
  Py.read_int (String "-"%char (NilEmpty.string_of_uint d)) = Py.IntValue (- Z.of_uint d).
Proof.
  intros Hd Hsize.
  pose proof (string_of_uint_digits d) as Hdig.
  assert (Hbody : forall negative,
             (if Py.underscores_ok false (Py.digit_run (NilEmpty.string_of_uint d))
                 && (Py.int_max_str_digits
                     <? Py.count_digits (Py.digit_run (NilEmpty.string_of_uint d)))%N
              then Py.IntTooLong (Py.count_digits (Py.digit_run (NilEmpty.string_of_uint d)))
              else match Py.int_digits (Py.drop_trailing_spaces (NilEmpty.string_of_uint d)) with
                   | Some z => Py.IntValue (if negative : bool then - z else z)
                   | None => Py.IntInvalid
                   end)
             = Py.IntValue (if negative then - Z.of_uint d else Z.of_uint d)).
  { intros negative.
    rewrite digit_run_digits, drop_trailing_spaces_digits, count_digits_of_uint by done.
    rewrite (proj2 (N.ltb_ge _ _) Hsize), andb_false_r.
    by rewrite int_digits_of_uint. }
  split.
  - unfold Py.read_int.
    destruct (NilEmpty.string_of_uint d) as [|c s] eqn:Hs; [by destruct d |].
    cbn [all_chars] in Hdig. apply andb_true_iff in Hdig as [Hc _].
    destruct (digit_facts c Hc) as (Hspace & _ & _ & Hsign).
    cbn [Py.skip_spaces]. rewrite Hspace, Hsign. exact (Hbody false).
  - unfold Py.read_int. cbn [Py.skip_spaces].
    change (Py.is_c_space "-") with false. cbv iota.
    cbn [Py.split_sign]. exact (Hbody true).
Qed.

(** [int(str(n)) == n] for a number in the range of a [float]. *)
Lemma int_of_str (to_ascii : string -> string) (n : Z) :
  Z.abs n < 2 ^ 1024 -> Py.int_ to_ascii (Py.str n) = Some n.
Proof.
  intros Hn.
  assert (Hpow : (2 ^ 1024 < 10 ^ Py.int_max_str_digits)%N) by (vm_compute; reflexivity).
  assert (Hread : Py.is_ascii (Py.str n) = true /\ Py.read_int (Py.str n) = Py.IntValue n).
  { unfold Py.str. destruct n as [|p|p]; [by split | |]; simpl;
      pose proof (Unsigned.to_uint_nonnil p) as Hd;
      pose proof (string_of_uint_digits (Pos.to_uint p)) as Hdig;
      (assert (Hsize : (DecimalPos.Unsigned.usize (Pos.to_uint p) <= Py.int_max_str_digits)%N)
        by (apply to_uint_size; lia));
      destruct (read_int_of_uint _ Hd Hsize) as [Hpos Hneg];
      replace (NilZero.string_of_uint (Pos.to_uint p))
        with (NilEmpty.string_of_uint (Pos.to_uint p)) by (by destruct (Pos.to_uint p));
      unfold Z.of_uint in Hpos, Hneg; rewrite Unsigned.of_to in Hpos, Hneg.
    - split; [by apply digits_are_ascii | exact Hpos].
    - split; [by apply digits_are_ascii | exact Hneg]. }
  destruct Hread as [Hascii Hread].
  unfold Py.int_, Py.int_text. by rewrite Hascii, Hread.
Qed.

Lemma hex_is_ascii (b : string) : Py.is_ascii (Py.hex b) = true.
Proof.
  induction b as [|c b IH]; simpl; [done |]. rewrite IH.
  destruct c as [[] [] [] [] [] [] [] []]; reflexivity.
Qed.

Lemma compare_digest_same (a : string) :
  Py.is_ascii a = true -> Py.compare_digest a a = Py.Return true.
Proof. intros H. unfold Py.compare_digest. by rewrite H, String.eqb_refl. Qed.

Example int_accepts_spaces_and_underscores (to_ascii : string -> string) :
  Py.int_ to_ascii " 1_000 " = Some 1000 /\ Py.int_ to_ascii "-7" = Some (-7) /\
  Py.int_ to_ascii "+12" = Some 12 /\ Py.int_ to_ascii "007" = Some 7.
Proof. repeat split; reflexivity. Qed.

Example int_rejects_malformed (to_ascii : string -> string) :
  Py.int_ to_ascii "" = None /\ Py.int_ to_ascii "+-5" = None /\
  Py.int_ to_ascii "1__0" = None /\ Py.int_ to_ascii "_1" = None /\
  Py.int_ to_ascii "12a" = None /\ Py.int_ to_ascii "- 5" = None /\
  Py.int_ to_ascii (String (ascii_of_nat 28) "5") = None.
Proof. repeat split; reflexivity. Qed.

(** C3. For every payload and secret, [verify_signature] accepts what
    [sign_request] produced for the same payload and secret whenever the
    signed timestamp reads, by [int], as a time at most [max_age] away
    from the current time, be the timestamp the one [sign_request]
    generates from its clock (a reading in the range of a [float]) or a
    text the caller passed; and it rejects every request whose timestamp
    is more than [max_age] away from the current time, whatever its
    signature. *)
Theorem sign_then_verify
    (e : Security.env) (entropy : string) (signed_at now : Z)
    (payload : Py.value) (secret_key : string)
    (nonce timestamp : option string) (max_age : Z) :
  let h := Security.sign_request e entropy signed_at payload secret_key nonce timestamp in
  (forall request_time,
     Py.int_ (Security.decimal_to_ascii e) (Security.X_Timestamp h) = Some request_time ->
     Z.abs (now - request_time) <= max_age ->
     Security.verify_signature e now payload (Security.X_Signature h)
       (Security.X_Timestamp h) (Security.X_Nonce h) secret_key max_age
     = Py.Return true) /\
  (timestamp = None ->
   Z.abs signed_at < 2 ^ 1024 ->
   Z.abs (now - signed_at) <= max_age ->
   Security.verify_signature e now payload (Security.X_Signature h)
     (Security.X_Timestamp h) (Security.X_Nonce h) secret_key max_age
   = Py.Return true) /\
  (forall signature timestamp' nonce' request_time,
     Py.int_ (Security.decimal_to_ascii e) timestamp' = Some request_time ->
     Z.abs (now - request_time) > max_age ->
     Security.verify_signature e now payload signature timestamp' nonce' secret_key max_age
     = Py.Return false).
Proof.
  intros h.
  assert (Hround : forall request_time,
             Py.int_ (Security.decimal_to_ascii e) (Security.X_Timestamp h)
             = Some request_time ->
             Z.abs (now - request_time) <= max_age ->
             Security.verify_signature e now payload (Security.X_Signature h)
               (Security.X_Timestamp h) (Security.X_Nonce h) secret_key max_age
             = Py.Return true).
  { intros request_time Hts Hage. unfold Security.verify_signature.
    rewrite Hts.
    destruct (Z.gtb_spec (Z.abs (now - request_time)) max_age) as [Hgt|_]; [lia |].
    subst h. simpl. apply compare_digest_same. apply hex_is_ascii. }
  split; [exact Hround |]. split.
  - intros -> Hclock Hage. apply (Hround signed_at); [| done].
    subst h. simpl. unfold Security.generate_timestamp. by apply int_of_str.
  - intros signature timestamp' nonce' request_time Hts Hage.
    unfold Security.verify_signature. rewrite Hts.
    by destruct (Z.gtb_spec (Z.abs (now - request_time)) max_age) as [_|Hle]; [| lia].
Qed.

(** A signer for the examples: the payload prints as [{}], the digest is
    the key followed by the message, and no character outside ASCII is a
    digit or a space. *)
Definition toy_signer : Security.env :=
  Security.Env (fun _ => "{}") (fun key message => key +:+ message) (fun _ => "?").

Lemma sign_then_verify_witness :
  Z.abs 900 < 2 ^ 1024 /\ Z.abs (1000 - 900) <= 300 /\
  let h := Security.sign_request toy_signer "0123456789abcdef" 900 (Py.VDict ∅) "s3cret"
             None None in
  Security.verify_signature toy_signer 1000 (Py.VDict ∅) (Security.X_Signature h)
    (Security.X_Timestamp h) (Security.X_Nonce h) "s3cret" 300 = Py.Return true.
Proof.
  assert (Hclock : Z.abs 900 < 2 ^ 1024) by reflexivity.
  split; [exact Hclock |]. split; [lia |].
  exact (proj1 (proj2 (sign_then_verify toy_signer "0123456789abcdef" 900 1000 (Py.VDict ∅)
                          "s3cret" None None 300)) eq_refl Hclock ltac:(lia)).
Defined.

(** ** Self-update: the file tree *)

Section TreeFacts.
Import Updater.

Lemma lookup_at_app (p q : path) (n : node) :
  lookup_at (p ++ q) n = match lookup_at p n with
                         | Some m => lookup_at q m
                         | None => None
                         end.
Proof.
  revert n. induction p as [|c p IH]; intros n; simpl; [done |].
  destruct n as [content|entries]; [done |].
  destruct (entries !! c); [apply IH | done].
Qed.

(** A change at a path leaves every path alone that neither contains it
    nor lies below it. *)
Lemma lookup_change_other (p q : path) (f : option node -> option node) (n : node) :
  ~ p `prefix_of` q -> ~ q `prefix_of` p ->
  lookup_at p (change_at q f n) = lookup_at p n.
Proof.
  revert p n. induction q as [|c q IH]; intros p n Hpq Hqp.
  - exfalso. apply Hqp. apply prefix_nil.
  - destruct p as [|d p]; [exfalso; apply Hpq, prefix_nil |].
    destruct n as [content|entries]; [done |].
    assert (Hstep : d = c -> ~ p `prefix_of` q /\ ~ q `prefix_of` p).
    { intros ->. split; intros H; [apply Hpq | apply Hqp]; by apply prefix_cons. }
    simpl. destruct q as [|c' q'].
    + simpl. destruct (decide (d = c)) as [->|Hne].
      * exfalso. apply Hqp. apply prefix_cons, prefix_nil.
      * by rewrite lookup_partial_alter_ne.
    + remember (c' :: q') as q eqn:Hq. simpl.
      destruct (decide (d = c)) as [->|Hne].
      * rewrite lookup_alter_eq. destruct (entries !! c) as [m|]; simpl; [| done].
        destruct (Hstep eq_refl). by apply IH.
      * by rewrite lookup_alter_ne.
Qed.

Lemma change_at_cons (c : string) (q : path) (f : option node -> option node)
    (entries : gmap string node) :
  q <> [] -> change_at (c :: q) f (Dir entries) = Dir (alter (change_at q f) c entries).
Proof. by destruct q. Qed.

(** A change below a path shows at that path as the same change on the
    node there. *)
Lemma lookup_change_below (p q : path) (f : option node -> option node) (n : node) :
  q <> [] ->
  lookup_at p (change_at (p ++ q) f n) = change_at q f <$> lookup_at p n.
Proof.
  intros Hq. revert n. induction p as [|c p IH]; intros n; [done |].
  destruct n as [content|entries]; [done |].
  rewrite <- app_comm_cons, change_at_cons.
  - simpl. rewrite lookup_alter_eq.
    destruct (entries !! c) as [m|]; simpl; [apply IH | done].
  - intros Hnil. by apply app_eq_nil in Hnil as [_ ?].
Qed.

(** A change of one entry of a directory. *)
Lemma change_entry (x : string) (f : option node -> option node) (entries : gmap string node) :
  change_at [x] f (Dir entries) = Dir (partial_alter f x entries).
Proof. done. Qed.

(** A change of the entry [x] below [p], seen at [p]. *)
Lemma lookup_change_entry (p : path) (x : string) (f : option node -> option node)
    (n : node) (entries : gmap string node) :
  lookup_at p n = Some (Dir entries) ->
  lookup_at p (change_at (p ++ [x]) f n) = Some (Dir (partial_alter f x entries)).
Proof. intros H. by rewrite lookup_change_below, H. Qed.

(** The changed entry itself. *)
Lemma lookup_changed_entry (p : path) (x : string) (f : option node -> option node)
    (n : node) (entries : gmap string node) :
  lookup_at p n = Some (Dir entries) ->
  lookup_at (p ++ [x]) (change_at (p ++ [x]) f n) = f (entries !! x).
Proof.
  intros H. rewrite lookup_at_app, (lookup_change_entry _ _ _ _ _ H). simpl.
  rewrite lookup_partial_alter_eq. by destruct (f (entries !! x)).
Qed.

Lemma removelast_snoc (p : path) (x : string) : removelast (p ++ [x]) = p.
Proof. apply removelast_last. Qed.

(** Two paths below a common one stay apart from a path that is apart
    from it. *)
Lemma apart_below (p t x : path) :
  ~ p `prefix_of` t -> ~ t `prefix_of` p ->
  ~ p `prefix_of` (t ++ x) /\ ~ (t ++ x) `prefix_of` p.
Proof.
  intros Hpt Htp. split.
  - intros Hp. destruct (prefix_weak_total p t (t ++ x) Hp (prefix_app_r t t x (reflexivity t)));
      contradiction.
  - intros Hp. apply Htp. etrans; [apply prefix_app_r; reflexivity | exact Hp].
Qed.

End TreeFacts.

Section UpdaterSteps.
Import Updater Eff.

Ltac eff_run := unfold mbind, M_bind, bind, ret, raise, get, lift, perform in *; simpl in *.

Lemma lookup_entry (dir : path) (x : string) (n : node) (entries : gmap string node) :
  lookup_at dir n = Some (Dir entries) -> lookup_at (dir ++ [x]) n = entries !! x.
Proof. intros H. rewrite lookup_at_app, H. simpl. by destruct (entries !! x). Qed.

Lemma mkdtemp_fresh suffix prefix dir s entries :
  lookup dir s = Some (Dir entries) ->
  entries !! (prefix +:+ suffix) = None ->
  mkdtemp suffix prefix dir s =
    (Py.Return (dir ++ [prefix +:+ suffix]),
     State (change_at (dir ++ [prefix +:+ suffix]) (fun _ => Some (Dir ∅)) (root s))
           (ops s ++ [Mkdtemp (dir ++ [prefix +:+ suffix])]) (stdout s)).
Proof.
  intros Hdir Hfresh. unfold mkdtemp, is_dir, exists_, lookup in *. eff_run.
  by rewrite Hdir, (lookup_entry _ _ _ _ Hdir), Hfresh.
Qed.

Lemma write_file_new dir x content s entries :
  lookup dir s = Some (Dir entries) ->
  entries !! x = None ->
  write_file (dir ++ [x]) content s =
    (Py.Return tt,
     State (change_at (dir ++ [x]) (fun _ => Some (File content)) (root s))
           (ops s ++ [WriteFile (dir ++ [x])]) (stdout s)).
Proof.
  intros Hdir Hfresh. unfold write_file, is_dir, parent, lookup in *. eff_run.
  by rewrite removelast_snoc, Hdir, (lookup_entry _ _ _ _ Hdir), Hfresh.
Qed.

Lemma mkdir_new dir x s entries :
  lookup dir s = Some (Dir entries) ->
  entries !! x = None ->
  mkdir_exist_ok (dir ++ [x]) s =
    (Py.Return tt,
     State (change_at (dir ++ [x]) (fun _ => Some (Dir ∅)) (root s))
           (ops s ++ [Mkdir (dir ++ [x])]) (stdout s)).
Proof.
  intros Hdir Hfresh. unfold mkdir_exist_ok, is_dir, parent, lookup in *. eff_run.
  by rewrite removelast_snoc, Hdir, (lookup_entry _ _ _ _ Hdir), Hfresh.
Qed.

Lemma read_text_file dir x content s entries :
  lookup dir s = Some (Dir entries) ->
  entries !! x = Some (File content) ->
  read_text (dir ++ [x]) s = (Py.Return content, s).
Proof.
  intros Hdir Hfile. unfold read_text, lookup in *. eff_run.
  by rewrite (lookup_entry _ _ _ _ Hdir), Hfile.
Qed.


End UpdaterSteps.

Section UpdaterClaim.
Import Updater Eff.

Lemma bind_return {St A B : Type} (m : Eff.M St A) (f : A -> Eff.M St B) s a s' :
  m s = (Py.Return a, s') -> bind m f s = f a s'.
Proof. intros H. unfold bind. by rewrite H. Qed.

Lemma bind_raise {St A B : Type} (m : Eff.M St A) (f : A -> Eff.M St B) s exc s' :
  m s = (Py.Raise exc, s') -> bind m f s = (Py.Raise exc, s').
Proof. intros H. unfold bind. by rewrite H. Qed.

(** The state after an optional [print]. *)
Definition said (verbose : bool) (message : string) (s : state) : state :=
  if verbose then State (root s) (ops s) (stdout s ++ [message]) else s.

Lemma log_said (verbose : bool) message s :
  (if verbose then print message else ret tt) s = (Py.Return tt, said verbose message s).
Proof. by destruct verbose. Qed.

Lemma said_root verbose message s : root (said verbose message s) = root s.
Proof. by destruct verbose. Qed.

Lemma said_ops verbose message s : ops (said verbose message s) = ops s.
Proof. by destruct verbose. Qed.

Lemma said_lookup verbose message p s : lookup p (said verbose message s) = lookup p s.
Proof. unfold lookup. by rewrite said_root. Qed.

End UpdaterClaim.


(** An installation in [/opt/agentautoupdate/app], version 1.0.0, and a
    dashboard that serves a bundle without [VERSION]. *)
Definition installed : Updater.state :=
  Updater.State
    (Updater.Dir
       {[ "opt" :=
            Updater.Dir
              {[ "agentautoupdate" :=
                   Updater.Dir
                     {[ "app" := Updater.Dir {[ "VERSION" := Updater.File "1.0.0" ]} ]} ]} ]})
    [] [].

Definition broken_bundle_host : Updater.env :=
  Updater.Env ["opt"; "agentautoupdate"; "app"]
    (fun _ => Py.Return ["BUN"; ""; "DLE"])
    "x1y2z3"
    (fun _ => Py.Return {[ "agent_poller.py" := Updater.File "import argparse" ]})
    None.


(** ** Command dispatch *)

(** The command types the dispatcher knows. *)
Definition command_types : list string :=
  ["RUN_NOW"; "SET_SCHEDULE"; "UPDATE_AGENT"; "SET_POLL_INTERVAL";
   "UNINSTALL"; "LIST_LOGS"; "FETCH_LOG"; "FETCH_INFO"].

(** C9. A command whose type is none of the known ones is answered with
    status [ERROR], the message "Unknown command" followed by the type,
    [restart = false] and [exit_after = false], and the world is left as
    it was. Whatever the command, [handle_command] returns: it never
    raises. *)
Theorem unknown_command_is_reported
    (e : Agent.env) (command : gmap string Py.value) (w : Agent.world) :
  (Forall (fun known => Py.eq_str (Py.dict_get command "type") known = false) command_types ->
   Agent.handle_command e command w
   = (Py.Return (Agent.CommandResult "ERROR" (Py.VDict ∅)
                   (Some ("Unknown command " +:+
                          Py.str_value (Agent.repr_of e) (Py.dict_get command "type")))
                   false false),
      w)) /\
  (exists result, (Agent.handle_command e command w).1 = Py.Return result).
Proof.
  split.
  - intros Hunknown. unfold command_types in Hunknown.
    repeat (apply Forall_cons in Hunknown as [? Hunknown]).
    unfold Agent.handle_command, Eff.try_except, Agent.handle_command_body.
    by repeat match goal with H : Py.eq_str _ _ = false |- _ => rewrite H; clear H end.
  - unfold Agent.handle_command, Eff.try_except.
    destruct (Agent.handle_command_body e command w) as [[result|exc] w'].
    + by exists result.
    + by eexists.
Qed.

(** A host for the examples: apt is installed and every command succeeds,
    the collaborators answer [None]. *)
Definition quiet_host : Agent.env :=
  Agent.Env (fun n => Z.of_nat n) (fun _ => "2024-05-01T03:00:00Z")
            (fun _ => "2024-05-01 03:00:00") (fun _ => "2024-05-01")
            (fun name => String.eqb name "apt-get")
            (fun _ _ => Py.Return (0, ["ok"])) (fun _ _ => Py.Return Py.VNone)
            (fun _ => "?") broken_bundle_host (fun _ => "?").

(** An agent polling every 60 seconds, with nothing running. *)
Definition idle_world : Agent.world :=
  Agent.World {[ "pollIntervalSeconds" := Py.VInt 60 ]}
              (Some {[ "pollIntervalSeconds" := Py.VInt 60 ]})
              None (Agent.Flock None) 3 0 ∅ [] [] [] installed.

Lemma unknown_command_is_reported_witness :
  Agent.handle_command quiet_host {[ "id" := Py.VInt 7; "type" := Py.VStr "REBOOT" ]}
                       idle_world
  = (Py.Return (Agent.CommandResult "ERROR" (Py.VDict ∅) (Some "Unknown command REBOOT")
                                    false false), idle_world).
Proof.
  refine (proj1 (unknown_command_is_reported _ _ _) _).
  unfold command_types. repeat constructor.
Defined.

(** Dispatching [UPDATE_AGENT] against the bundle without [VERSION]: the
    result is an error with the updater's message, without restart. *)
Example update_agent_command_reports_missing_version :
  (Agent.handle_command quiet_host {[ "type" := Py.VStr "UPDATE_AGENT" ]} idle_world).1
  = Py.Return (Agent.CommandResult "ERROR" (Py.VDict ∅)
                 (Some "Bundle missing VERSION file") false false).
Proof. vm_compute. reflexivity. Qed.

Section PollInterval.
Import Agent Eff.
Context (e : env).

(** The dispatcher on a [SET_POLL_INTERVAL] command, step by step. *)
Lemma handle_set_poll_interval command w :
  command !! "type" = Some (Py.VStr "SET_POLL_INTERVAL") ->
  handle_command e command w =
    try_except
      (let payload := Py.or_value (Py.dict_get command "payload") (Py.VDict ∅) in
       let* interval := lift (value_get payload "pollIntervalSeconds") in
       let* poll_value :=
         lift (Py.int_of_value (decimal_to_ascii e) (Py.or_value interval (Py.VInt 0))) in
       if poll_value <=? 0 then raise (Py.Exn Py.ValueError "Invalid poll interval")
       else
         let* cfg := get config in
         let* _ := set_config (<["pollIntervalSeconds" := Py.VInt poll_value]> cfg) in
         let* cfg := get config in
         let* _ := save_config cfg in
         ret (CommandResult "DONE" (dict_of [("pollIntervalSeconds", Py.VInt poll_value)])
                            None true false))
      (fun exc =>
         ret (CommandResult "ERROR" (Py.VDict ∅) (Some (Py.exn_text exc)) false false))
      w.
Proof.
  intros Htype. unfold handle_command, handle_command_body, Py.dict_get.
  rewrite Htype. reflexivity.
Qed.

(** [save_config] on a configuration whose [schedule] entry is missing,
    falsy or a dictionary. *)
Lemma save_config_ok data schedule w :
  Py.or_value (Py.dict_get data "schedule") (Py.VDict ∅) = Py.VDict schedule ->
  exists normal,
    save_config data w =
      (Py.Return tt,
       World (config w) (Some (<["schedule" := normal]> data)) (state_file w) (lock w)
             (next_fd w) (ticks w) (log_files w) (commands w) (calls w) (printed w) (host w)).
Proof.
  intros Hs. unfold save_config, normal_schedule. rewrite Hs.
  eexists. reflexivity.
Qed.

(** [save_config] on a configuration whose [schedule] entry is truthy
    and not a dictionary: the lookup in it raises and no file is
    written. *)
Lemma save_config_fails data w :
  (forall schedule,
     Py.or_value (Py.dict_get data "schedule") (Py.VDict ∅) <> Py.VDict schedule) ->
  exists exc, save_config data w = (Py.Raise exc, w).
Proof.
  intros Hs. unfold save_config, normal_schedule.
  destruct (Py.or_value (Py.dict_get data "schedule") (Py.VDict ∅)) as [| | | | | |schedule];
    try (by eexists).
  by destruct (Hs schedule).
Qed.

End PollInterval.

(** A value that is a strictly positive number ([True] is the number 1). *)
Definition positive_value (v : Py.value) : Prop :=
  match v with
  | Py.VInt z => 0 < z
  | Py.VFloat (Py.Finite q) => (0 < q)%Q
  | Py.VFloat (Py.Infinity false) => True
  | Py.VBool true => True
  | _ => False
  end.

(** A value that is missing or a number that is not strictly positive. *)
Definition missing_or_not_positive (v : Py.value) : Prop :=
  match v with
  | Py.VNone => True
  | Py.VInt z => z <= 0
  | Py.VFloat (Py.Finite q) => (q <= 0)%Q
  | Py.VFloat (Py.Infinity true) => True
  | Py.VBool false => True
  | _ => False
  end.

(** C8, as stated: a [pollIntervalSeconds] that is missing or not
    strictly positive is answered with [ERROR] and [restart = false] and
    the persisted configuration stays as it is; a strictly positive one
    is persisted and answered with [restart = true]. *)
Definition set_poll_interval_as_stated
    (e : Agent.env) (command : gmap string Py.value) (w : Agent.world) : Prop :=
  command !! "type" = Some (Py.VStr "SET_POLL_INTERVAL") ->
  forall payload,
    command !! "payload" = Some (Py.VDict payload) ->
    let value := Py.dict_get payload "pollIntervalSeconds" in
    let r := Agent.handle_command e command w in
    (missing_or_not_positive value ->
     exists cr, r.1 = Py.Return cr /\ Agent.cr_status cr = "ERROR" /\
                Agent.cr_restart cr = false /\
                Agent.config_file r.2 = Agent.config_file w) /\
    (positive_value value ->
     exists cr saved n,
       r.1 = Py.Return cr /\ Agent.cr_status cr = "DONE" /\ Agent.cr_restart cr = true /\
       Agent.config_file r.2 = Some saved /\
       saved !! "pollIntervalSeconds" = Some (Py.VInt n)).

(** The command [{"type": "SET_POLL_INTERVAL", "payload":
    {"pollIntervalSeconds": 0.5}}]. *)
Definition half_second_command : gmap string Py.value :=
  {[ "type" := Py.VStr "SET_POLL_INTERVAL";
     "payload" := Py.VDict {[ "pollIntervalSeconds" := Py.VFloat (Py.Finite (1 # 2)) ]} ]}.

(** Half a second is strictly positive, and it is rejected: [int(0.5)] is
    [0]. *)
Lemma set_poll_interval_as_stated_fails_below_one :
  ~ set_poll_interval_as_stated quiet_host half_second_command idle_world.
Proof.
  intros H.
  specialize (H eq_refl _ eq_refl) as [_ H].
  destruct H as (cr & saved & n & Hr & Hstatus & _).
  { vm_compute. reflexivity. }
  vm_compute in Hr. injection Hr as <-. vm_compute in Hstatus. discriminate Hstatus.
Qed.

(** C8, amended. The dispatcher converts the value of
    [pollIntervalSeconds] (0 when it is missing or falsy) with [int]. When
    the conversion raises or gives a number that is not strictly
    positive, the answer is [ERROR] with [restart = false] and [exit_after
    = false], and nothing has changed, neither the configuration in
    memory nor the persisted one. When it gives [n > 0] and the
    configuration can be saved (its [schedule] entry is missing, falsy or
    a dictionary, as in every configuration [load_config] returns), the
    answer is [DONE] with [restart = true], and the persisted
    configuration carries [pollIntervalSeconds = n] and otherwise the
    entries of the configuration. When it gives [n > 0] and the
    configuration cannot be saved, the answer is [ERROR] with [restart =
    false]: the configuration in memory carries the new interval, the
    persisted one is as it was. For an integer value the conversion is
    the value itself; for a missing value it is 0; for a finite float it
    is its integer part, so a positive value below 1 is rejected. *)
Theorem set_poll_interval_dispatch
    (e : Agent.env) (command payload : gmap string Py.value) (w : Agent.world) :
  command !! "type" = Some (Py.VStr "SET_POLL_INTERVAL") ->
  Py.or_value (Py.dict_get command "payload") (Py.VDict ∅) = Py.VDict payload ->
  let value := Py.dict_get payload "pollIntervalSeconds" in
  let converted :=
    Py.int_of_value (Agent.decimal_to_ascii e) (Py.or_value value (Py.VInt 0)) in
  let r := Agent.handle_command e command w in
  ((forall n, converted = Py.Return n -> n <= 0) ->
   exists message,
     r = (Py.Return (Agent.CommandResult "ERROR" (Py.VDict ∅) (Some message) false false), w))
  /\
  (forall n schedule,
     converted = Py.Return n -> 0 < n ->
     Py.or_value (Py.dict_get (Agent.config w) "schedule") (Py.VDict ∅) = Py.VDict schedule ->
     r.1 = Py.Return (Agent.CommandResult "DONE"
                        (Agent.dict_of [("pollIntervalSeconds", Py.VInt n)]) None true false) /\
     Agent.config r.2 = <["pollIntervalSeconds" := Py.VInt n]> (Agent.config w) /\
     exists saved,
       Agent.config_file r.2 = Some saved /\
       saved !! "pollIntervalSeconds" = Some (Py.VInt n) /\
       forall k, k <> "pollIntervalSeconds" -> k <> "schedule" ->
                 saved !! k = Agent.config w !! k)
  /\
  (forall n,
     converted = Py.Return n -> 0 < n ->
     (forall schedule,
        Py.or_value (Py.dict_get (Agent.config w) "schedule") (Py.VDict ∅)
        <> Py.VDict schedule) ->
     exists message,
       r.1 = Py.Return (Agent.CommandResult "ERROR" (Py.VDict ∅) (Some message) false false) /\
       Agent.config r.2 = <["pollIntervalSeconds" := Py.VInt n]> (Agent.config w) /\
       Agent.config_file r.2 = Agent.config_file w)
  /\
  (value = Py.VNone -> converted = Py.Return 0) /\
  (forall z, value = Py.VInt z -> converted = Py.Return z) /\
  (forall q, value = Py.VFloat (Py.Finite q) ->
             converted = Py.Return (Z.quot (Qnum q) (Z.pos (Qden q)))).
Proof.
  intros Htype Hpayload value converted r.
  assert (Hr : r = Agent.handle_command e command w) by done. clearbody r.
  rewrite (handle_set_poll_interval e command w Htype) in Hr.
  rewrite Hpayload in Hr. cbn zeta in Hr.
  unfold Eff.try_except, Eff.bind at 1, Eff.lift at 1, Agent.value_get in Hr.
  fold value in Hr. unfold Eff.bind at 1, Eff.lift at 1 in Hr. fold converted in Hr.
  split; [| split; [| split; [| split; [| split]]]].
  - intros Hbad. destruct converted as [n|exc] eqn:Hconv.
    + specialize (Hbad n eq_refl). apply Z.leb_le in Hbad. rewrite Hbad in Hr.
      subst r. by eexists.
    + subst r. by eexists.
  - intros n schedule Hconv Hpos Hschedule. rewrite Hconv in Hr.
    apply Z.leb_gt in Hpos. rewrite Hpos in Hr.
    unfold Eff.bind at 1, Eff.get at 1 in Hr.
    unfold Eff.bind at 1, Agent.set_config at 1, Eff.modify at 1 in Hr.
    unfold Eff.bind at 1, Eff.get at 1 in Hr. cbn [Agent.config] in Hr.
    set (cfg := <["pollIntervalSeconds" := Py.VInt n]> (Agent.config w)) in *.
    set (w1 := Agent.World cfg _ _ _ _ _ _ _ _ _ _) in Hr.
    assert (Hschedule1 : Py.or_value (Py.dict_get cfg "schedule") (Py.VDict ∅)
                         = Py.VDict schedule).
    { unfold Py.dict_get, cfg. by rewrite lookup_insert_ne. }
    destruct (save_config_ok cfg schedule w1 Hschedule1) as [normal Hsave].
    unfold Eff.bind at 1 in Hr. rewrite Hsave in Hr. unfold Eff.ret in Hr.
    subst r. cbn [fst snd Agent.config Agent.config_file]. repeat split.
    eexists. split; [reflexivity |]. split.
    + rewrite lookup_insert_ne by done. apply lookup_insert_eq.
    + intros k Hk1 Hk2. unfold cfg. by rewrite !lookup_insert_ne by congruence.
  - intros n Hconv Hpos Hschedule. rewrite Hconv in Hr.
    apply Z.leb_gt in Hpos. rewrite Hpos in Hr.
    unfold Eff.bind at 1, Eff.get at 1 in Hr.
    unfold Eff.bind at 1, Agent.set_config at 1, Eff.modify at 1 in Hr.
    unfold Eff.bind at 1, Eff.get at 1 in Hr. cbn [Agent.config] in Hr.
    set (cfg := <["pollIntervalSeconds" := Py.VInt n]> (Agent.config w)) in *.
    set (w1 := Agent.World cfg _ _ _ _ _ _ _ _ _ _) in Hr.
    assert (Hschedule1 : forall schedule,
               Py.or_value (Py.dict_get cfg "schedule") (Py.VDict ∅) <> Py.VDict schedule).
    { intros schedule. unfold Py.dict_get, cfg. rewrite lookup_insert_ne by done.
      apply Hschedule. }
    destruct (save_config_fails cfg w1 Hschedule1) as [exc Hsave].
    unfold Eff.bind at 1 in Hr. rewrite Hsave in Hr.
    subst r. cbn [fst snd Agent.config Agent.config_file]. by eexists.
  - intros Hv. unfold converted. by rewrite Hv.
  - intros z Hv. unfold converted. rewrite Hv. unfold Py.or_value. simpl.
    by destruct (Z.eqb_spec z 0) as [->|].
  - intros q Hv. unfold converted. rewrite Hv. unfold Py.or_value. simpl.
    destruct (Z.eqb_spec (Qnum q) 0) as [Hz|]; [| done].
    simpl. by rewrite Hz.
Qed.

(** The command [{"type": "SET_POLL_INTERVAL", "payload":
    {"pollIntervalSeconds": 120}}]. *)
Definition two_minutes_command : gmap string Py.value :=
  {[ "type" := Py.VStr "SET_POLL_INTERVAL";
     "payload" := Py.VDict {[ "pollIntervalSeconds" := Py.VInt 120 ]} ]}.

Lemma set_poll_interval_dispatch_witness :
  two_minutes_command !! "type" = Some (Py.VStr "SET_POLL_INTERVAL") /\
  (Agent.handle_command quiet_host two_minutes_command idle_world).1
    = Py.Return (Agent.CommandResult "DONE"
                   (Agent.dict_of [("pollIntervalSeconds", Py.VInt 120)]) None true false) /\
  exists saved,
    Agent.config_file (Agent.handle_command quiet_host two_minutes_command idle_world).2
      = Some saved /\
    saved !! "pollIntervalSeconds" = Some (Py.VInt 120).
Proof.
  assert (Htype : two_minutes_command !! "type" = Some (Py.VStr "SET_POLL_INTERVAL"))
    by (vm_compute; reflexivity).
  assert (Hpayload : Py.or_value (Py.dict_get two_minutes_command "payload") (Py.VDict ∅)
                     = Py.VDict {[ "pollIntervalSeconds" := Py.VInt 120 ]})
    by (vm_compute; reflexivity).
  split; [exact Htype |].
  destruct (set_poll_interval_dispatch quiet_host two_minutes_command _ idle_world
              Htype Hpayload) as (_ & Haccept & _).
  destruct (Haccept 120 ∅ ltac:(vm_compute; reflexivity) ltac:(lia)
                    ltac:(vm_compute; reflexivity))
    as (Hresult & _ & saved & Hfile & Hsaved & _).
  split; [exact Hresult |].
  exists saved. split; [exact Hfile | exact Hsaved].
Defined.

(** ** The package-update cycle and its lock *)

Section LockFacts.
Import Eff Agent.
Context (e : env).

(** A call that leaves the lock as it is. *)
Definition keeps_lock {A} (m : M A) : Prop := forall w, lock (m w).2 = lock w.

Lemma keeps_lock_ret {A} (a : A) : keeps_lock (ret a).
Proof. done. Qed.

Lemma keeps_lock_lift {A} (r : Py.result A) : keeps_lock (lift r).
Proof. done. Qed.

Lemma keeps_lock_get {A} (f : world -> A) : keeps_lock (get f).
Proof. done. Qed.

Lemma keeps_lock_bind {A B} (m : M A) (f : A -> M B) :
  keeps_lock m -> (forall a, keeps_lock (f a)) -> keeps_lock (bind m f).
Proof.
  intros Hm Hf w. unfold bind. specialize (Hm w).
  destruct (m w) as [[a|exc] w1]; simpl in *; [| done].
  by rewrite Hf.
Qed.

Lemma keeps_lock_append_to name text : keeps_lock (append_to name text).
Proof. done. Qed.

Lemma keeps_lock_write_stdout text : keeps_lock (write_stdout text).
Proof. done. Qed.

Lemma keeps_lock_record_command argv : keeps_lock (record_command argv).
Proof. done. Qed.

Lemma keeps_lock_if {A} (b : bool) (m1 m2 : M A) :
  keeps_lock m1 -> keeps_lock m2 -> keeps_lock (if b then m1 else m2).
Proof. by destruct b. Qed.

Lemma keeps_lock_run_command command log_name stream_output :
  keeps_lock (run_command e command log_name stream_output).
Proof.
  unfold run_command, mbind, M_bind.
  repeat first
    [ apply keeps_lock_bind; [| intros ?]
    | apply keeps_lock_if
    | apply keeps_lock_append_to | apply keeps_lock_write_stdout
    | apply keeps_lock_record_command | apply keeps_lock_get
    | apply keeps_lock_lift | apply keeps_lock_ret
    | match goal with |- keeps_lock (let (_, _) := ?p in _) => destruct p end ].
Qed.

Lemma keeps_lock_run_commands commands log_name stream_output :
  keeps_lock (run_commands e commands log_name stream_output).
Proof.
  induction commands as [|command rest IH]; simpl; [apply keeps_lock_ret |].
  apply keeps_lock_bind; [apply keeps_lock_run_command |].
  intros code. by apply keeps_lock_if; [apply keeps_lock_ret |].
Qed.

Lemma keeps_lock_run_update_try log_name stream_output :
  keeps_lock (run_update_try e log_name stream_output).
Proof.
  unfold run_update_try. destruct (get_update_commands e); [apply keeps_lock_ret |].
  apply keeps_lock_bind; [apply keeps_lock_run_commands |].
  intros [status exit_code]. apply keeps_lock_ret.
Qed.

(** [run_update] against a held lock, step by step. *)
Lemma run_update_locked_out stream_output w holder :
  lock w = Flock (Some holder) ->
  run_update e stream_output w =
    (Py.Return (RunResult "ERROR" 1 0 None (Some "Update already running")),
     World (config w) (config_file w) (state_file w) (lock w) (S (next_fd w)) (ticks w)
           (log_files w) (commands w) (calls w) (printed w) (host w)).
Proof.
  intros Hlock. unfold run_update, acquire_lock, os_open, bind, get, ret. simpl.
  by rewrite Hlock.
Qed.

(** The dispatcher on a [RUN_NOW] command, step by step. *)
Lemma handle_run_now command w :
  command !! "type" = Some (Py.VStr "RUN_NOW") ->
  handle_command e command w =
    try_except
      (let* result := run_update e false in
       let result_payload :=
         dict_of [("lastStatus", Py.VStr (status result));
                  ("lastExitCode", Py.VInt (exit_code result));
                  ("lastDurationSeconds", Py.VInt (duration result))] in
       if negb (String.eqb (status result) "OK")
       then ret (CommandResult "ERROR" result_payload (message result) false false)
       else ret (CommandResult "DONE" result_payload None false false))
      (fun exc =>
         ret (CommandResult "ERROR" (Py.VDict ∅) (Some (Py.exn_text exc)) false false))
      w.
Proof.
  intros Htype. unfold handle_command, handle_command_body, Py.dict_get.
  rewrite Htype. reflexivity.
Qed.

End LockFacts.

(** C2. When the lock is held, [run_update] returns at once with status
    [ERROR], exit code 1, duration 0 and the message "Update already
    running": it has opened and closed one file descriptor and nothing
    else, so no command was run, no log was written and the persisted
    state is as before; dispatched as [RUN_NOW] this gives an [ERROR]
    result with that message. A cycle that finds the lock free takes it,
    and the lock stays held while the cycle runs its commands, so a
    second cycle started meanwhile is refused. *)
Theorem run_update_refuses_when_locked
    (e : Agent.env) (stream_output : bool) (w : Agent.world) (holder : nat) :
  Agent.lock w = Agent.Flock (Some holder) ->
  let w' := Agent.World (Agent.config w) (Agent.config_file w) (Agent.state_file w)
                        (Agent.lock w) (S (Agent.next_fd w)) (Agent.ticks w)
                        (Agent.log_files w) (Agent.commands w) (Agent.calls w)
                        (Agent.printed w) (Agent.host w) in
  Agent.run_update e stream_output w
    = (Py.Return (Agent.RunResult "ERROR" 1 0 None (Some "Update already running")), w') /\
  (forall command,
     command !! "type" = Some (Py.VStr "RUN_NOW") ->
     Agent.handle_command e command w
     = (Py.Return (Agent.CommandResult "ERROR"
                     (Agent.dict_of [("lastStatus", Py.VStr "ERROR");
                                     ("lastExitCode", Py.VInt 1);
                                     ("lastDurationSeconds", Py.VInt 0)])
                     (Some "Update already running") false false), w')) /\
  (forall w0,
     Agent.lock w0 = Agent.Flock None ->
     exists fd w1,
       Agent.acquire_lock w0 = (Py.Return (Some fd), w1) /\
       Agent.lock w1 = Agent.Flock (Some fd) /\
       forall log_name w2,
         Agent.lock w2 = Agent.Flock (Some fd) ->
         Agent.lock (Agent.run_update_try e log_name stream_output w2).2
         = Agent.Flock (Some fd)).
Proof.
  intros Hlock w'. split; [| split].
  - by apply run_update_locked_out with holder.
  - intros command Htype.
    rewrite (handle_run_now e command w Htype).
    unfold Eff.try_except, Eff.bind.
    rewrite (run_update_locked_out e false w holder Hlock).
    reflexivity.
  - intros w0 Hfree.
    exists (Agent.next_fd w0). eexists. split; [| split].
    + unfold Agent.acquire_lock, Agent.os_open, Eff.bind, Eff.get. simpl.
      rewrite Hfree. reflexivity.
    + reflexivity.
    + intros log_name w2 Hheld. by rewrite keeps_lock_run_update_try.
Qed.

(** The agent while another cycle holds the lock through descriptor 5. *)
Definition busy_world : Agent.world :=
  Agent.World {[ "pollIntervalSeconds" := Py.VInt 60 ]}
              (Some {[ "pollIntervalSeconds" := Py.VInt 60 ]})
              None (Agent.Flock (Some 5%nat)) 6 0 ∅ [] [] [] installed.

Lemma run_update_refuses_when_locked_witness :
  Agent.lock busy_world = Agent.Flock (Some 5%nat) /\
  (Agent.run_update quiet_host false busy_world).1
    = Py.Return (Agent.RunResult "ERROR" 1 0 None (Some "Update already running")) /\
  Agent.commands (Agent.run_update quiet_host false busy_world).2 = [] /\
  Agent.state_file (Agent.run_update quiet_host false busy_world).2 = None.
Proof.
  assert (Hlock : Agent.lock busy_world = Agent.Flock (Some 5%nat)) by reflexivity.
  split; [exact Hlock |].
  destruct (run_update_refuses_when_locked quiet_host false busy_world 5 Hlock) as [Hrun _].
  rewrite Hrun. repeat split.
Defined.

(** With the lock free the cycle runs the four apt commands in order,
    records the outcome and gives the lock back. *)
Example run_update_runs_the_cycle :
  let r := Agent.run_update quiet_host false idle_world in
  Agent.status <$> (match r.1 with Py.Return x => Some x | Py.Raise _ => None end) = Some "OK" /\
  Agent.commands r.2 = [ ["apt-get"; "update"]; ["apt-get"; "full-upgrade"; "-y"];
                         ["apt-get"; "autoremove"; "-y"]; ["apt-get"; "autoclean"; "-y"] ] /\
  Agent.lock r.2 = Agent.Flock None /\
  (Agent.state_file r.2 ≫= (.!! "lastStatus")) = Some (Py.VStr "OK").
Proof. vm_compute. repeat split. Qed.

(** A dashboard that serves a bundle with [VERSION] 2.0.0. *)
Definition good_bundle_host : Updater.env :=
  Updater.Env ["opt"; "agentautoupdate"; "app"]
    (fun _ => Py.Return ["BUNDLE"])
    "x1y2z3"
    (fun _ => Py.Return {[ "VERSION" := Updater.File ("2.0.0" +:+ Agent.newline) ]})
    None.

(** With a complete bundle the install directory is swapped and the
    backup and the temporary directory are gone. *)
Example update_agent_swaps_install :
  let r := Updater.update_agent good_bundle_host ∅ false installed in
  r.1 = Py.Return "2.0.0" /\
  Updater.lookup ["opt"; "agentautoupdate"] r.2
    = Some (Updater.Dir
              {[ "app" := Updater.Dir
                            {[ "VERSION" := Updater.File ("2.0.0" +:+ Agent.newline) ]} ]}) /\
  Updater.ops r.2
    = [ Updater.Mkdtemp ["opt"; "agentautoupdate"; "agentautoupdate-x1y2z3"];
        Updater.WriteFile ["opt"; "agentautoupdate"; "agentautoupdate-x1y2z3"; "latest.tar.gz"];
        Updater.Mkdir ["opt"; "agentautoupdate"; "agentautoupdate-x1y2z3"; "app"];
        Updater.ExtractAll ["opt"; "agentautoupdate"; "agentautoupdate-x1y2z3"; "app"];
        Updater.Rename ["opt"; "agentautoupdate"; "app"] ["opt"; "agentautoupdate"; "app.bak"];
        Updater.Rename ["opt"; "agentautoupdate"; "agentautoupdate-x1y2z3"; "app"]
                       ["opt"; "agentautoupdate"; "app"];
        Updater.Rmtree ["opt"; "agentautoupdate"; "app.bak"];
        Updater.Rmtree ["opt"; "agentautoupdate"; "agentautoupdate-x1y2z3"] ].
Proof. vm_compute. repeat split. Qed.

(** ** Firewall: the tracked list follows the answers of the back end *)

Section FirewallTracking.
Import Firewall.
Context (e : env).

Ltac fw_run := unfold mbind, M_bind, bind, ret, get, log, set_opened_ports in *; simpl in *.

Lemma list_remove_not_in (x : port_entry) (l : list port_entry) :
  x ∉ l -> list_remove x l = l.
Proof.
  induction l as [|y l IH]; simpl; [done |].
  intros Hx. apply not_elem_of_cons in Hx as [Hxy Hx].
  destruct (decide (x = y)); [done | by rewrite IH].
Qed.

Lemma list_remove_snoc (x : port_entry) (l : list port_entry) :
  x ∉ l -> list_remove x (l ++ [x]) = l.
Proof.
  induction l as [|y l IH]; simpl.
  - intros _. by destruct (decide (x = x)).
  - intros Hx. apply not_elem_of_cons in Hx as [Hxy Hx].
    destruct (decide (x = y)); [done | by rewrite IH].
Qed.

(** What is on disk after [_save_state]. *)
Definition saved (s : state) : option (list port_entry) :=
  match write_state e (opened_ports s) with
  | None => Some (opened_ports s)
  | Some _ => state_file s
  end.

Lemma save_state_file s : state_file (_save_state e s).2 = saved s.
Proof. unfold _save_state, saved. by destruct (write_state e (opened_ports s)). Qed.

(** [open_port] under an active firewall: what is tracked and what is on
    disk afterwards, by the answer. *)
Lemma open_port_tracks port protocol s ok message s' :
  open_port e port protocol s = ((ok, message), s') ->
  is_Some (firewall_type s) ->
  let entry := PortEntry port protocol in
  if ok && negb (bool_decide (entry ∈ opened_ports s))
  then opened_ports s' = opened_ports s ++ [entry] /\
       state_file s' = match write_state e (opened_ports s ++ [entry]) with
                       | None => Some (opened_ports s ++ [entry])
                       | Some _ => state_file s
                       end
  else opened_ports s' = opened_ports s /\ state_file s' = state_file s.
Proof.
  intros Hrun [k Hft]. unfold open_port in Hrun. fw_run. rewrite Hft in Hrun. simpl in Hrun.
  change (match k with
          | ufw => _ufw_open_port e port protocol
          | firewalld => _firewalld_open_port e port protocol
          | iptables => _iptables_open_port e port protocol
          end) with (open_backend e k port protocol) in Hrun.
  match type of Hrun with context [open_backend e k port protocol ?s0] =>
    pose proof (open_backend_step e k port protocol s0) as [T O F (l & C & P)];
    destruct (open_backend e k port protocol s0) as [[success msg] s1] end.
  simpl in *. destruct success; simpl in Hrun.
  - destruct (bool_decide (PortEntry port protocol ∈ opened_ports s1)) eqn:Hin; simpl in Hrun.
    + injection Hrun as <- <- <-. simpl. rewrite O in Hin. rewrite Hin. simpl. by split.
    + match type of Hrun with context [_save_state e ?s2] =>
        pose proof (save_state_fields e s2) as (T2 & O2 & C2);
        pose proof (save_state_file s2) as F2;
        destruct (_save_state e s2) as [[] s3] end.
      simpl in *. injection Hrun as <- <- <-. simpl.
      rewrite O in Hin. rewrite Hin. simpl. split; [congruence |].
      rewrite F2. unfold saved. simpl. by rewrite O, F.
  - injection Hrun as <- <- <-. simpl. by split.
Qed.

(** [close_port] under an active firewall, likewise. *)
Lemma close_port_tracks port protocol s ok message s' :
  close_port e port protocol s = ((ok, message), s') ->
  is_Some (firewall_type s) ->
  let entry := PortEntry port protocol in
  if ok && bool_decide (entry ∈ opened_ports s)
  then opened_ports s' = list_remove entry (opened_ports s) /\
       state_file s' = match write_state e (list_remove entry (opened_ports s)) with
                       | None => Some (list_remove entry (opened_ports s))
                       | Some _ => state_file s
                       end
  else opened_ports s' = opened_ports s /\ state_file s' = state_file s.
Proof.
  intros Hrun [k Hft]. unfold close_port in Hrun. fw_run. rewrite Hft in Hrun. simpl in Hrun.
  change (match k with
          | ufw => _ufw_close_port e port protocol
          | firewalld => _firewalld_close_port e port protocol
          | iptables => _iptables_close_port e port protocol
          end) with (close_backend e k port protocol) in Hrun.
  match type of Hrun with context [close_backend e k port protocol ?s0] =>
    pose proof (close_backend_step e k port protocol s0) as [T O F (l & C & P)];
    destruct (close_backend e k port protocol s0) as [[success msg] s1] end.
  simpl in *. destruct success; simpl in Hrun.
  - destruct (bool_decide (PortEntry port protocol ∈ opened_ports s1)) eqn:Hin; simpl in Hrun.
    + match type of Hrun with context [_save_state e ?s2] =>
        pose proof (save_state_fields e s2) as (T2 & O2 & C2);
        pose proof (save_state_file s2) as F2;
        destruct (_save_state e s2) as [[] s3] end.
      simpl in *. injection Hrun as <- <- <-. simpl.
      rewrite O in Hin. rewrite Hin. simpl. split; [congruence |].
      rewrite F2. unfold saved. simpl. by rewrite O, F.
    + injection Hrun as <- <- <-. simpl. rewrite O in Hin. rewrite Hin. simpl. by split.
  - injection Hrun as <- <- <-. simpl. by split.
Qed.

End FirewallTracking.

(** X1. Under an active firewall, a port that was not tracked, opened
    with success and then closed with success, leaves the tracked list as
    it was before the two calls; and when the state file can be written,
    the file holds that list. *)
Theorem open_then_close_restores_tracked_ports
    (e : Firewall.env) (port : Z) (protocol : string)
    (s s1 s2 : Firewall.state) (m1 m2 : string) :
  is_Some (Firewall.firewall_type s) ->
  Firewall.PortEntry port protocol ∉ Firewall.opened_ports s ->
  Firewall.open_port e port protocol s = ((true, m1), s1) ->
  Firewall.close_port e port protocol s1 = ((true, m2), s2) ->
  Firewall.opened_ports s1 = Firewall.opened_ports s ++ [Firewall.PortEntry port protocol] /\
  Firewall.opened_ports s2 = Firewall.opened_ports s /\
  (Firewall.write_state e (Firewall.opened_ports s) = None ->
   Firewall.state_file s2 = Some (Firewall.opened_ports s)).
Proof.
  intros Hfw Hnew Hopen Hclose.
  pose proof (open_port_spec e _ _ _ _ _ _ Hopen) as (T1 & _ & _).
  apply open_port_tracks in Hopen; [| done].
  apply close_port_tracks in Hclose; [| by rewrite T1].
  rewrite bool_decide_eq_false_2 in Hopen by done. simpl in Hopen.
  destruct Hopen as [O1 F1]. rewrite O1 in Hclose.
  rewrite bool_decide_eq_true_2 in Hclose by (apply elem_of_app; right; by left).
  simpl in Hclose. rewrite list_remove_snoc in Hclose by done.
  destruct Hclose as [O2 F2]. repeat split; try done.
  intros Hw. by rewrite F2, Hw.
Qed.

(** A host where every command succeeds and the state file can be
    written, run as root. *)
Definition willing_host : Firewall.env :=
  Firewall.Env 0 (fun _ _ => Firewall.Completed 0 "" "") (fun _ => None).

Lemma open_then_close_restores_tracked_ports_witness :
  Firewall.opened_ports
    (Firewall.close_port willing_host 8080 "tcp"
       (Firewall.open_port willing_host 8080 "tcp" ufw_manager).2).2 = [].
Proof.
  destruct (Firewall.open_port willing_host 8080 "tcp" ufw_manager) as [[ok1 m1] s1] eqn:H1.
  destruct (Firewall.close_port willing_host 8080 "tcp" s1) as [[ok2 m2] s2] eqn:H2.
  assert (Hok1 : ok1 = true) by (vm_compute in H1; congruence). subst ok1.
  assert (Hok2 : ok2 = true).
  { vm_compute in H1. injection H1 as <- <-. vm_compute in H2. congruence. }
  subst ok2. cbn [snd].
  assert (Hfw : is_Some (Firewall.firewall_type ufw_manager)) by (by eexists).
  assert (Hnew : Firewall.PortEntry 8080 "tcp" ∉ Firewall.opened_ports ufw_manager)
    by apply not_elem_of_nil.
  rewrite H2. cbn [snd].
  exact (proj1 (proj2 (open_then_close_restores_tracked_ports
                         willing_host 8080 "tcp" ufw_manager s1 s2 m1 m2 Hfw Hnew H1 H2))).
Defined.

(** X2. A port change that the back end refuses leaves the tracking as
    it is: after a failed [open_port] or a failed [close_port] the
    tracked list and the state file are what they were. *)
Theorem refused_port_change_keeps_tracking
    (e : Firewall.env) (port : Z) (protocol : string)
    (s s' : Firewall.state) (message : string) :
  Firewall.open_port e port protocol s = ((false, message), s') \/
  Firewall.close_port e port protocol s = ((false, message), s') ->
  Firewall.opened_ports s' = Firewall.opened_ports s /\
  Firewall.state_file s' = Firewall.state_file s.
Proof.
  intros [Hrun | Hrun].
  - apply open_port_spec in Hrun as (_ & _ & H).
    destruct (Firewall.firewall_type s); [done |]. by destruct H.
  - pose proof (close_port_spec e _ _ _ _ _ _ Hrun) as (_ & _ & _ & Hnone).
    destruct (Firewall.firewall_type s) as [k|] eqn:Hft.
    + by apply close_port_tracks in Hrun; [| rewrite Hft; by eexists].
    + by destruct (Hnone eq_refl).
Qed.

(** On [ufw_host], where deleting a rule fails, closing the tracked port
    8080 keeps it tracked. *)
Lemma refused_port_change_keeps_tracking_witness :
  let s := Firewall.State (Some Firewall.ufw) [Firewall.PortEntry 8080 "tcp"]
                          (Some [Firewall.PortEntry 8080 "tcp"]) [] [] in
  (Firewall.close_port ufw_host 8080 "tcp" s).1.1 = false /\
  Firewall.opened_ports (Firewall.close_port ufw_host 8080 "tcp" s).2
    = [Firewall.PortEntry 8080 "tcp"].
Proof.
  intros s.
  destruct (Firewall.close_port ufw_host 8080 "tcp" s) as [[ok message] s'] eqn:H.
  assert (Hok : ok = false) by (vm_compute in H; congruence). subst ok.
  split; [reflexivity |].
  exact (proj1 (refused_port_change_keeps_tracking ufw_host 8080 "tcp" s s' message
                  (or_intror H))).
Defined.

Section FirewallCloseAll.
Import Firewall.
Context (e : env).

Ltac fw_run := unfold mbind, M_bind, bind, ret, get, log, set_opened_ports in *; simpl in *.

Lemma close_each_without_firewall entries s :
  firewall_type s = None ->
  close_each e entries s
  = (map (fun entry => (pe_port entry, true, "Aucun firewall actif")) entries, s).
Proof.
  intros Hft. induction entries as [|entry rest IH]; [done |].
  simpl. unfold bind at 1. unfold close_port at 1. fw_run. rewrite Hft. simpl.
  by rewrite IH.
Qed.

(** Every command the host is asked to run succeeds. *)
Definition every_command_succeeds : Prop :=
  forall history argv, exists out err, exec e history argv = Completed 0 out err.

Lemma run_command_succeeds cmd s :
  every_command_succeeds -> (_run_command e cmd s).1.1 = true.
Proof.
  intros Hall. unfold _run_command.
  destruct (Hall (commands s) (if negb (euid e =? 0) then "sudo" :: cmd else cmd))
    as (out & err & ->).
  done.
Qed.

Lemma close_backend_succeeds k port protocol s :
  every_command_succeeds -> (close_backend e k port protocol s).1.1 = true.
Proof.
  intros Hall. destruct k; simpl.
  - by apply run_command_succeeds.
  - unfold _firewalld_close_port, bind.
    pose proof (run_command_succeeds
                  ["firewall-cmd"; "--permanent"; "--remove-port"; port_spec port protocol]
                  s Hall) as H1.
    destruct (_run_command e _ s) as [[success message] s1]. simpl in H1. subst success.
    simpl. by apply run_command_succeeds.
  - unfold _iptables_close_port, bind.
    pose proof (run_command_succeeds
                  ["iptables"; "-D"; "INPUT"; "-p"; protocol;
                   "--dport"; Py.str port; "-j"; "ACCEPT"] s Hall) as H1.
    destruct (_run_command e _ s) as [[success message] s1]. simpl in H1. subst success.
    unfold mbind, M_bind, bind. by destruct (_save_iptables e s1).
Qed.

Lemma close_port_succeeds port protocol s :
  every_command_succeeds -> (close_port e port protocol s).1.1 = true.
Proof.
  intros Hall. unfold close_port. fw_run.
  destruct (firewall_type s) as [k|]; [| done]. simpl.
  change (match k with
          | ufw => _ufw_close_port e port protocol
          | firewalld => _firewalld_close_port e port protocol
          | iptables => _iptables_close_port e port protocol
          end) with (close_backend e k port protocol).
  match goal with |- context [close_backend e k port protocol ?s0] =>
    pose proof (close_backend_succeeds k port protocol s0 Hall) as H1;
    destruct (close_backend e k port protocol s0) as [[success msg] s1] end.
  simpl in H1. subst success. simpl.
  destruct (bool_decide _); simpl; [| done].
  by destruct (_save_state e _).
Qed.

Lemma list_remove_submseteq (x : port_entry) (l k : list port_entry) :
  l ⊆+ x :: k -> list_remove x l ⊆+ k.
Proof.
  intros Hsub. destruct (decide (x ∈ l)) as [Hin|Hin].
  - assert (Hperm : l ≡ₚ x :: list_remove x l).
    { clear Hsub. induction l as [|y l IH]; [by apply elem_of_nil in Hin |].
      simpl. destruct (decide (x = y)) as [->|Hne]; [done |].
      apply elem_of_cons in Hin as [?|Hin]; [done |].
      rewrite (IH Hin) at 1. apply Permutation_swap. }
    rewrite Hperm in Hsub. by apply (submseteq_app_inv_l _ _ [x]).
  - rewrite list_remove_not_in by done.
    apply submseteq_cons_r in Hsub as [Hsub | (l' & Hperm & _)]; [done |].
    exfalso. apply Hin. rewrite Hperm. by left.
Qed.

Lemma close_each_cons entry rest s :
  close_each e (entry :: rest) s
  = (let '((success, message), s1) := close_port e (pe_port entry) (pe_protocol entry) s in
     let '(results, s2) := close_each e rest s1 in
     ((pe_port entry, success, message) :: results, s2)).
Proof.
  cbn [close_each]. unfold bind.
  destruct (close_port e (pe_port entry) (pe_protocol entry) s) as [[success message] s1].
  by destruct (close_each e rest s1).
Qed.

Lemma close_each_empties entries s :
  is_Some (firewall_type s) -> every_command_succeeds ->
  opened_ports s ⊆+ entries ->
  let r := close_each e entries s in
  opened_ports r.2 = [] /\
  map (fun x => x.1) r.1 = map (fun entry => (pe_port entry, true)) entries.
Proof.
  intros Hfw Hall. revert s Hfw.
  induction entries as [|entry rest IH]; intros s Hfw Hsub.
  - split; [| done]. by apply submseteq_nil_r.
  - cbn zeta. rewrite close_each_cons.
    pose proof (close_port_succeeds (pe_port entry) (pe_protocol entry) s Hall) as Hok.
    destruct (close_port e (pe_port entry) (pe_protocol entry) s) as [[ok message] s1] eqn:Hrun.
    simpl in Hok. subst ok.
    pose proof (close_port_spec e _ _ _ _ _ _ Hrun) as (T1 & _).
    pose proof (close_port_tracks e _ _ _ _ _ _ Hrun Hfw) as Htr.
    assert (Hports : opened_ports s1 = list_remove entry (opened_ports s)).
    { destruct entry as [p pr]. simpl in *.
      case_bool_decide as Hin; simpl in Htr; destruct Htr as [-> _]; [done |].
      by rewrite list_remove_not_in. }
    assert (Hsub1 : opened_ports s1 ⊆+ rest).
    { rewrite Hports. by apply list_remove_submseteq. }
    assert (Hfw1 : is_Some (firewall_type s1)) by (by rewrite T1).
    specialize (IH s1 Hfw1 Hsub1). cbn zeta in IH.
    destruct (close_each e rest s1) as [results s2]. cbn [fst snd] in *.
    destruct IH as [IH1 IH2]. split; [done |]. cbn [map fst]. by f_equal.
Qed.

End FirewallCloseAll.

(** X3. Without a firewall, [close_all_tracked_ports] reports every
    tracked port as closed ("Aucun firewall actif") although it runs
    nothing; the manager is left as it was, the tracked list
    included. *)
Theorem close_all_tracked_ports_without_firewall
    (e : Firewall.env) (s : Firewall.state) :
  Firewall.firewall_type s = None ->
  Firewall.close_all_tracked_ports e s
  = (map (fun entry => (Firewall.pe_port entry, true, "Aucun firewall actif"))
         (Firewall.opened_ports s), s).
Proof.
  intros Hft. unfold Firewall.close_all_tracked_ports, Firewall.bind, Firewall.get.
  by apply close_each_without_firewall.
Qed.

Lemma close_all_tracked_ports_without_firewall_witness :
  let s := Firewall.State None [Firewall.PortEntry 8080 "tcp"] None [] [] in
  Firewall.close_all_tracked_ports ufw_host s = ([(8080, true, "Aucun firewall actif")], s).
Proof.
  intros s. exact (close_all_tracked_ports_without_firewall ufw_host s eq_refl).
Defined.

(** X4. Under an active firewall on a host where every command succeeds,
    [close_all_tracked_ports] reports one success per tracked entry, in
    the order of the list, and leaves the tracked list empty. *)
Theorem close_all_tracked_ports_empties_list
    (e : Firewall.env) (s : Firewall.state) :
  is_Some (Firewall.firewall_type s) ->
  (forall history argv,
     exists out err, Firewall.exec e history argv = Firewall.Completed 0 out err) ->
  let r := Firewall.close_all_tracked_ports e s in
  Firewall.opened_ports r.2 = [] /\
  map (fun x => x.1) r.1
  = map (fun entry => (Firewall.pe_port entry, true)) (Firewall.opened_ports s).
Proof.
  intros Hfw Hall. unfold Firewall.close_all_tracked_ports, Firewall.bind, Firewall.get.
  by apply close_each_empties.
Qed.

Lemma close_all_tracked_ports_empties_list_witness :
  let s := Firewall.State (Some Firewall.firewalld)
                          [Firewall.PortEntry 8080 "tcp"; Firewall.PortEntry 8090 "tcp"]
                          None [] [] in
  Firewall.opened_ports (Firewall.close_all_tracked_ports willing_host s).2 = [].
Proof.
  intros s.
  refine (proj1 (close_all_tracked_ports_empties_list willing_host s _ _)).
  - by eexists.
  - intros history argv. by exists "", "".
Defined.

Section FirewallInvariants.
Import Firewall.
Context (e : env).

Lemma update_port_steps old_port new_port protocol s :
  old_port <> new_port ->
  (update_port e old_port new_port protocol s).2
  = (let '((success, message), s1) :=
       open_port e new_port protocol (update_port_announce old_port new_port s) in
     if success then
       let '((close_success, close_message), s2) := close_port e old_port protocol s1 in
       if close_success then s2
       else (log ("Avertissement: ancien port " +:+ Py.str old_port +:+
                  " non fermé: " +:+ close_message) s2).2
     else s1).
Proof.
  intros Hne. unfold update_port, update_port_announce.
  apply Z.eqb_neq in Hne. rewrite Hne.
  unfold mbind, M_bind, bind, ret. simpl.
  destruct (open_port e new_port protocol _) as [[success msg] s1].
  destruct success; simpl; [| done].
  destruct (close_port e old_port protocol s1) as [[cs cm] s2].
  by destruct cs.
Qed.

(** A property of the tracked list and the state file that [open_port]
    and [close_port] keep is kept by [update_port] and by
    [close_all_tracked_ports]. *)
Lemma kept_by_all (I : state -> Prop) :
  (forall s message, I s -> I (log message s).2) ->
  (forall port protocol s, I s -> I (open_port e port protocol s).2) ->
  (forall port protocol s, I s -> I (close_port e port protocol s).2) ->
  (forall old_port new_port protocol s,
     I s -> I (update_port e old_port new_port protocol s).2) /\
  (forall s, I s -> I (close_all_tracked_ports e s).2).
Proof.
  intros Hlog Hopen Hclose. split.
  - intros old_port new_port protocol s HI.
    destruct (decide (old_port = new_port)) as [->|Hne].
    { unfold update_port. by rewrite Z.eqb_refl. }
    rewrite update_port_steps by done.
    pose proof (Hopen new_port protocol (update_port_announce old_port new_port s)
                  (Hlog _ _ HI)) as H1.
    destruct (open_port e new_port protocol _) as [[success msg] s1]. simpl in H1.
    destruct success; [| done].
    pose proof (Hclose old_port protocol s1 H1) as H2.
    destruct (close_port e old_port protocol s1) as [[cs cm] s2]. simpl in H2.
    destruct cs; [done | by apply Hlog].
  - intros s HI. unfold close_all_tracked_ports, bind, get.
    generalize (opened_ports s) at 1. intros entries. revert s HI.
    induction entries as [|entry rest IH]; intros s HI; [done |].
    rewrite close_each_cons.
    pose proof (Hclose (pe_port entry) (pe_protocol entry) s HI) as H1.
    destruct (close_port e (pe_port entry) (pe_protocol entry) s) as [[ok message] s1].
    simpl in H1. specialize (IH s1 H1).
    by destruct (close_each e rest s1).
Qed.

End FirewallInvariants.

(** X5. The tracked list never gains a duplicate: [open_port],
    [close_port], [update_port] and [close_all_tracked_ports] each take
    a list without duplicates to a list without duplicates. *)
Theorem tracked_ports_stay_without_duplicates
    (e : Firewall.env) (s : Firewall.state) :
  NoDup (Firewall.opened_ports s) ->
  (forall port protocol,
     NoDup (Firewall.opened_ports (Firewall.open_port e port protocol s).2)) /\
  (forall port protocol,
     NoDup (Firewall.opened_ports (Firewall.close_port e port protocol s).2)) /\
  (forall old_port new_port protocol,
     NoDup (Firewall.opened_ports (Firewall.update_port e old_port new_port protocol s).2)) /\
  NoDup (Firewall.opened_ports (Firewall.close_all_tracked_ports e s).2).
Proof.
  intros Hnd.
  destruct (kept_by_all e (fun s => NoDup (Firewall.opened_ports s))) as [Hupdate Hall].
  - done.
  - intros. by apply open_port_keeps_nodup.
  - intros. by apply close_port_keeps_nodup.
  - repeat split.
    + intros. by apply open_port_keeps_nodup.
    + intros. by apply close_port_keeps_nodup.
    + intros. by apply Hupdate.
    + by apply Hall.
Qed.

Lemma tracked_ports_stay_without_duplicates_witness :
  NoDup (Firewall.opened_ports (Firewall.update_port ufw_host 8080 8090 "tcp" ufw_manager).2).
Proof.
  exact (proj1 (proj2 (proj2 (tracked_ports_stay_without_duplicates
                                ufw_host ufw_manager (NoDup_nil_2 (A:=Firewall.port_entry)))))
               8080 8090 "tcp").
Defined.

(** X6. On a host where the state file can always be written, a state
    file that holds the tracked list still holds it after [open_port],
    [close_port], [update_port] and [close_all_tracked_ports]. *)
Theorem state_file_mirrors_tracked_ports
    (e : Firewall.env) (s : Firewall.state) :
  (forall ports, Firewall.write_state e ports = None) ->
  Firewall.state_file s = Some (Firewall.opened_ports s) ->
  let mirrored s' := Firewall.state_file s' = Some (Firewall.opened_ports s') in
  (forall port protocol, mirrored (Firewall.open_port e port protocol s).2) /\
  (forall port protocol, mirrored (Firewall.close_port e port protocol s).2) /\
  (forall old_port new_port protocol,
     mirrored (Firewall.update_port e old_port new_port protocol s).2) /\
  mirrored (Firewall.close_all_tracked_ports e s).2.
Proof.
  intros Hwrite Hsync mirrored.
  assert (Hopen : forall port protocol s0,
             mirrored s0 -> mirrored (Firewall.open_port e port protocol s0).2).
  { intros port protocol s0 H0. unfold mirrored in *.
    destruct (Firewall.open_port e port protocol s0) as [[ok message] s1] eqn:Hrun.
    destruct (Firewall.firewall_type s0) as [k|] eqn:Hft.
    - apply open_port_tracks in Hrun; [| rewrite Hft; by eexists]. simpl in *.
      destruct (ok && negb _); destruct Hrun as [-> ->]; [by rewrite Hwrite | done].
    - apply open_port_spec in Hrun as (_ & _ & H). rewrite Hft in H.
      destruct H as (_ & H1 & H2 & _). simpl. by rewrite H1, H2. }
  assert (Hclose : forall port protocol s0,
             mirrored s0 -> mirrored (Firewall.close_port e port protocol s0).2).
  { intros port protocol s0 H0. unfold mirrored in *.
    destruct (Firewall.close_port e port protocol s0) as [[ok message] s1] eqn:Hrun.
    destruct (Firewall.firewall_type s0) as [k|] eqn:Hft.
    - apply close_port_tracks in Hrun; [| rewrite Hft; by eexists]. simpl in *.
      destruct (ok && _); destruct Hrun as [-> ->]; [by rewrite Hwrite | done].
    - apply close_port_spec in Hrun as (_ & _ & _ & H).
      destruct (H Hft) as [_ H1]. simpl. by rewrite H1. }
  destruct (kept_by_all e mirrored) as [Hupdate Hall]; [done | done | done |].
  repeat split; intros; auto.
Qed.

Lemma state_file_mirrors_tracked_ports_witness :
  let s := Firewall.State (Some Firewall.ufw) [] (Some []) [] [] in
  let s' := (Firewall.update_port willing_host 8080 8090 "tcp" s).2 in
  Firewall.state_file s' = Some (Firewall.opened_ports s').
Proof.
  intros s s'.
  exact (proj1 (proj2 (proj2 (state_file_mirrors_tracked_ports
                                willing_host s (fun _ => eq_refl) eq_refl)))
               8080 8090 "tcp").
Defined.

Section FirewallSudo.
Import Firewall.
Context (e : env).

(** Run by root, a command is run as it is; run by anybody else, it is
    run through [sudo]. *)
Definition as_privileged (argv : list string) : Prop :=
  if decide (euid e = 0) then hd "" argv <> "sudo" else hd "" argv = "sudo".

Lemma housekeeping_not_sudo c : housekeeping c -> hd "" c <> "sudo".
Proof.
  intros [-> | [H | (port & protocol & ->)]]; [done | | done].
  unfold save_commands in H.
  repeat (apply elem_of_cons in H as [->|H]; [done |]).
  by apply elem_of_nil in H.
Qed.

Lemma argv_of_privileged c : hd "" c <> "sudo" -> as_privileged (argv_of e c).
Proof.
  intros Hc. unfold as_privileged, argv_of.
  destruct (decide (euid e = 0)) as [Hroot|Huser].
  - by rewrite Hroot.
  - apply Z.eqb_neq in Huser. by rewrite Huser.
Qed.

Lemma open_runs_privileged port protocol argv :
  open_runs e port protocol argv -> as_privileged argv.
Proof.
  intros (c & -> & [Hc | [k ->]]); apply argv_of_privileged.
  - by apply housekeeping_not_sudo.
  - by destruct k.
Qed.

Lemma close_runs_privileged port protocol argv :
  close_runs e port protocol argv -> as_privileged argv.
Proof.
  intros (c & -> & [Hc | [k ->]]); apply argv_of_privileged.
  - by apply housekeeping_not_sudo.
  - by destruct k.
Qed.

End FirewallSudo.

(** X7. Every command the manager runs to open, close or move a port
    goes through [sudo] when the process is not root, and is run as it is
    when the process is root. *)
Theorem commands_go_through_sudo_unless_root
    (e : Firewall.env) (s : Firewall.state) :
  Forall (as_privileged e) (Firewall.commands s) ->
  (forall port protocol,
     Forall (as_privileged e) (Firewall.commands (Firewall.open_port e port protocol s).2)) /\
  (forall port protocol,
     Forall (as_privileged e) (Firewall.commands (Firewall.close_port e port protocol s).2)) /\
  (forall old_port new_port protocol,
     Forall (as_privileged e)
            (Firewall.commands (Firewall.update_port e old_port new_port protocol s).2)) /\
  Forall (as_privileged e) (Firewall.commands (Firewall.close_all_tracked_ports e s).2).
Proof.
  intros Hs.
  assert (Hopen : forall port protocol s0,
             Forall (as_privileged e) (Firewall.commands s0) ->
             Forall (as_privileged e)
                    (Firewall.commands (Firewall.open_port e port protocol s0).2)).
  { intros port protocol s0 H0.
    destruct (Firewall.open_port e port protocol s0) as [[ok message] s1] eqn:Hrun.
    apply open_port_spec in Hrun as (_ & (l & Hc & Hl) & _). simpl. rewrite Hc.
    apply Forall_app. split; [done |].
    eapply Forall_impl; [exact Hl |]. apply open_runs_privileged. }
  assert (Hclose : forall port protocol s0,
             Forall (as_privileged e) (Firewall.commands s0) ->
             Forall (as_privileged e)
                    (Firewall.commands (Firewall.close_port e port protocol s0).2)).
  { intros port protocol s0 H0.
    destruct (Firewall.close_port e port protocol s0) as [[ok message] s1] eqn:Hrun.
    apply close_port_spec in Hrun as (_ & (l & Hc & Hl) & _). simpl. rewrite Hc.
    apply Forall_app. split; [done |].
    eapply Forall_impl; [exact Hl |]. apply close_runs_privileged. }
  destruct (kept_by_all e (fun s => Forall (as_privileged e) (Firewall.commands s)))
    as [Hupdate Hall]; [done | done | done |].
  repeat split; intros; auto.
Qed.

(** On [iptables_host], run by user 1000, the three commands that open
    port 8080 all start with [sudo]. *)
Lemma commands_go_through_sudo_unless_root_witness :
  Forall (fun argv => hd "" argv = "sudo")
         (Firewall.commands
            (Firewall.open_port iptables_host 8080 "tcp"
               (Firewall.State (Some Firewall.iptables) [] None [] [])).2).
Proof.
  exact (proj1 (commands_go_through_sudo_unless_root iptables_host
                  (Firewall.State (Some Firewall.iptables) [] None [] [])
                  (Forall_nil_2 _)) 8080 "tcp").
Defined.

(** ** Sessions: what the store keeps and drops *)

Section SessionStore.
Import PamAuth.
Context (e : env).

(** [validate_session] on a token that is absent, empty or not stored:
    nothing happens, the clock is not even read. *)
Lemma validate_session_unknown token s :
  (forall tok, token = Some tok -> tok <> "" -> _sessions s !! tok = None) ->
  validate_session e token s = (None, s).
Proof.
  intros Hunknown. unfold validate_session.
  destruct token as [tok|]; [| done].
  destruct tok as [|c tok]; [done |]. simpl.
  unfold mbind, M_bind, bind, ret, get_sessions. simpl.
  by rewrite (Hunknown (String c tok) eq_refl).
Qed.

End SessionStore.

(** X8. [destroy_session] answers whether the token was stored; after it
    the token is not stored, every other session is as before, and
    [validate_session] on the token answers [None], whatever the clock
    reads. On a token that is not stored it changes nothing. *)
Theorem destroy_session_invalidates_token (tok : string) (s : PamAuth.state) :
  let r := PamAuth.destroy_session tok s in
  r.1 = bool_decide (is_Some (PamAuth._sessions s !! tok)) /\
  PamAuth._sessions r.2 = delete tok (PamAuth._sessions s) /\
  (forall e : PamAuth.env, PamAuth.validate_session e (Some tok) r.2 = (None, r.2)) /\
  (PamAuth._sessions s !! tok = None -> r.2 = s).
Proof.
  unfold PamAuth.destroy_session, mbind, PamAuth.M_bind, PamAuth.bind, PamAuth.get_sessions,
    PamAuth.set_sessions, PamAuth.log, PamAuth.ret.
  cbn [fst snd PamAuth._sessions].
  destruct (PamAuth._sessions s !! tok) as [sess|] eqn:Hlook;
    cbn [fst snd PamAuth._sessions].
  - repeat split; [| done].
    intros e. apply validate_session_unknown. intros tok' [= <-] _.
    cbn [PamAuth._sessions]. apply lookup_delete_eq.
  - repeat split.
    + by rewrite delete_id.
    + intros e. apply validate_session_unknown. by intros tok' [= <-] _.
Qed.

Lemma destroy_session_invalidates_token_witness :
  (PamAuth.destroy_session "token-0" session_at_expiry).1 = true /\
  (PamAuth.validate_session office_host (Some "token-0")
     (PamAuth.destroy_session "token-0" session_at_expiry).2).1 = None.
Proof.
  destruct (destroy_session_invalidates_token "token-0" session_at_expiry)
    as (Hr & _ & Hv & _).
  split; [exact Hr |]. by rewrite Hv.
Defined.

(** X9. [validate_session] touches at most the session of its own token:
    every other session is as before, no token is generated and nothing is
    logged; with no token or an empty one it answers [None] and changes
    nothing. *)
Theorem validate_session_touches_only_its_token
    (e : PamAuth.env) (token : option string) (s : PamAuth.state) :
  let r := PamAuth.validate_session e token s in
  (forall other, token <> Some other ->
                 PamAuth._sessions r.2 !! other = PamAuth._sessions s !! other) /\
  PamAuth.drawn r.2 = PamAuth.drawn s /\
  PamAuth.log_lines r.2 = PamAuth.log_lines s /\
  (token = None \/ token = Some "" -> r = (None, s)).
Proof.
  destruct token as [tok|]; [| by repeat split].
  destruct (decide (tok = "")) as [->|Hne]; [by repeat split |].
  assert (Hnot : Some tok = None \/ Some tok = Some "" -> False)
    by (intros [H | H]; congruence).
  destruct (PamAuth._sessions s !! tok) as [sess|] eqn:Hlook.
  - rewrite (validate_session_stored e tok s sess Hlook Hne).
    destruct (_ >? _); cbn [fst snd PamAuth._sessions PamAuth.drawn PamAuth.log_lines];
      (split; [| split; [done | split; [done | by intros ?%Hnot]]]).
    + intros other Hother. rewrite lookup_delete_ne; [done | congruence].
    + intros other Hother. rewrite lookup_insert_ne; [done | congruence].
  - rewrite validate_session_unknown by (by intros tok' [= <-] _).
    split; [done | split; [done | split; [done | by intros ?%Hnot]]].
Qed.

Lemma validate_session_touches_only_its_token_witness :
  let r := PamAuth.validate_session office_host (Some "token-0") session_at_expiry in
  PamAuth._sessions r.2 !! "token-1" = None /\
  PamAuth.validate_session office_host (Some "") session_at_expiry = (None, session_at_expiry).
Proof.
  intros r. split.
  - exact (proj1 (validate_session_touches_only_its_token office_host (Some "token-0")
                    session_at_expiry) "token-1" ltac:(discriminate)).
  - exact (proj2 (proj2 (proj2 (validate_session_touches_only_its_token office_host (Some "")
                                  session_at_expiry))) (or_intror eq_refl)).
Defined.

(** X10. [create_session] purges: after it no stored session has its
    expiry before the reading of the clock taken by the purge; a session
    stored before under another token is kept as it was exactly when it
    has not expired by that reading; and the new token maps to a session
    of the given user that expires [SESSION_TIMEOUT] after the second
    reading, provided that is not before the purge's reading. *)
Theorem create_session_purges_expired
    (e : PamAuth.env) (user : string) (s : PamAuth.state) :
  let r := PamAuth.create_session e user s in
  let purge_time := PamAuth.clock e (S (S (S (PamAuth.ticks s)))) in
  let expiry := PamAuth.clock e (S (PamAuth.ticks s)) + PamAuth.SESSION_TIMEOUT in
  r.1 = PamAuth.token_urlsafe e (PamAuth.drawn s) /\
  (forall tok sess, PamAuth._sessions r.2 !! tok = Some sess ->
                    purge_time <= PamAuth.expires sess) /\
  (forall tok sess, tok <> r.1 ->
     (PamAuth._sessions r.2 !! tok = Some sess <->
      PamAuth._sessions s !! tok = Some sess /\ purge_time <= PamAuth.expires sess)) /\
  (purge_time <= expiry ->
   PamAuth._sessions r.2 !! r.1
   = Some (PamAuth.Session user (PamAuth.clock e (PamAuth.ticks s)) expiry
                           (PamAuth.clock e (S (S (PamAuth.ticks s)))))).
Proof.
  rewrite create_session_steps. cbn [fst snd PamAuth._sessions].
  split; [done |]. split; [| split].
  - intros tok sess [_ H]%map_lookup_filter_Some. simpl in H. lia.
  - intros tok sess Hne. rewrite map_lookup_filter_Some, lookup_insert_ne by done.
    simpl. split; intros [H1 H2]; (split; [done | lia]).
  - intros Hfresh. apply map_lookup_filter_Some. split; [apply lookup_insert_eq |].
    simpl. lia.
Qed.

(** On [office_host], whose clock stands at 100, creating a session for
    [alice] drops the session that expired at 50 and stores hers. *)
Lemma create_session_purges_expired_witness :
  let s := PamAuth.State {[ "old" := PamAuth.Session "bob" 0 50 10 ]} 0 0 [] in
  let r := PamAuth.create_session office_host "alice" s in
  PamAuth._sessions r.2 !! "old" = None /\
  PamAuth._sessions r.2 !! r.1 = Some (PamAuth.Session "alice" 100 3700 100).
Proof.
  intros s r.
  destruct (create_session_purges_expired office_host "alice" s) as (Htok & _ & Hold & Hnew).
  fold r in Htok, Hold, Hnew. split.
  - destruct (PamAuth._sessions r.2 !! "old") as [sess|] eqn:Hlook; [| done].
    exfalso. apply Hold in Hlook as [Hs Hle]; [| by rewrite Htok].
    vm_compute in Hs. injection Hs as <-. simpl in Hle. lia.
  - apply Hnew. vm_compute. discriminate.
Defined.

(** X11. A login that fails hands out no token and leaves the session
    store, the clock and the token generator untouched; a login that
    succeeds hands out the token under which the session was stored. *)
Theorem failed_login_creates_no_session
    (e : PamAuth.env) (auth : PamAuth.PAMAuth) (u p : string) (s : PamAuth.state) :
  let r := PamAuth.login e auth u p s in
  (r.1.1.1 = false ->
   r.1.2 = None /\ PamAuth._sessions r.2 = PamAuth._sessions s /\
   PamAuth.ticks r.2 = PamAuth.ticks s /\ PamAuth.drawn r.2 = PamAuth.drawn s) /\
  (r.1.1.1 = true ->
   r.1.2 = Some (PamAuth.token_urlsafe e (PamAuth.drawn s)) /\
   PamAuth.drawn r.2 = S (PamAuth.drawn s)).
Proof.
  unfold PamAuth.login, PamAuth.bind.
  destruct (authenticate_spec e auth u p s) as [(Hs & Ht & Hd) _].
  destruct (PamAuth.authenticate e auth u p s) as [[success message] s1].
  simpl in Hs, Ht, Hd. destruct success.
  - rewrite create_session_steps. simpl. split; [done |]. intros _. by rewrite Hd.
  - simpl. split; [| done]. intros _. by repeat split.
Qed.

Lemma failed_login_creates_no_session_witness :
  let r := PamAuth.login office_host pam_only "bob" "secret" no_sessions in
  r.1.2 = None /\ PamAuth._sessions r.2 = ∅.
Proof.
  intros r.
  destruct (proj1 (failed_login_creates_no_session office_host pam_only "bob" "secret"
                     no_sessions)) as (Htok & Hs & _).
  - vm_compute. reflexivity.
  - split; [exact Htok | exact Hs].
Defined.

Section AuthenticateSound.
Import PamAuth.
Context (e : env).

Ltac pam_run :=
  unfold mbind, M_bind, bind, ret, log, get_sessions, set_sessions, time_time, new_token in *;
  simpl in *.

Lemma auth_pam_loop_accepted u p services reason s :
  (_auth_pam_loop e u p services reason s).1.1 = true ->
  exists service, service ∈ services /\ pam_authenticate e u p service = PamAccepted.
Proof.
  revert reason s. induction services as [|service rest IH]; intros reason s; simpl.
  - discriminate.
  - destruct (pam_authenticate e u p service) eqn:Hpam; pam_run.
    + intros _. exists service. split; [by left | done].
    + intros H. destruct (IH _ _ H) as (sv & Hin & Hsv). exists sv. split; [by right | done].
    + discriminate.
Qed.

(** What the shadow back end has checked when it accepts. *)
Definition shadow_verified (self : PAMAuth) (u p : string) : Prop :=
  exists stored_hash,
    spwd_getspnam e u = ShadowEntry stored_hash /\
    Py.startswith_char "!"%char stored_hash = false /\
    Py.startswith_char "*"%char stored_hash = false /\
    ((shadow_backend self = Some crypt /\ crypt_crypt e p stored_hash = inl stored_hash) \/
     (shadow_backend self = Some passlib /\ passlib_verify e p stored_hash = inl true)).

Lemma auth_shadow_accepted self u p s :
  (_auth_shadow e self u p s).1.1 = true -> shadow_verified self u p.
Proof.
  unfold _auth_shadow, shadow_verified.
  destruct (spwd_getspnam e u) as [stored_hash| | |]; pam_run; try discriminate.
  destruct (Py.startswith_char "!" stored_hash) eqn:Hbang; [discriminate |].
  destruct (Py.startswith_char "*" stored_hash) eqn:Hstar; [discriminate |].
  simpl. destruct (shadow_backend self) as [[]|]; [| | discriminate].
  - destruct (crypt_crypt e p stored_hash) as [computed|] eqn:Hcrypt; [| discriminate].
    unfold Py.compare_digest. destruct (_ && _); [| discriminate].
    destruct (String.eqb_spec computed stored_hash) as [->|]; [| discriminate].
    intros _. exists stored_hash. repeat split; try done. left. by split.
  - destruct (passlib_verify e p stored_hash) as [[]|] eqn:Hverify; try discriminate.
    intros _. exists stored_hash. repeat split; try done. right. by split.
Qed.

End AuthenticateSound.

(** X12. [authenticate] accepts only what it has verified: when it
    answers success, user name and password are not empty, the name is
    alphanumeric once [_] and [-] are removed, the account exists, the
    user is in an allowed group when access is restricted to groups, and
    either PAM is available and accepted the password for one of the four
    services, or the shadow back end is available, the account is not
    locked ([!] or [*]) and the password matches the stored hash. *)
Theorem authenticate_accepts_only_verified_users
    (e : PamAuth.env) (self : PamAuth.PAMAuth) (u p : string) (s : PamAuth.state) :
  (PamAuth.authenticate e self u p s).1.1 = true ->
  u <> "" /\ p <> "" /\
  PamAuth.isalnum e (Py.remove_char "-"%char (Py.remove_char "_"%char u)) = true /\
  is_Some (PamAuth.pwd_getpwnam e u) /\
  (PamAuth.ALLOWED_GROUPS e = [] \/
   PamAuth._user_in_groups e u (PamAuth.ALLOWED_GROUPS e) = true) /\
  ((PamAuth.pam_available self = true /\
    exists service, service ∈ ["login"; "system-auth"; "sshd"; "su"] /\
                    PamAuth.pam_authenticate e u p service = PamAuth.PamAccepted) \/
   (PamAuth.shadow_available self = true /\ shadow_verified e self u p)).
Proof.
  unfold PamAuth.authenticate.
  destruct (Py.truthy u) eqn:Hu; [| discriminate].
  destruct (Py.truthy p) eqn:Hp; [| discriminate]. cbn [negb orb].
  destruct (PamAuth.isalnum e _) eqn:Hname; [| discriminate]. cbn [negb].
  unfold PamAuth._user_exists.
  destruct (PamAuth.pwd_getpwnam e u) as [gid|] eqn:Hpwd; [| discriminate]. cbn [negb].
  destruct (bool_decide (PamAuth.ALLOWED_GROUPS e <> []) &&
            negb (PamAuth._user_in_groups e u (PamAuth.ALLOWED_GROUPS e))) eqn:Hgroups;
    [discriminate |].
  assert (Hfront : u <> "" /\ p <> "" /\ is_Some (Some gid) /\
                   (PamAuth.ALLOWED_GROUPS e = [] \/
                    PamAuth._user_in_groups e u (PamAuth.ALLOWED_GROUPS e) = true)).
  { split; [by destruct u |]. split; [by destruct p |]. split; [by eexists |].
    apply andb_false_iff in Hgroups as [Hg | Hg].
    - left. apply bool_decide_eq_false in Hg.
      by destruct (decide (PamAuth.ALLOWED_GROUPS e = [])); [| exfalso; apply Hg].
    - right. by apply negb_false_iff in Hg. }
  destruct Hfront as (F1 & F2 & F4 & F5).
  set (shadow := if PamAuth.shadow_available self then PamAuth._auth_shadow e self u p
                 else PamAuth.ret (false, "")).
  unfold mbind, PamAuth.M_bind, PamAuth.bind, PamAuth._auth_pam.
  pose proof (auth_pam_loop_accepted e u p ["login"; "system-auth"; "sshd"; "su"] "" s) as Hloop.
  assert (Hshadow : forall s1,
             (shadow s1).1.1 = true ->
             PamAuth.shadow_available self = true /\ shadow_verified e self u p).
  { intros s1. unfold shadow. destruct (PamAuth.shadow_available self); [| discriminate].
    intros H. split; [done |]. by apply (auth_shadow_accepted e self u p s1). }
  clearbody shadow.
  destruct (PamAuth.pam_available self) eqn:Hpam.
  - destruct (PamAuth._auth_pam_loop e u p _ "" s) as [[pam_ok pam_message] s1].
    destruct pam_ok.
    { intros _. repeat (split; [done |]). left. split; [done | by apply Hloop]. }
    specialize (Hshadow s1).
    destruct (shadow s1) as [[shadow_ok shadow_message] s2].
    destruct shadow_ok; [| discriminate].
    intros _. repeat (split; [done |]). right. by apply Hshadow.
  - unfold PamAuth.ret at 1. cbn [fst snd].
    specialize (Hshadow s).
    destruct (shadow s) as [[shadow_ok shadow_message] s2].
    destruct shadow_ok; [| discriminate].
    intros _. repeat (split; [done |]). right. by apply Hshadow.
Qed.

(** A host where PAM accepts [alice] with the password [wonderland]
    through the service [sshd], and access is open to every group. *)
Definition open_house : PamAuth.env :=
  PamAuth.Env
    (fun n => Z.of_nat n)
    (fun n => "token-" +:+ Py.str (Z.of_nat n))
    ascii_isalnum
    []
    (fun u => if String.eqb u "alice" then Some 1001 else None)
    (fun _ => None)
    (fun _ => None)
    (fun u p service =>
       if String.eqb u "alice" && String.eqb p "wonderland" && String.eqb service "sshd"
       then PamAuth.PamAccepted else PamAuth.PamRejected "Authentication failure")
    (fun _ => PamAuth.ShadowKeyError)
    (fun _ _ => inr "unavailable")
    (fun _ _ => inr "unavailable").

Lemma authenticate_accepts_only_verified_users_witness :
  (PamAuth.authenticate open_house pam_only "alice" "wonderland" no_sessions).1.1 = true /\
  is_Some (PamAuth.pwd_getpwnam open_house "alice").
Proof.
  assert (H : (PamAuth.authenticate open_house pam_only "alice" "wonderland" no_sessions).1.1
              = true) by (vm_compute; reflexivity).
  split; [exact H |].
  exact (proj1 (proj2 (proj2 (proj2 (authenticate_accepts_only_verified_users
                                       open_house pam_only "alice" "wonderland" no_sessions H))))).
Defined.

(** ** Request signing: what a verified signature guarantees *)

(** The value of a hexadecimal digit; 16 for any other character. *)
Definition hex_value (c : ascii) : N :=
  match index 0 (String c "") "0123456789abcdef" with
  | Some i => N.of_nat i
  | None => 16
  end.

Lemma hex_digits_decode (c : ascii) :
  let n := N_of_ascii c in
  ascii_of_N (16 * hex_value (Py.hex_digit (n / 16)) + hex_value (Py.hex_digit (n mod 16))) = c.
Proof. destruct c as [[] [] [] [] [] [] [] []]; vm_compute; reflexivity. Qed.

Lemma hex_inj (a b : string) : Py.hex a = Py.hex b -> a = b.
Proof.
  revert b. induction a as [|c a IH]; intros [|d b]; simpl; try discriminate; [done |].
  intros [= H1 H2 H3]. f_equal; [| by apply IH].
  rewrite <- (hex_digits_decode c), <- (hex_digits_decode d). simpl. by rewrite H1, H2.
Qed.

(** X13. [verify_signature] answers [True] only for a request whose
    timestamp reads as an integer at most [max_age] away from the current
    time and whose signature is the hexadecimal HMAC-SHA256 digest, under
    the secret key, of "timestamp.nonce.payload_json". *)
Theorem verify_signature_accepts_only_signed
    (e : Security.env) (now : Z) (payload : Py.value)
    (signature timestamp nonce secret_key : string) (max_age : Z) :
  Security.verify_signature e now payload signature timestamp nonce secret_key max_age
  = Py.Return true ->
  (exists request_time,
     Py.int_ (Security.decimal_to_ascii e) timestamp = Some request_time /\ Z.abs (now - request_time) <= max_age) /\
  signature
  = Py.hex (Security.hmac_sha256 e secret_key
              (timestamp +:+ "." +:+ nonce +:+ "." +:+ Security.json_dumps e payload)).
Proof.
  unfold Security.verify_signature.
  destruct (Py.int_ (Security.decimal_to_ascii e) timestamp) as [request_time|]; [| discriminate].
  destruct (Z.gtb_spec (Z.abs (now - request_time)) max_age) as [|Hage]; [discriminate |].
  unfold Py.compare_digest. destruct (_ && _); [| discriminate].
  intros [= Heq]. apply String.eqb_eq in Heq.
  split; [by exists request_time | done].
Qed.

Lemma verify_signature_accepts_only_signed_witness :
  let h := Security.sign_request toy_signer "0123456789abcdef" 900 (Py.VDict ∅) "s3cret"
             None None in
  Security.X_Signature h = Py.hex ("s3cret" +:+ "900." +:+ Security.X_Nonce h +:+ ".{}").
Proof.
  intros h.
  exact (proj2 (verify_signature_accepts_only_signed toy_signer 1000 (Py.VDict ∅)
                  (Security.X_Signature h) (Security.X_Timestamp h) (Security.X_Nonce h)
                  "s3cret" 300 eq_refl)).
Defined.

(** X14. [verify_signature] raises exactly when the timestamp reads as
    an integer at most [max_age] away from the current time and the
    signature holds a character outside ASCII: the comparison of the
    digests then raises [TypeError]. In every other case it returns a
    boolean. *)
Theorem verify_signature_raises_on_non_ascii_signature
    (e : Security.env) (now : Z) (payload : Py.value)
    (signature timestamp nonce secret_key : string) (max_age : Z) :
  let r := Security.verify_signature e now payload signature timestamp nonce secret_key
             max_age in
  ((exists request_time,
      Py.int_ (Security.decimal_to_ascii e) timestamp = Some request_time /\ Z.abs (now - request_time) <= max_age) /\
   Py.is_ascii signature = false ->
   r = Py.Raise (Py.Exn Py.TypeError
                   "comparing strings with non-ASCII characters is not supported")) /\
  ((forall request_time,
      Py.int_ (Security.decimal_to_ascii e) timestamp = Some request_time -> max_age < Z.abs (now - request_time)) \/
   Py.is_ascii signature = true ->
   exists verdict, r = Py.Return verdict).
Proof.
  unfold Security.verify_signature, Py.compare_digest, Security.hexdigest. split.
  - intros [(request_time & -> & Hage) Hsig].
    destruct (Z.gtb_spec (Z.abs (now - request_time)) max_age) as [|_]; [lia |].
    by rewrite Hsig.
  - intros Hcase. destruct (Py.int_ (Security.decimal_to_ascii e) timestamp) as [request_time|]; [| by eexists].
    destruct (Z.gtb_spec (Z.abs (now - request_time)) max_age) as [|Hage]; [by eexists |].
    destruct Hcase as [Hstale | Hsig]; [specialize (Hstale _ eq_refl); lia |].
    rewrite Hsig, hex_is_ascii. by eexists.
Qed.

Lemma verify_signature_raises_on_non_ascii_signature_witness :
  Security.verify_signature toy_signer 1000 (Py.VDict ∅)
    (String (ascii_of_nat 195) (String (ascii_of_nat 169) "")) "900" "n0nce" "s3cret" 300
  = Py.Raise (Py.Exn Py.TypeError
                "comparing strings with non-ASCII characters is not supported").
Proof.
  apply (proj1 (verify_signature_raises_on_non_ascii_signature toy_signer 1000 (Py.VDict ∅)
                  (String (ascii_of_nat 195) (String (ascii_of_nat 169) "")) "900" "n0nce" "s3cret" 300)).
  split; [| reflexivity]. exists 900. split; [reflexivity | lia].
Defined.

(** X15. A signature made by [sign_request] does not carry over: checked
    against another payload, nonce, timestamp or key for which the HMAC
    digest differs from the signed one, [verify_signature] answers
    [False]. *)
Theorem verify_signature_rejects_other_message
    (e : Security.env) (entropy : string) (signed_at now : Z)
    (payload payload' : Py.value) (secret_key secret_key' : string)
    (nonce timestamp : option string) (nonce' timestamp' : string) (max_age : Z) :
  let h := Security.sign_request e entropy signed_at payload secret_key nonce timestamp in
  Security.hmac_sha256 e secret_key'
    (Security.canonical_message e payload' timestamp' nonce')
  <> Security.hmac_sha256 e secret_key
       (Security.canonical_message e payload (Security.X_Timestamp h) (Security.X_Nonce h)) ->
  Security.verify_signature e now payload' (Security.X_Signature h) timestamp' nonce'
    secret_key' max_age
  = Py.Return false.
Proof.
  intros h Hdiff. unfold Security.verify_signature.
  destruct (Py.int_ (Security.decimal_to_ascii e) timestamp') as [request_time|]; [| done].
  destruct (Z.abs (now - request_time) >? max_age); [done |].
  unfold Py.compare_digest. subst h. cbn [Security.sign_request Security.X_Signature].
  unfold Security.hexdigest. rewrite !hex_is_ascii. cbn [andb]. f_equal.
  apply String.eqb_neq. intros Heq. apply hex_inj in Heq. apply Hdiff. by rewrite <- Heq.
Qed.

(** With [toy_signer], a signature for the empty payload under the key
    [s3cret] is refused under the key [guess]. *)
Lemma verify_signature_rejects_other_message_witness :
  let h := Security.sign_request toy_signer "0123456789abcdef" 900 (Py.VDict ∅) "s3cret"
             None None in
  Security.verify_signature toy_signer 1000 (Py.VDict ∅) (Security.X_Signature h)
    (Security.X_Timestamp h) (Security.X_Nonce h) "guess" 300
  = Py.Return false.
Proof.
  intros h.
  apply (verify_signature_rejects_other_message toy_signer "0123456789abcdef" 900 1000
           (Py.VDict ∅) (Py.VDict ∅) "s3cret" "guess" None None).
  vm_compute. discriminate.
Defined.

(** ** The package-update cycle: outcome, record and lock *)

Section CycleFacts.
Import Eff Agent.
Context (e : env).

(** The lock once the descriptor [fd] has tried to take it. *)
Definition taken (l : lock_facility) (fd : nat) : lock_facility :=
  match l with Flock None => Flock (Some fd) | _ => l end.

(** The lock once the descriptor [fd] is closed. *)
Definition released (l : lock_facility) (fd : nat) : lock_facility :=
  match l with
  | Flock (Some holder) => if Nat.eqb holder fd then Flock None else l
  | _ => l
  end.

(** The name of the log file of a cycle started in [w]. *)
Definition cycle_log (w : world) : string := "agent-" +:+ today e (S (ticks w)) +:+ ".log".

(** The world once the cycle has the lock and has written its [START]
    line. *)
Definition started (w : world) : world :=
  World (config w) (config_file w) (state_file w) (taken (lock w) (next_fd w))
        (S (next_fd w)) (S (S (S (ticks w))))
        (<[cycle_log w := default [] (log_files w !! cycle_log w)
                          ++ [newline +:+ "START: " +:+ local_human e (S (S (ticks w)))
                              +:+ newline]]> (log_files w))
        (commands w) (calls w) (printed w) (host w).

Lemma run_update_free stream_output w :
  (forall holder, lock w <> Flock (Some holder)) ->
  run_update e stream_output w
  = run_update_locked e (time_time e (ticks w)) (cycle_log w) stream_output (next_fd w)
                      (started w).
Proof.
  intros Hfree.
  unfold run_update, acquire_lock, os_open, now, get_log_path, local_now_human, tick,
    append_to, set_lock, modify, mbind, M_bind, bind, get, ret.
  cbn [lock].
  destruct (lock w) as [|[holder|]] eqn:Hlock; [| by destruct (Hfree holder) |];
    unfold started, cycle_log; rewrite Hlock; reflexivity.
Qed.

(** What the [finally] block writes into the state file. *)
Definition record (status : string) (exit_code duration : Z) (now_ : string)
    (state : gmap string Py.value) : gmap string Py.value :=
  let state :=
    <["lastDurationSeconds" := Py.VInt duration]>
      (<["lastExitCode" := Py.VInt exit_code]>
         (<["lastStatus" := Py.VStr status]>
            (<["lastRunAt" := Py.VStr now_]> state))) in
  if String.eqb status "OK" then <["lastUpdate" := Py.VStr now_]> state else state.

(** The world after the [finally] block. *)
Definition finished (start_time : Z) (log_name status : string) (exit_code : Z)
    (lock_fd : nat) (w : world) : world :=
  let duration := time_time e (ticks w) - start_time in
  World (config w) (config_file w)
        (Some (record status exit_code duration (utc_iso e (S (ticks w)))
                      (default ∅ (state_file w))))
        (released (lock w) lock_fd) (next_fd w) (S (S (S (ticks w))))
        (<[log_name := default [] (log_files w !! log_name)
                       ++ ["END: " +:+ local_human e (S (S (ticks w))) +:+ " | status="
                           +:+ status +:+ " | exit=" +:+ Py.str exit_code +:+ " | duration="
                           +:+ Py.str duration +:+ "s" +:+ newline]]> (log_files w))
        (commands w) (calls w) (printed w) (host w).

Lemma run_update_finally_steps start_time log_name status exit_code lock_fd w :
  run_update_finally e start_time log_name status exit_code lock_fd w
  = (Py.Return (time_time e (ticks w) - start_time),
     finished start_time log_name status exit_code lock_fd w).
Proof.
  unfold run_update_finally, finished, record, released, now, utc_now_iso, local_now_human,
    tick, append_to, read_state, write_state, set_state_file, release_lock, set_lock, modify,
    mbind, M_bind, bind, get, ret.
  cbn [lock state_file ticks log_files].
  destruct (lock w) as [|[holder|]] eqn:Hlock; try reflexivity.
  destruct (Nat.eqb holder lock_fd); reflexivity.
Qed.

Lemma run_update_locked_steps start_time log_name stream_output lock_fd w :
  run_update_locked e start_time log_name stream_output lock_fd w
  = match run_update_try e log_name stream_output w with
    | (Py.Return (status, exit_code, error_message), w1) =>
        (Py.Return (RunResult status exit_code (time_time e (ticks w1) - start_time)
                              (Some ("/opt/agentautoupdate/logs/" +:+ log_name))
                              error_message),
         finished start_time log_name status exit_code lock_fd w1)
    | (Py.Raise exc, w1) =>
        (Py.Raise exc, finished start_time log_name "OK" 0 lock_fd w1)
    end.
Proof.
  unfold run_update_locked.
  destruct (run_update_try e log_name stream_output w) as [[[[status exit_code] msg]|exc] w1];
    unfold bind; by rewrite run_update_finally_steps.
Qed.

End CycleFacts.

Section CycleCommands.
Import Eff Agent.
Context (e : env).

(** A step that only runs commands and writes to the logs and to the
    standard output. *)
Definition only_runs (w w' : world) : Prop :=
  config w' = config w /\ config_file w' = config_file w /\ state_file w' = state_file w /\
  lock w' = lock w /\ next_fd w' = next_fd w /\ ticks w' = ticks w /\
  calls w' = calls w /\ host w' = host w.

Lemma only_runs_refl w : only_runs w w.
Proof. by repeat split. Qed.

Lemma only_runs_trans w1 w2 w3 : only_runs w1 w2 -> only_runs w2 w3 -> only_runs w1 w3.
Proof. unfold only_runs. intuition congruence. Qed.

Lemma run_command_steps command log_name stream_output w :
  let r := run_command e command log_name stream_output w in
  only_runs w r.2 /\ commands r.2 = commands w ++ [command] /\
  r.1 = match exec e (commands w) command with
        | Py.Return (returncode, _) => Py.Return returncode
        | Py.Raise exc => Py.Raise exc
        end.
Proof.
  unfold run_command, append_to, write_stdout, record_command, modify, lift,
    mbind, M_bind, bind, get, ret.
  destruct stream_output; cbn [fst snd commands];
    destruct (exec e (commands w) command) as [[returncode output]|exc];
    by repeat split.
Qed.

Lemma run_commands_cons command rest log_name stream_output w :
  run_commands e (command :: rest) log_name stream_output w
  = match run_command e command log_name stream_output w with
    | (Py.Return code, w1) =>
        if negb (code =? 0) then (Py.Return ("ERROR", code), w1)
        else run_commands e rest log_name stream_output w1
    | (Py.Raise exc, w1) => (Py.Raise exc, w1)
    end.
Proof.
  cbn [run_commands]. unfold bind.
  destruct (run_command e command log_name stream_output w) as [[code|exc] w1]; [| done].
  by destruct (negb (code =? 0)).
Qed.

(** What a run of [run_commands] has done: the commands it ran are the
    first ones of the list, up to and including the first that did not
    return 0 or could not be started. *)
Lemma run_commands_spec cmds log_name stream_output w :
  let r := run_commands e cmds log_name stream_output w in
  only_runs w r.2 /\
  exists ran,
    commands r.2 = commands w ++ ran /\ ran `prefix_of` cmds /\
    match r.1 with
    | Py.Return (status, code) =>
        (status = "OK" /\ code = 0 /\ ran = cmds) \/
        (status = "ERROR" /\ code <> 0 /\
         exists before failed output,
           ran = before ++ [failed] /\
           exec e (commands w ++ before) failed = Py.Return (code, output))
    | Py.Raise exc =>
        exists before failed,
          ran = before ++ [failed] /\ exec e (commands w ++ before) failed = Py.Raise exc
    end.
Proof.
  revert w. induction cmds as [|command rest IH]; intros w.
  - split; [apply only_runs_refl |]. exists []. rewrite app_nil_r.
    split; [done |]. split; [done |]. by left.
  - cbn zeta. rewrite run_commands_cons.
    pose proof (run_command_steps command log_name stream_output w) as (F1 & C1 & R1).
    destruct (run_command e command log_name stream_output w) as [[code|exc] w1].
    + cbn [fst snd] in *.
      destruct (exec e (commands w) command) as [[returncode output]|] eqn:Hexec;
        [| discriminate R1].
      injection R1 as ->.
      destruct (Z.eqb_spec returncode 0) as [->|Hcode]; cbn [negb].
      * destruct (IH w1) as (F2 & ran & C2 & P2 & H2). split; [by eapply only_runs_trans |].
        exists (command :: ran). rewrite C2, C1, <- app_assoc.
        split; [done |]. split; [by apply prefix_cons |].
        destruct (run_commands e rest log_name stream_output w1) as [[[status code]|exc] w2];
          cbn [fst snd] in *.
        -- destruct H2 as [(-> & -> & ->) | (-> & Hc & before & failed & out & -> & Hx)];
             [by left | right].
           split; [done |]. split; [done |]. exists (command :: before), failed, out.
           split; [done |]. by rewrite C1, <- app_assoc in Hx.
        -- destruct H2 as (before & failed & -> & Hx).
           exists (command :: before), failed. split; [done |].
           by rewrite C1, <- app_assoc in Hx.
      * split; [done |]. exists [command]. split; [done |].
        split; [apply prefix_cons, prefix_nil |]. right.
        split; [done |]. split; [done |]. exists [], command, output. by rewrite app_nil_r.
    + cbn [fst snd] in *.
      destruct (exec e (commands w) command) as [[returncode output]|exc'] eqn:Hexec;
        [discriminate R1 |].
      injection R1 as ->. split; [done |]. exists [command]. split; [done |].
      split; [apply prefix_cons, prefix_nil |]. exists [], command. by rewrite app_nil_r.
Qed.

(** The same for the [try] block of the cycle. *)
Lemma run_update_try_spec log_name stream_output w :
  let r := run_update_try e log_name stream_output w in
  only_runs w r.2 /\
  exists ran,
    commands r.2 = commands w ++ ran /\ ran `prefix_of` get_update_commands e /\
    match r.1 with
    | Py.Return (status, code, error_message) =>
        (status = "OK" /\ code = 0 /\ error_message = None /\
         ran = get_update_commands e /\ ran <> []) \/
        (status = "ERROR" /\ code <> 0 /\ error_message = None /\
         exists before failed output,
           ran = before ++ [failed] /\
           exec e (commands w ++ before) failed = Py.Return (code, output)) \/
        (status = "ERROR" /\ code = 2 /\ error_message = Some "Unsupported package manager" /\
         ran = [] /\ get_update_commands e = [])
    | Py.Raise exc =>
        exists before failed,
          ran = before ++ [failed] /\ exec e (commands w ++ before) failed = Py.Raise exc
    end.
Proof.
  unfold run_update_try.
  destruct (get_update_commands e) as [|command rest] eqn:Hcmds.
  - split; [apply only_runs_refl |]. exists []. rewrite app_nil_r.
    split; [done |]. split; [done |]. right; right. by repeat split.
  - cbn zeta. unfold bind.
    destruct (run_commands_spec (command :: rest) log_name stream_output w)
      as (F & ran & C & P & H).
    destruct (run_commands e (command :: rest) log_name stream_output w)
      as [[[status code]|exc] w1]; cbn [fst snd] in *.
    + split; [done |]. exists ran. split; [done |]. split; [done |].
      destruct H as [(-> & -> & ->) | (-> & Hc & H)]; [left | right; left]; by repeat split.
    + split; [done |]. by exists ran.
Qed.

End CycleCommands.

(** X16. A cycle that finds the lock free and returns, with status [OK]
    or [ERROR], has given the lock back: after [run_update] the lock is as
    it was before, so the next cycle is not refused, and the descriptor
    the cycle opened is the only one it used. *)
Theorem run_update_releases_lock
    (e : Agent.env) (stream_output : bool) (w w' : Agent.world) (r : Agent.run_result) :
  (forall holder, Agent.lock w <> Agent.Flock (Some holder)) ->
  Agent.run_update e stream_output w = (Py.Return r, w') ->
  Agent.lock w' = Agent.lock w /\
  Agent.next_fd w' = S (Agent.next_fd w) /\
  forall again, (Agent.run_update e again w').1
                <> Py.Return (Agent.RunResult "ERROR" 1 0 None (Some "Update already running")).
Proof.
  intros Hfree Hrun.
  assert (Hlock : Agent.lock w' = Agent.lock w /\ Agent.next_fd w' = S (Agent.next_fd w)).
  { rewrite run_update_free, run_update_locked_steps in Hrun by done.
    pose proof (keeps_lock_run_update_try e (cycle_log e w) stream_output (started e w))
      as Hkeep.
    destruct (run_update_try_spec e (cycle_log e w) stream_output (started e w))
      as ((_ & _ & _ & _ & Hfd & _) & _).
    destruct (Agent.run_update_try e _ stream_output (started e w))
      as [[[[status exit_code] msg]|exc] w1]; cbn [fst snd] in *; [| discriminate].
    injection Hrun as _ <-. unfold finished. cbn [Agent.lock Agent.next_fd].
    rewrite Hkeep, Hfd. cbn [started Agent.lock Agent.next_fd]. split; [| done].
    destruct (Agent.lock w) as [|[holder|]]; simpl; [done | | ].
    - by destruct (Hfree holder).
    - by rewrite Nat.eqb_refl. }
  destruct Hlock as [Hlock Hfd]. split; [done |]. split; [done |].
  intros again. rewrite run_update_free, run_update_locked_steps by (by rewrite Hlock).
  destruct (Agent.run_update_try e _ again (started e w'))
    as [[[[status exit_code] msg]|exc] w1]; cbn [fst]; [| discriminate].
  by intros [=].
Qed.

(** A host with apt where [apt-get full-upgrade] cannot be started. *)
Definition flaky_host : Agent.env :=
  Agent.Env (fun n => Z.of_nat n) (fun _ => "2024-05-01T03:00:00Z")
            (fun _ => "2024-05-01 03:00:00") (fun _ => "2024-05-01")
            (fun name => String.eqb name "apt-get")
            (fun _ argv =>
               match argv with
               | [_; "full-upgrade"; _] =>
                   Py.Raise (Py.Exn Py.OSError "[Errno 13] Permission denied: 'apt-get'")
               | _ => Py.Return (0, ["ok"])
               end)
            (fun _ _ => Py.Return Py.VNone) (fun _ => "?") broken_bundle_host
            (fun _ => "?").

Lemma run_update_releases_lock_witness :
  Agent.lock (Agent.run_update quiet_host false idle_world).2 = Agent.Flock None.
Proof.
  destruct (Agent.run_update quiet_host false idle_world) as [[r|exc] w'] eqn:Hrun;
    [| vm_compute in Hrun; discriminate Hrun].
  exact (proj1 (run_update_releases_lock quiet_host false idle_world w' r
                  ltac:(discriminate) Hrun)).
Defined.

(** X17. A cycle that returns has run the update commands of the package
    manager in order, up to and including the first that did not return
    0. With status [OK] the exit code is 0 and every command was run;
    otherwise the status is [ERROR] and the exit code is the return code
    of the last command run, which is not 0, or it is 2 with the message
    "Unsupported package manager" when no package manager was found, in
    which case no command was run. *)
Theorem run_update_stops_at_first_failure
    (e : Agent.env) (stream_output : bool) (w w' : Agent.world) (r : Agent.run_result) :
  (forall holder, Agent.lock w <> Agent.Flock (Some holder)) ->
  Agent.run_update e stream_output w = (Py.Return r, w') ->
  exists ran,
    Agent.commands w' = Agent.commands w ++ ran /\
    ran `prefix_of` Agent.get_update_commands e /\
    ((Agent.status r = "OK" /\ Agent.exit_code r = 0 /\ Agent.message r = None /\
      ran = Agent.get_update_commands e /\ ran <> []) \/
     (Agent.status r = "ERROR" /\ Agent.exit_code r <> 0 /\ Agent.message r = None /\
      exists before failed output,
        ran = before ++ [failed] /\
        Agent.exec e (Agent.commands w ++ before) failed
        = Py.Return (Agent.exit_code r, output)) \/
     (Agent.status r = "ERROR" /\ Agent.exit_code r = 2 /\
      Agent.message r = Some "Unsupported package manager" /\
      ran = [] /\ Agent.get_update_commands e = [])).
Proof.
  intros Hfree. rewrite run_update_free, run_update_locked_steps by done.
  destruct (run_update_try_spec e (cycle_log e w) stream_output (started e w))
    as (_ & ran & C & P & H).
  destruct (Agent.run_update_try e _ stream_output (started e w))
    as [[[[status exit_code] msg]|exc] w1]; cbn [fst snd] in *; [| discriminate].
  intros [= <- <-]. exists ran. cbn [finished Agent.commands started] in *.
  split; [done |]. split; [done |]. cbn [Agent.status Agent.exit_code Agent.message].
  exact H.
Qed.

(** A host with dnf where [dnf -y upgrade] returns 1. *)
Definition failing_host : Agent.env :=
  Agent.Env (fun n => Z.of_nat n) (fun _ => "2024-05-01T03:00:00Z")
            (fun _ => "2024-05-01 03:00:00") (fun _ => "2024-05-01")
            (fun name => String.eqb name "dnf")
            (fun _ argv =>
               match argv with
               | [_; _; "upgrade"] => Py.Return (1, ["Error: Failed to download metadata"])
               | _ => Py.Return (0, ["ok"])
               end)
            (fun _ _ => Py.Return Py.VNone) (fun _ => "?") broken_bundle_host
            (fun _ => "?").

Lemma run_update_stops_at_first_failure_witness :
  Agent.commands (Agent.run_update failing_host false idle_world).2
  = [ ["dnf"; "-y"; "makecache"]; ["dnf"; "-y"; "upgrade"] ].
Proof.
  destruct (Agent.run_update failing_host false idle_world) as [[r|exc] w'] eqn:Hrun;
    [| vm_compute in Hrun; discriminate Hrun].
  destruct (run_update_stops_at_first_failure failing_host false idle_world w' r
              ltac:(discriminate) Hrun) as (ran & _ & _ & _).
  vm_compute in Hrun. injection Hrun as _ <-. reflexivity.
Defined.

(** X18. A cycle that returns has written its outcome into the state
    file: [lastStatus], [lastExitCode] and [lastDurationSeconds] are the
    status, exit code and duration it returns, [lastRunAt] is the time of
    the end of the cycle, [lastUpdate] is set to that time when the
    status is [OK] and keeps its value otherwise, and every other entry
    of the state file is kept. *)
Theorem run_update_records_outcome
    (e : Agent.env) (stream_output : bool) (w w' : Agent.world) (r : Agent.run_result) :
  (forall holder, Agent.lock w <> Agent.Flock (Some holder)) ->
  Agent.run_update e stream_output w = (Py.Return r, w') ->
  let before := default ∅ (Agent.state_file w) in
  exists after ended,
    Agent.state_file w' = Some after /\
    after !! "lastStatus" = Some (Py.VStr (Agent.status r)) /\
    after !! "lastExitCode" = Some (Py.VInt (Agent.exit_code r)) /\
    after !! "lastDurationSeconds" = Some (Py.VInt (Agent.duration r)) /\
    after !! "lastRunAt" = Some (Py.VStr ended) /\
    after !! "lastUpdate" = (if String.eqb (Agent.status r) "OK" then Some (Py.VStr ended)
                             else before !! "lastUpdate") /\
    forall k, k ∉ ["lastStatus"; "lastExitCode"; "lastDurationSeconds"; "lastRunAt";
                   "lastUpdate"] ->
              after !! k = before !! k.
Proof.
  intros Hfree. rewrite run_update_free, run_update_locked_steps by done.
  destruct (run_update_try_spec e (cycle_log e w) stream_output (started e w))
    as ((_ & _ & Hstate & _ & _ & Hticks & _) & _).
  destruct (Agent.run_update_try e _ stream_output (started e w))
    as [[[[status exit_code] msg]|exc] w1]; cbn [fst snd] in *; [| discriminate].
  intros [= <- <-]. cbn [finished Agent.state_file Agent.status Agent.exit_code
                          Agent.duration].
  rewrite Hstate. cbn [started Agent.state_file].
  set (before := default ∅ (Agent.state_file w)).
  eexists. exists (Agent.utc_iso e (S (Agent.ticks w1))).
  split; [reflexivity |]. unfold record.
  destruct (String.eqb status "OK"); repeat split;
    try (by rewrite ?lookup_insert_ne by done; try apply lookup_insert_eq);
    intros k Hk; rewrite !lookup_insert_ne; try done;
    intros <-; apply Hk; set_solver.
Qed.

Lemma run_update_records_outcome_witness :
  Agent.state_file (Agent.run_update failing_host false idle_world).2 ≫= (.!! "lastExitCode")
  = Some (Py.VInt 1).
Proof.
  destruct (Agent.run_update failing_host false idle_world) as [[r|exc] w'] eqn:Hrun;
    [| vm_compute in Hrun; discriminate Hrun].
  destruct (run_update_records_outcome failing_host false idle_world w' r
              ltac:(discriminate) Hrun) as (after & ended & Hfile & _ & Hcode & _).
  cbn [snd]. rewrite Hfile. cbn [mbind option_bind]. rewrite Hcode.
  vm_compute in Hrun. injection Hrun as <- _. reflexivity.
Defined.

(** X19. When a command of the cycle cannot be started, the exception
    goes on to the caller after the [finally] block has run with the
    initial values of [status] and [exit_code]: the state file then
    reads [lastStatus = OK], [lastExitCode = 0], and [lastUpdate] is set
    to the time of the end of the cycle; the commands run are the first
    ones of the list, up to and including the one that raised. *)
Theorem run_update_records_ok_when_command_raises
    (e : Agent.env) (stream_output : bool) (w w' : Agent.world) (exc : Py.exn) :
  (forall holder, Agent.lock w <> Agent.Flock (Some holder)) ->
  Agent.run_update e stream_output w = (Py.Raise exc, w') ->
  (exists after ended,
     Agent.state_file w' = Some after /\
     after !! "lastStatus" = Some (Py.VStr "OK") /\
     after !! "lastExitCode" = Some (Py.VInt 0) /\
     after !! "lastRunAt" = Some (Py.VStr ended) /\
     after !! "lastUpdate" = Some (Py.VStr ended)) /\
  (exists before failed,
     Agent.commands w' = Agent.commands w ++ before ++ [failed] /\
     (before ++ [failed]) `prefix_of` Agent.get_update_commands e /\
     Agent.exec e (Agent.commands w ++ before) failed = Py.Raise exc).
Proof.
  intros Hfree. rewrite run_update_free, run_update_locked_steps by done.
  destruct (run_update_try_spec e (cycle_log e w) stream_output (started e w))
    as (_ & ran & C & P & H).
  destruct (Agent.run_update_try e _ stream_output (started e w))
    as [[[[status exit_code] msg]|exc'] w1]; cbn [fst snd] in *; [discriminate |].
  intros [= <- <-]. split.
  - eexists. exists (Agent.utc_iso e (S (Agent.ticks w1))).
    cbn [finished Agent.state_file]. split; [reflexivity |]. unfold record. simpl.
    repeat split; by rewrite ?lookup_insert_ne by done; try apply lookup_insert_eq.
  - destruct H as (before & failed & -> & Hx). exists before, failed.
    cbn [finished Agent.commands started] in *. by repeat split.
Qed.

Lemma run_update_records_ok_when_command_raises_witness :
  Agent.state_file (Agent.run_update flaky_host false idle_world).2 ≫= (.!! "lastStatus")
  = Some (Py.VStr "OK").
Proof.
  destruct (Agent.run_update flaky_host false idle_world) as [[r|exc] w'] eqn:Hrun;
    [vm_compute in Hrun; discriminate Hrun |].
  destruct (run_update_records_ok_when_command_raises flaky_host false idle_world w' exc
              ltac:(discriminate) Hrun) as ((after & ended & Hfile & Hstatus & _) & _).
  cbn [snd]. rewrite Hfile. cbn [mbind option_bind]. exact Hstatus.
Defined.

(** ** Command dispatch: when the poller restarts or exits *)

Section DispatchFlags.
Import Eff Agent.
Context (e : env).

(** The type of the command is [name]. *)
Definition has_type (command : gmap string Py.value) (name : string) : Prop :=
  command !! "type" = Some (Py.VStr name).

Lemma eq_str_type command name :
  Py.eq_str (Py.dict_get command "type") name = true -> has_type command name.
Proof.
  unfold Py.eq_str, Py.dict_get, has_type.
  destruct (command !! "type") as [[]|]; simpl; try discriminate.
  by intros ->%String.eqb_eq.
Qed.

Ltac dispatch_run :=
  unfold mbind, M_bind, bind, lift, get, ret, raise, set_config, modify, collaborator,
    record_call, on_host, value_get;
  cbn [fst snd];
  repeat (case_match; cbn [fst snd]; try done);
  simpl in *; simplify_eq; cbn;
  (split; intros Hflag; first [discriminate Hflag | repeat split; auto]).

Lemma handle_command_body_flags command w :
  match (handle_command_body e command w).1 with
  | Py.Return cr =>
      (cr_restart cr = true ->
       cr_status cr = "DONE" /\ cr_exit_after cr = false /\
       (has_type command "UPDATE_AGENT" \/ has_type command "SET_POLL_INTERVAL")) /\
      (cr_exit_after cr = true ->
       cr_status cr = "DONE" /\ cr_restart cr = false /\ has_type command "UNINSTALL")
  | Py.Raise _ => True
  end.
Proof.
  unfold handle_command_body.
  destruct (Py.eq_str _ "RUN_NOW") eqn:Ht1; [by dispatch_run |].
  destruct (Py.eq_str _ "SET_SCHEDULE") eqn:Ht2; [by dispatch_run |].
  destruct (Py.eq_str _ "UPDATE_AGENT") eqn:Ht3.
  { apply eq_str_type in Ht3. by dispatch_run. }
  destruct (Py.eq_str _ "SET_POLL_INTERVAL") eqn:Ht4.
  { apply eq_str_type in Ht4. by dispatch_run. }
  destruct (Py.eq_str _ "UNINSTALL") eqn:Ht5.
  { apply eq_str_type in Ht5. by dispatch_run. }
  destruct (Py.eq_str _ "LIST_LOGS") eqn:Ht6; [by dispatch_run |].
  destruct (Py.eq_str _ "FETCH_LOG") eqn:Ht7; [by dispatch_run |].
  destruct (Py.eq_str _ "FETCH_INFO") eqn:Ht8; [by dispatch_run |].
  by dispatch_run.
Qed.

End DispatchFlags.

(** X20. Whatever the command, the dispatcher asks for a restart of the
    poller only with status [DONE] and only for [UPDATE_AGENT] and
    [SET_POLL_INTERVAL], and for the exit of the poller only with status
    [DONE] and only for [UNINSTALL]; it never asks for both, and with
    status [ERROR] it asks for neither. *)
Theorem restart_and_exit_only_after_success
    (e : Agent.env) (command : gmap string Py.value) (w : Agent.world) :
  exists cr,
    (Agent.handle_command e command w).1 = Py.Return cr /\
    (Agent.cr_restart cr = true ->
     Agent.cr_status cr = "DONE" /\ Agent.cr_exit_after cr = false /\
     (has_type command "UPDATE_AGENT" \/ has_type command "SET_POLL_INTERVAL")) /\
    (Agent.cr_exit_after cr = true ->
     Agent.cr_status cr = "DONE" /\ Agent.cr_restart cr = false /\
     has_type command "UNINSTALL") /\
    (Agent.cr_status cr = "ERROR" ->
     Agent.cr_restart cr = false /\ Agent.cr_exit_after cr = false).
Proof.
  unfold Agent.handle_command, Eff.try_except.
  pose proof (handle_command_body_flags e command w) as H.
  destruct (Agent.handle_command_body e command w) as [[cr|exc] w1]; cbn [fst snd] in *.
  - exists cr. destruct H as [Hr Hx].
    split; [done |]. split; [done |]. split; [done |].
    intros Herr. split.
    + destruct (Agent.cr_restart cr); [| done].
      destruct (Hr eq_refl) as [Hdone _]. congruence.
    + destruct (Agent.cr_exit_after cr); [| done].
      destruct (Hx eq_refl) as [Hdone _]. congruence.
  - eexists. split; [reflexivity |]. cbn. by repeat split.
Qed.

(** On [quiet_host] the command [UNINSTALL] is answered with [DONE] and
    the request to exit. *)
Lemma restart_and_exit_only_after_success_witness :
  exists cr,
    (Agent.handle_command quiet_host {[ "type" := Py.VStr "UNINSTALL" ]} idle_world).1
      = Py.Return cr /\
    Agent.cr_exit_after cr = true /\ Agent.cr_status cr = "DONE" /\
    Agent.cr_restart cr = false.
Proof.
  destruct (restart_and_exit_only_after_success quiet_host {[ "type" := Py.VStr "UNINSTALL" ]}
              idle_world) as (cr & Hr & _ & Hexit & _).
  exists cr. split; [exact Hr |].
  assert (Hflag : Agent.cr_exit_after cr = true).
  { vm_compute in Hr. injection Hr as <-. reflexivity. }
  split; [exact Hflag |]. destruct (Hexit Hflag) as (Hdone & Hrestart & _). by split.
Defined.

Section ScheduleFacts.
Import Eff Agent.
Context (e : env).

(** The dispatcher on a [SET_SCHEDULE] command, step by step. *)
Lemma handle_set_schedule command w :
  command !! "type" = Some (Py.VStr "SET_SCHEDULE") ->
  handle_command e command w =
    try_except
      (let payload := Py.or_value (Py.dict_get command "payload") (Py.VDict ∅) in
       let* enabled_value := lift (value_get payload "enabled") in
       let enabled := Py.truth enabled_value in
       let* daily_value := lift (value_get payload "dailyTime") in
       let daily_time := Py.or_value daily_value (Py.VStr "03:00") in
       let schedule := dict_of [("enabled", Py.VBool enabled); ("dailyTime", daily_time)] in
       let* cfg := get config in
       let* _ := set_config (<["schedule" := schedule]> cfg) in
       let* cfg := get config in
       let* _ := save_config cfg in
       let* _ := collaborator e (SetSchedule enabled daily_time) in
       ret (CommandResult "DONE" (dict_of [("schedule", schedule)]) None false false))
      (fun exc =>
         ret (CommandResult "ERROR" (Py.VDict ∅) (Some (Py.exn_text exc)) false false))
      w.
Proof.
  intros Htype. unfold handle_command, handle_command_body, Py.dict_get.
  rewrite Htype. reflexivity.
Qed.

(** The normalised form of a schedule entry. *)
Definition normal (schedule : gmap string Py.value) : Py.value :=
  Py.VDict (<["enabled" := Py.VBool (Py.truth (default (Py.VBool false)
                                                 (schedule !! "enabled")))]>
              (<["dailyTime" := default (Py.VStr "03:00") (schedule !! "dailyTime")]> ∅)).

Lemma normal_schedule_dict data schedule w :
  Py.or_value (Py.dict_get data "schedule") (Py.VDict ∅) = Py.VDict schedule ->
  normal_schedule data w = (Py.Return (normal schedule), w).
Proof. intros Hs. unfold normal_schedule. by rewrite Hs. Qed.

Lemma normal_schedule_other data v w :
  Py.or_value (Py.dict_get data "schedule") (Py.VDict ∅) = v ->
  (forall schedule, v <> Py.VDict schedule) ->
  normal_schedule data w
  = (Py.Raise (Py.Exn Py.AttributeError "object has no attribute 'get'"), w).
Proof.
  intros Hs Hv. unfold normal_schedule. rewrite Hs.
  destruct v; try reflexivity. by destruct (Hv d).
Qed.

(** A normalised schedule entry is its own normal form. *)
Lemma normal_again data schedule :
  Py.or_value (Py.dict_get (<["schedule" := normal schedule]> data) "schedule") (Py.VDict ∅)
  = normal schedule /\
  (forall inner, normal schedule = Py.VDict inner -> normal inner = normal schedule).
Proof.
  split.
  - unfold Py.dict_get. rewrite lookup_insert_eq. unfold Py.or_value, normal. simpl.
    rewrite bool_decide_eq_false_2; [done |]. apply insert_non_empty.
  - intros inner [= <-]. unfold normal.
    rewrite lookup_insert_eq, lookup_insert_ne, lookup_insert_eq by done. simpl.
    by destruct (Py.truth _).
Qed.

(** [save_config] on a configuration whose [schedule] entry is missing,
    falsy or a dictionary: only the file changes. *)
Lemma saved_config_steps data w schedule :
  Py.or_value (Py.dict_get data "schedule") (Py.VDict ∅) = Py.VDict schedule ->
  save_config data w
  = (Py.Return tt,
     World (config w) (Some (<["schedule" := normal schedule]> data)) (state_file w)
           (lock w) (next_fd w) (ticks w) (log_files w) (commands w) (calls w)
           (printed w) (host w)).
Proof.
  intros Hentry. unfold save_config, bind.
  by rewrite (normal_schedule_dict data schedule w Hentry).
Qed.

End ScheduleFacts.

(** X21. [save_config] writes the configuration with its [schedule]
    entry put into normal form ([enabled] as a boolean, [False] when
    missing; [dailyTime] as given, "03:00" when missing), and
    [load_config] then returns exactly what was written: reading back
    normalises nothing further. When the [schedule] entry is truthy and
    not a dictionary, [save_config] raises [AttributeError] and writes
    nothing. *)
Theorem saved_config_loads_back
    (data : gmap string Py.value) (w : Agent.world) :
  let entry := Py.or_value (Py.dict_get data "schedule") (Py.VDict ∅) in
  (forall schedule,
     entry = Py.VDict schedule ->
     let saved := <["schedule" := normal schedule]> data in
     exists w',
       Agent.save_config data w = (Py.Return tt, w') /\
       Agent.config_file w' = Some saved /\
       Agent.load_config w' = (Py.Return saved, w')) /\
  ((forall schedule, entry <> Py.VDict schedule) ->
   Agent.save_config data w
   = (Py.Raise (Py.Exn Py.AttributeError "object has no attribute 'get'"), w)).
Proof.
  intros entry. split.
  - intros schedule Hentry saved.
    unfold Agent.save_config, Eff.bind. rewrite (normal_schedule_dict data schedule w Hentry).
    unfold Agent.set_config_file, Eff.modify. eexists. split; [reflexivity |].
    split; [reflexivity |].
    unfold Agent.load_config, Eff.bind, Eff.get. cbn [Agent.config_file].
    destruct (normal_again data schedule) as [Hn1 Hn2].
    destruct (normal schedule) as [| | | | | |inner] eqn:Hnormal; try discriminate Hnormal.
    fold saved.
    rewrite (normal_schedule_dict saved inner _ Hn1). unfold Eff.ret.
    rewrite (Hn2 inner eq_refl). unfold saved. by rewrite insert_insert_eq.
  - intros Hother. unfold Agent.save_config, Eff.bind.
    by rewrite (normal_schedule_other data entry w eq_refl Hother).
Qed.

Lemma saved_config_loads_back_witness :
  let data : gmap string Py.value :=
    {[ "agentId" := Py.VStr "a1";
       "schedule" := Py.VDict {[ "enabled" := Py.VInt 1 ]} ]} in
  exists w',
    Agent.save_config data idle_world = (Py.Return tt, w') /\
    Agent.load_config w'
    = (Py.Return (<["schedule" := Py.VDict (<["enabled" := Py.VBool true]>
                                             (<["dailyTime" := Py.VStr "03:00"]> ∅))]> data),
       w').
Proof.
  intros data.
  destruct (proj1 (saved_config_loads_back data idle_world) {[ "enabled" := Py.VInt 1 ]})
    as (w' & Hsave & _ & Hload).
  - vm_compute. reflexivity.
  - exists w'. split; [exact Hsave | exact Hload].
Defined.

(** X22. A [SET_SCHEDULE] command sets the [schedule] entry of the
    configuration to [enabled] (the truth value of the payload's
    [enabled], [False] when missing) and [dailyTime] (the payload's, or
    "03:00" when missing or falsy), first in memory, then in the
    configuration file, and only then hands both values to
    [set_schedule]. When [set_schedule] returns, the answer is [DONE]
    with the new schedule; when it raises, the answer is [ERROR] with the
    text of the exception, and the new schedule is in memory and in the
    file all the same. Neither restart nor exit is asked for. *)
Theorem set_schedule_dispatch
    (e : Agent.env) (command payload : gmap string Py.value) (w : Agent.world) :
  command !! "type" = Some (Py.VStr "SET_SCHEDULE") ->
  Py.or_value (Py.dict_get command "payload") (Py.VDict ∅) = Py.VDict payload ->
  let enabled := Py.truth (Py.dict_get payload "enabled") in
  let daily_time := Py.or_value (Py.dict_get payload "dailyTime") (Py.VStr "03:00") in
  let schedule := Agent.dict_of [("enabled", Py.VBool enabled); ("dailyTime", daily_time)] in
  let r := Agent.handle_command e command w in
  Agent.config r.2 = <["schedule" := schedule]> (Agent.config w) /\
  Agent.config_file r.2 = Some (<["schedule" := schedule]> (Agent.config w)) /\
  Agent.calls r.2 = Agent.calls w ++ [Agent.SetSchedule enabled daily_time] /\
  r.1 = match Agent.answer e (Agent.calls w) (Agent.SetSchedule enabled daily_time) with
        | Py.Return _ =>
            Py.Return (Agent.CommandResult "DONE" (Agent.dict_of [("schedule", schedule)])
                                           None false false)
        | Py.Raise exc =>
            Py.Return (Agent.CommandResult "ERROR" (Py.VDict ∅) (Some (Py.exn_text exc))
                                           false false)
        end.
Proof.
  intros Htype Hpayload enabled daily_time schedule r.
  assert (Hr : r = Agent.handle_command e command w) by done. clearbody r.
  rewrite (handle_set_schedule e command w Htype) in Hr.
  rewrite Hpayload in Hr. cbn zeta in Hr.
  unfold Eff.try_except, Eff.bind at 1, Eff.lift at 1, Agent.value_get in Hr.
  unfold Eff.bind at 1, Eff.lift at 1 in Hr.
  fold enabled in Hr. fold daily_time in Hr. fold schedule in Hr.
  unfold Eff.bind at 1, Eff.get at 1 in Hr.
  unfold Eff.bind at 1, Agent.set_config at 1, Eff.modify at 1 in Hr.
  unfold Eff.bind at 1, Eff.get at 1 in Hr. cbn [Agent.config] in Hr.
  set (cfg := <["schedule" := schedule]> (Agent.config w)) in *.
  set (w1 := Agent.World cfg _ _ _ _ _ _ _ _ _ _) in Hr.
  set (inner := <["enabled" := Py.VBool enabled]> (<["dailyTime" := daily_time]> ∅)
              : gmap string Py.value).
  assert (Hschedule : schedule = Py.VDict inner) by reflexivity.
  assert (Hentry : Py.or_value (Py.dict_get cfg "schedule") (Py.VDict ∅) = Py.VDict inner).
  { unfold Py.dict_get, cfg. rewrite lookup_insert_eq, Hschedule.
    unfold Py.or_value. simpl. rewrite bool_decide_eq_false_2; [done |].
    apply insert_non_empty. }
  assert (Hnormal : normal inner = schedule).
  { unfold normal, inner.
    rewrite lookup_insert_eq, lookup_insert_ne, lookup_insert_eq by done. simpl.
    by destruct enabled. }
  pose proof (saved_config_steps cfg w1 inner Hentry) as Hsave.
  rewrite Hnormal in Hsave.
  assert (Hsaved : <["schedule" := schedule]> cfg = cfg)
    by (unfold cfg; apply insert_insert_eq).
  rewrite Hsaved in Hsave.
  unfold Eff.bind at 1 in Hr. rewrite Hsave in Hr.
  unfold Agent.collaborator, Agent.record_call, Eff.modify, Eff.lift, mbind, Eff.M_bind,
    Eff.bind, Eff.get, Eff.ret in Hr.
  subst w1. cbn [Agent.calls fst snd] in Hr.
  destruct (Agent.answer e (Agent.calls w) (Agent.SetSchedule enabled daily_time))
    as [v|exc]; subst r; by cbn [fst snd Agent.config Agent.config_file Agent.calls].
Qed.

(** The command [{"type": "SET_SCHEDULE", "payload": {"enabled": true,
    "dailyTime": "04:30"}}]. *)
Definition nightly_command : gmap string Py.value :=
  {[ "type" := Py.VStr "SET_SCHEDULE";
     "payload" := Py.VDict {[ "enabled" := Py.VBool true;
                              "dailyTime" := Py.VStr "04:30" ]} ]}.

Lemma set_schedule_dispatch_witness :
  Agent.calls (Agent.handle_command quiet_host nightly_command idle_world).2
  = [Agent.SetSchedule true (Py.VStr "04:30")].
Proof.
  assert (Htype : nightly_command !! "type" = Some (Py.VStr "SET_SCHEDULE"))
    by (vm_compute; reflexivity).
  assert (Hpayload : Py.or_value (Py.dict_get nightly_command "payload") (Py.VDict ∅)
                     = Py.VDict {[ "enabled" := Py.VBool true;
                                   "dailyTime" := Py.VStr "04:30" ]})
    by (vm_compute; reflexivity).
  destruct (set_schedule_dispatch quiet_host nightly_command _ idle_world Htype Hpayload)
    as (_ & _ & Hcalls & _).
  etrans; [exact Hcalls | vm_compute; reflexivity].
Defined.

(** ** Self-update: failures before the swap *)

(** X23. When the download fails, [update_agent] raises the error of the
    download and has touched nothing. When the bundle is downloaded but
    cannot be read as an archive, it raises the error of [tarfile]; by
    then it has created the temporary directory, written the bundle into
    it and created the empty directory [app] there, and it leaves them
    behind; the node at [APP_DIR] is the node that was there before and
    no rename or removal was performed. *)
Theorem update_agent_failure_before_swap
    (e : Updater.env) (config : gmap string Py.value) (verbose : bool)
    (s : Updater.state) :
  let name := "agentautoupdate-" +:+ Updater.mkdtemp_suffix e in
  let temp_dir := Updater.work_dir ++ [name] in
  let r := Updater.update_agent e config verbose s in
  (forall exc,
     Updater.api_get e config = Py.Raise exc ->
     r.1 = Py.Raise exc /\ Updater.root r.2 = Updater.root s /\
     Updater.ops r.2 = Updater.ops s) /\
  (forall chunks exc work_entries,
     Updater.api_get e config = Py.Return chunks ->
     let bundle := String.concat "" (List.filter Py.truthy chunks) in
     Updater.untar e bundle = Py.Raise exc ->
     Updater.lookup Updater.work_dir s = Some (Updater.Dir work_entries) ->
     work_entries !! name = None ->
     ~ Updater.APP_DIR e `prefix_of` temp_dir ->
     ~ temp_dir `prefix_of` Updater.APP_DIR e ->
     r.1 = Py.Raise exc /\
     Updater.lookup (Updater.APP_DIR e) r.2 = Updater.lookup (Updater.APP_DIR e) s /\
     Updater.lookup temp_dir r.2
     = Some (Updater.Dir (<["app" := Updater.Dir ∅]>
                            {[ "latest.tar.gz" := Updater.File bundle ]})) /\
     Updater.ops r.2 = Updater.ops s ++
                       [Updater.Mkdtemp temp_dir;
                        Updater.WriteFile (temp_dir ++ ["latest.tar.gz"]);
                        Updater.Mkdir (temp_dir ++ ["app"])]).
Proof.
  intros name temp_dir r.
  assert (Hr : r = Updater.update_agent e config verbose s) by done. clearbody r.
  unfold Updater.update_agent, mbind, Eff.M_bind in Hr.
  set (work := Updater.work_dir) in *. clearbody work.
  rewrite (bind_return _ _ _ _ _ (log_said verbose _ s)) in Hr.
  set (s0 := said verbose _ s) in Hr.
  split.
  - intros exc Hget.
    rewrite (bind_raise (Eff.lift _) _ s0 exc s0) in Hr
      by (unfold Eff.lift; by rewrite Hget).
    subst r. cbn [fst snd]. unfold s0. by rewrite said_root, said_ops.
  - intros chunks exc work_entries Hget bundle Htar Hwork Hfresh Hapart1 Hapart2.
    rewrite (bind_return (Eff.lift _) _ s0 chunks s0) in Hr
      by (unfold Eff.lift; by rewrite Hget).
    assert (Hwork0 : Updater.lookup work s0 = Some (Updater.Dir work_entries))
      by (subst s0; by rewrite said_lookup).
    rewrite (bind_return _ _ _ _ _
               (mkdtemp_fresh _ "agentautoupdate-" _ s0 _ Hwork0 Hfresh)) in Hr.
    fold name in Hr. fold temp_dir in Hr.
    set (s1 := Updater.State _ _ _) in Hr.
    assert (Htemp1 : Updater.lookup temp_dir s1 = Some (Updater.Dir ∅)).
    { unfold Updater.lookup, s1, temp_dir. cbn [Updater.root].
      by rewrite (lookup_changed_entry _ _ _ _ _ Hwork0). }
    rewrite (bind_return _ _ _ _ _
               (write_file_new temp_dir "latest.tar.gz" _ s1 _ Htemp1 (lookup_empty _))) in Hr.
    set (s2 := Updater.State _ _ _) in Hr.
    fold bundle in s2.
    assert (Htemp2 : Updater.lookup temp_dir s2
                     = Some (Updater.Dir {[ "latest.tar.gz" := Updater.File bundle ]})).
    { unfold Updater.lookup, s2. cbn [Updater.root].
      by rewrite (lookup_change_entry _ _ _ _ _ Htemp1). }
    rewrite (bind_return _ _ _ _ _
               (mkdir_new temp_dir "app" s2 _ Htemp2 ltac:(done))) in Hr.
    set (s3 := Updater.State _ _ _) in Hr.
    assert (Htemp3 : Updater.lookup temp_dir s3
                     = Some (Updater.Dir (<["app" := Updater.Dir ∅]>
                                            {[ "latest.tar.gz" := Updater.File bundle ]}))).
    { unfold Updater.lookup, s3. cbn [Updater.root].
      by rewrite (lookup_change_entry _ _ _ _ _ Htemp2). }
    rewrite (bind_return _ _ _ _ _ (log_said verbose _ s3)) in Hr.
    set (s4 := said verbose _ s3) in Hr.
    assert (Htemp4 : Updater.lookup temp_dir s4
                     = Some (Updater.Dir (<["app" := Updater.Dir ∅]>
                                            {[ "latest.tar.gz" := Updater.File bundle ]})))
      by (subst s4; by rewrite said_lookup).
    rewrite (bind_return _ _ _ _ _
               (read_text_file temp_dir "latest.tar.gz" bundle s4 _ Htemp4 ltac:(done))) in Hr.
    rewrite (bind_raise (Eff.lift _) _ s4 exc s4) in Hr
      by (unfold Eff.lift; by rewrite Htar).
    subst r. cbn [fst snd].
    split; [done |]. split; [| split; [done |]].
    + assert (Hother : forall x f n,
                 Updater.lookup_at (Updater.APP_DIR e) (Updater.change_at (temp_dir ++ x) f n)
                 = Updater.lookup_at (Updater.APP_DIR e) n).
      { intros x f n. destruct (apart_below _ _ x Hapart1 Hapart2).
        by apply lookup_change_other. }
      unfold Updater.lookup, s4. rewrite said_root.
      unfold s3, s2, s1, s0. cbn [Updater.root]. rewrite !Hother.
      rewrite <- (app_nil_r temp_dir) at 1. by rewrite Hother, said_root.
    + unfold s4. rewrite said_ops.
      unfold s3, s2, s1, s0. cbn [Updater.ops]. rewrite said_ops.
      by rewrite <- !app_assoc.
Qed.

(** A dashboard that serves something that is not an archive. *)
Definition garbled_bundle_host : Updater.env :=
  Updater.Env ["opt"; "agentautoupdate"; "app"]
    (fun _ => Py.Return ["<html>"; "502 Bad Gateway"; "</html>"])
    "x1y2z3"
    (fun _ => Py.Raise (Py.Exn Py.ReadError "not a gzip file"))
    None.

Lemma update_agent_failure_before_swap_witness :
  let r := Updater.update_agent garbled_bundle_host ∅ false installed in
  r.1 = Py.Raise (Py.Exn Py.ReadError "not a gzip file") /\
  Updater.lookup ["opt"; "agentautoupdate"; "app"] r.2
  = Some (Updater.Dir {[ "VERSION" := Updater.File "1.0.0" ]}) /\
  Updater.lookup ["opt"; "agentautoupdate"; "agentautoupdate-x1y2z3"; "latest.tar.gz"] r.2
  = Some (Updater.File "<html>502 Bad Gateway</html>").
Proof.
  intros r.
  assert (Hprefix1 : ~ Updater.APP_DIR garbled_bundle_host
                       `prefix_of` Updater.work_dir ++ ["agentautoupdate-x1y2z3"]).
  { intros [k Hk]. vm_compute in Hk. discriminate Hk. }
  assert (Hprefix2 : ~ (Updater.work_dir ++ ["agentautoupdate-x1y2z3"])
                       `prefix_of` Updater.APP_DIR garbled_bundle_host).
  { intros [k Hk]. vm_compute in Hk. discriminate Hk. }
  destruct (proj2 (update_agent_failure_before_swap garbled_bundle_host ∅ false installed)
              ["<html>"; "502 Bad Gateway"; "</html>"]
              (Py.Exn Py.ReadError "not a gzip file")
              {[ "app" := Updater.Dir {[ "VERSION" := Updater.File "1.0.0" ]} ]}
              eq_refl eq_refl eq_refl eq_refl Hprefix1 Hprefix2)
    as (Hraise & Hsame & Htemp & _).
  fold r in Hraise, Hsame, Htemp.
  split; [exact Hraise |]. split; [etrans; [exact Hsame | reflexivity] |].
  change ["opt"; "agentautoupdate"; "agentautoupdate-x1y2z3"; "latest.tar.gz"]
    with ((Updater.work_dir ++ ["agentautoupdate-x1y2z3"]) ++ ["latest.tar.gz"]).
  unfold Updater.lookup in *. rewrite lookup_at_app.
  change ("agentautoupdate-" +:+ Updater.mkdtemp_suffix garbled_bundle_host)
    with "agentautoupdate-x1y2z3" in Htemp.
  rewrite Htemp. reflexivity.
Defined.
